(** * GGUF catalogue curation: the spam filter pipeline

    A shallow embedding of [spam_filter/config.py], [classifier.py],
    [quantization_selector.py], [hardware_calculator.py], [engine.py] and of
    the configuration gate of [scripts/simplified_gguf_fetcher.py].

    Conventions of the embedding.
    - Python values that come out of JSON are values of [pyval]; a [dict] is
      an insertion-ordered association list with unique keys.
    - A Python [int] is a [Z]; a Python [float] is an IEEE binary64 number,
      a [spec_float] at precision 53 and maximal exponent 1024.
    - A Python [str] is a [string]; the model covers ASCII text: case
      mapping, [\w], [\s] and [\d] are the ASCII ones.
    - Code that can raise returns a [result]; the engine, which mutates its
      report and its error list while it can still raise, runs in the state
      and exception monad [M].  Logging is not modelled. *)

From Stdlib Require Import ZArith List String Ascii Bool Lia.
From Stdlib Require Import Permutation.
From Stdlib Require Import SpecFloat.
Import ListNotations.

Set Warnings "-register-all".
Open Scope string_scope.
Open Scope Z_scope.

(** ** Python values, exceptions and results *)

Inductive pyval : Type :=
| PNone
| PBool (b : bool)
| PInt (z : Z)
| PFloat (f : spec_float)
| PStr (s : string)
| PList (l : list pyval)
| PDict (d : list (string * pyval)).

Definition dict := list (string * pyval).

Inductive exn_class := TypeError | ValueError | AttributeError
                     | OverflowError | ZeroDivisionError.

(** An exception is its class and the text [str(e)] gives. *)
Record exn := mk_exn { exn_cls : exn_class; exn_msg : string }.

Inductive result (A : Type) : Type :=
| Ok (a : A)
| Raise (e : exn).
Arguments Ok {A} a.
Arguments Raise {A} e.

Definition rbind {A B} (r : result A) (k : A -> result B) : result B :=
  match r with
  | Ok a => k a
  | Raise e => Raise e
  end.

Declare Scope py_scope.
Delimit Scope py_scope with py.
Notation "x <- c ;; k" := (rbind c (fun x => k))
  (at level 61, c at next level, right associativity) : py_scope.
Open Scope py_scope.

Definition is_ok {A} (r : result A) : bool :=
  match r with Ok _ => true | Raise _ => false end.

(** [for x in xs: ...] over a body that can raise. *)
Fixpoint rmap {A B} (f : A -> result B) (xs : list A) : result (list B) :=
  match xs with
  | [] => Ok []
  | x :: t => y <- f x ;; ys <- rmap f t ;; Ok (y :: ys)
  end.

Fixpoint rfilter {A} (f : A -> result bool) (xs : list A) : result (list A) :=
  match xs with
  | [] => Ok []
  | x :: t => b <- f x ;; ys <- rfilter f t ;; Ok (if b then x :: ys else ys)
  end.

(** [any(f(x) for x in xs)]: stops at the first true element. *)
Fixpoint rany {A} (f : A -> result bool) (xs : list A) : result bool :=
  match xs with
  | [] => Ok false
  | x :: t => b <- f x ;; if b then Ok true else rany f t
  end.

(** ** Dictionaries *)

Fixpoint dict_find (d : dict) (k : string) : option pyval :=
  match d with
  | [] => None
  | (k', v) :: t => if String.eqb k k' then Some v else dict_find t k
  end.

(** [d.get(k, dflt)] *)
Definition dict_get (d : dict) (k : string) (dflt : pyval) : pyval :=
  match dict_find d k with
  | Some v => v
  | None => dflt
  end.

(** [d[k] = v]: an existing key keeps its place. *)
Fixpoint dict_set (d : dict) (k : string) (v : pyval) : dict :=
  match d with
  | [] => [(k, v)]
  | (k', v') :: t =>
      if String.eqb k k' then (k', v) :: t else (k', v') :: dict_set t k v
  end.

Definition dict_has (d : dict) (k : string) : bool :=
  match dict_find d k with Some _ => true | None => false end.

(** ** Type names and truth values *)

Definition type_name (v : pyval) : string :=
  match v with
  | PNone => "NoneType"
  | PBool _ => "bool"
  | PInt _ => "int"
  | PFloat _ => "float"
  | PStr _ => "str"
  | PList _ => "list"
  | PDict _ => "dict"
  end.

Definition is_fzero (f : spec_float) : bool :=
  match f with S754_zero _ => true | _ => false end.

(** [bool(v)] *)
Definition truthy (v : pyval) : bool :=
  match v with
  | PNone => false
  | PBool b => b
  | PInt z => negb (z =? 0)
  | PFloat f => negb (is_fzero f)
  | PStr s => negb (String.eqb s "")
  | PList l => match l with [] => false | _ => true end
  | PDict d => match d with [] => false | _ => true end
  end.

(** ** Floats: IEEE binary64 *)

Definition prec : Z := 53.
Definition emax : Z := 1024.

Definition fsub := SFsub prec emax.
Definition fmul := SFmul prec emax.
Definition fdiv := SFdiv prec emax.
Definition flt := SFltb.
Definition fle := SFleb.

(** The float nearest to the integer [z] (ties to even), without the
    range check. *)
Definition float_of_Z_round (z : Z) : spec_float :=
  binary_normalize prec emax z 0 false.

(** The float nearest to the quotient [a / b] of two integers, [b <> 0]. *)
Definition float_of_ratio (a b : Z) : spec_float :=
  match a, b with
  | Z0, _ => S754_zero false
  | _, Z0 => S754_nan
  | _, _ =>
      fdiv (S754_finite (a <? 0) (Z.to_pos (Z.abs a)) 0)
           (S754_finite (b <? 0) (Z.to_pos (Z.abs b)) 0)
  end.

(** A real of magnitude at least [2^1024 - 2^970] rounds to infinity. *)
Definition overflow_threshold : Z := 2 ^ 1024 - 2 ^ 970.

Definition exn_int_too_large : exn :=
  mk_exn OverflowError "int too large to convert to float".
Definition exn_div_too_large : exn :=
  mk_exn OverflowError "integer division result too large for a float".
Definition exn_div_zero : exn :=
  mk_exn ZeroDivisionError "division by zero".
Definition exn_fdiv_zero : exn :=
  mk_exn ZeroDivisionError "float division by zero".

(** [float(z)] for an int [z] *)
Definition float_of_int (z : Z) : result spec_float :=
  if overflow_threshold <=? Z.abs z then Raise exn_int_too_large
  else Ok (float_of_Z_round z).

(** [a / b] for two ints: the correctly rounded quotient. *)
Definition int_truediv (a b : Z) : result spec_float :=
  if b =? 0 then Raise exn_div_zero
  else if overflow_threshold * Z.abs b <=? Z.abs a then Raise exn_div_too_large
  else Ok (float_of_ratio a b).

(** [x / y] for two floats *)
Definition float_truediv (x y : spec_float) : result spec_float :=
  if is_fzero y then Raise exn_fdiv_zero else Ok (fdiv x y).

(** [int(x)] for a float [x]: truncation towards zero. *)
Definition int_of_float (x : spec_float) : result Z :=
  match x with
  | S754_zero _ => Ok 0
  | S754_infinity _ =>
      Raise (mk_exn OverflowError "cannot convert float infinity to integer")
  | S754_nan =>
      Raise (mk_exn ValueError "cannot convert float NaN to integer")
  | S754_finite s m e =>
      let a := match e with
               | Zneg p => Z.shiftr (Zpos m) (Zpos p)
               | _ => Z.shiftl (Zpos m) e
               end in
      Ok (if s then - a else a)
  end.

(** Exact comparison of an int with a float, as Python compares them:
    [None] when the float is a NaN. *)
Definition cmp_int_float (z : Z) (x : spec_float) : option comparison :=
  match x with
  | S754_nan => None
  | S754_infinity s => Some (if s then Gt else Lt)
  | S754_zero _ => Some (z ?= 0)
  | S754_finite s m e =>
      let v := if s then Zneg m else Zpos m in
      Some match e with
           | Zneg p => (z * 2 ^ Zpos p ?= v)
           | _ => (z ?= v * 2 ^ e)
           end
  end.

(** ** Dynamic arithmetic and comparisons *)

Inductive num := NInt (z : Z) | NFloat (f : spec_float).

(** [bool] is a subclass of [int]. *)
Definition as_num (v : pyval) : option num :=
  match v with
  | PBool b => Some (NInt (if b then 1 else 0))
  | PInt z => Some (NInt z)
  | PFloat f => Some (NFloat f)
  | _ => None
  end.

Definition num_cmp (a b : num) : option comparison :=
  match a, b with
  | NInt x, NInt y => Some (x ?= y)
  | NInt x, NFloat g => cmp_int_float x g
  | NFloat f, NInt y => option_map CompOpp (cmp_int_float y f)
  | NFloat f, NFloat g => SFcompare f g
  end.

Inductive ordop := OpLt | OpLe | OpGt | OpGe.

Definition ordop_text (op : ordop) : string :=
  match op with OpLt => "<" | OpLe => "<=" | OpGt => ">" | OpGe => ">=" end.

(** An unordered pair (a NaN is involved) satisfies no ordering. *)
Definition ord_holds (op : ordop) (c : option comparison) : bool :=
  match op, c with
  | OpLt, Some Lt => true
  | OpLe, Some (Lt | Eq) => true
  | OpGt, Some Gt => true
  | OpGe, Some (Gt | Eq) => true
  | _, _ => false
  end.

(** [a == b] *)
Fixpoint py_eq (a b : pyval) {struct a} : bool :=
  match a, b with
  | PNone, PNone => true
  | PStr s, PStr t => String.eqb s t
  | PList l, PList m =>
      (fix go (l m : list pyval) : bool :=
         match l, m with
         | [], [] => true
         | x :: l', y :: m' => py_eq x y && go l' m'
         | _, _ => false
         end) l m
  | PDict d, PDict d' =>
      (List.length d =? List.length d')%nat &&
      (fix go (d : list (string * pyval)) : bool :=
         match d with
         | [] => true
         | (k, v) :: t =>
             match dict_find d' k with
             | Some w => py_eq v w && go t
             | None => false
             end
         end) d
  | _, _ =>
      match as_num a, as_num b with
      | Some x, Some y =>
          match num_cmp x y with Some Eq => true | _ => false end
      | _, _ => false
      end
  end.

Definition exn_unordered (op : ordop) (a b : pyval) : exn :=
  mk_exn TypeError
    ("'" ++ ordop_text op ++ "' not supported between instances of '"
     ++ type_name a ++ "' and '" ++ type_name b ++ "'").

(** [a op b] for an ordering operator. *)
Fixpoint py_order (op : ordop) (a b : pyval) {struct a} : result bool :=
  match a, b with
  | PStr s, PStr t => Ok (ord_holds op (Some (String.compare s t)))
  | PList l, PList m =>
      (fix go (l m : list pyval) : result bool :=
         match l, m with
         | x :: l', y :: m' => if py_eq x y then go l' m' else py_order op x y
         | [], [] => Ok (ord_holds op (Some Eq))
         | [], _ :: _ => Ok (ord_holds op (Some Lt))
         | _ :: _, [] => Ok (ord_holds op (Some Gt))
         end) l m
  | _, _ =>
      match as_num a, as_num b with
      | Some x, Some y => Ok (ord_holds op (num_cmp x y))
      | _, _ => Raise (exn_unordered op a b)
      end
  end.

Definition py_lt := py_order OpLt.
Definition py_gt := py_order OpGt.
Definition py_ge := py_order OpGe.

Definition num_to_float (x : num) : result spec_float :=
  match x with
  | NInt z => float_of_int z
  | NFloat f => Ok f
  end.

(** [a / b] *)
Definition py_truediv (a b : pyval) : result spec_float :=
  match as_num a, as_num b with
  | Some (NInt x), Some (NInt y) => int_truediv x y
  | Some x, Some y =>
      fx <- num_to_float x ;; fy <- num_to_float y ;; float_truediv fx fy
  | _, _ =>
      Raise (mk_exn TypeError
               ("unsupported operand type(s) for /: '" ++ type_name a
                ++ "' and '" ++ type_name b ++ "'"))
  end.

(** [isinstance(v, (int, float))] *)
Definition is_int_or_float (v : pyval) : bool :=
  match as_num v with Some _ => true | None => false end.

(** [int(v)] for a number *)
Definition num_to_int (x : num) : result Z :=
  match x with
  | NInt z => Ok z
  | NFloat f => int_of_float f
  end.

(** Float constants of the source *)
Definition f_zero : spec_float := S754_zero false.
Definition f_one : spec_float := float_of_Z_round 1.
Definition f_half : spec_float := float_of_ratio 1 2.
Definition f_gib : spec_float := float_of_Z_round (1024 * 1024 * 1024).
Definition gib : Z := 1024 * 1024 * 1024.

(** ** Strings *)

Definition code (c : ascii) : N := N_of_ascii c.

Definition in_range (lo hi : N) (c : ascii) : bool :=
  ((lo <=? code c) && (code c <=? hi))%N.

Definition is_upper : ascii -> bool := in_range 65 90.
Definition is_lower : ascii -> bool := in_range 97 122.
Definition is_digit : ascii -> bool := in_range 48 57.
Definition is_alpha (c : ascii) : bool := is_upper c || is_lower c.
(** [\w] *)
Definition is_word (c : ascii) : bool :=
  is_alpha c || is_digit c || Ascii.eqb c "_".
(** [\s], and the characters [str.strip()] removes *)
Definition is_space (c : ascii) : bool :=
  in_range 9 13 c || in_range 28 32 c.

Definition to_lower (c : ascii) : ascii :=
  if is_upper c then ascii_of_N (code c + 32) else c.
Definition to_upper (c : ascii) : ascii :=
  if is_lower c then ascii_of_N (code c - 32) else c.

Fixpoint smap (f : ascii -> ascii) (s : string) : string :=
  match s with
  | EmptyString => EmptyString
  | String c t => String (f c) (smap f t)
  end.

(** [s.lower()], [s.upper()] *)
Definition lower : string -> string := smap to_lower.
Definition upper : string -> string := smap to_upper.

(** [s.startswith(p)] *)
Definition startswith (s p : string) : bool := String.prefix p s.

(** [sub in s] *)
Fixpoint contains (sub s : string) : bool :=
  String.prefix sub s ||
  match s with
  | EmptyString => false
  | String _ t => contains sub t
  end.

Fixpoint srev_app (s acc : string) : string :=
  match s with
  | EmptyString => acc
  | String c t => srev_app t (String c acc)
  end.
Definition srev (s : string) : string := srev_app s EmptyString.

(** [s.endswith(p)] *)
Definition endswith (s p : string) : bool := String.prefix (srev p) (srev s).

Fixpoint lstrip (s : string) : string :=
  match s with
  | String c t => if is_space c then lstrip t else s
  | EmptyString => EmptyString
  end.
(** [s.strip()] *)
Definition strip (s : string) : string := srev (lstrip (srev (lstrip s))).

(** [sep.join(parts)] *)
Fixpoint join (sep : string) (parts : list string) : string :=
  match parts with
  | [] => EmptyString
  | [p] => p
  | p :: rest => p ++ sep ++ join sep rest
  end.

(** The pieces of [s] between the characters that satisfy [p]:
    [s.split(c)] and [re.split] on a one-character class. *)
Fixpoint split_on (p : ascii -> bool) (s : string) : list string :=
  match s with
  | EmptyString => [EmptyString]
  | String c t =>
      if p c then EmptyString :: split_on p t
      else match split_on p t with
           | [] => [String c EmptyString]
           | w :: ws => String c w :: ws
           end
  end.

(** [w.capitalize()] *)
Definition capitalize (w : string) : string :=
  match w with
  | EmptyString => EmptyString
  | String c t => String (to_upper c) (lower t)
  end.

(** [s[a:b]] *)
Definition slice (s : string) (a b : nat) : string :=
  String.substring a (b - a) s.

(** [str(z)] for an int *)
Fixpoint str_of_nat_fuel (fuel : nat) (n : N) (acc : string) : string :=
  match fuel with
  | O => acc
  | S fuel' =>
      let d := N.to_nat (N.modulo n 10) in
      let acc' := String (ascii_of_nat (48 + d)) acc in
      if N.ltb n 10 then acc' else str_of_nat_fuel fuel' (N.div n 10) acc'
  end.
Definition str_of_N (n : N) : string :=
  str_of_nat_fuel (S (N.to_nat (N.size n))) n EmptyString.
Definition str_of_Z (z : Z) : string :=
  match z with
  | Zneg p => "-" ++ str_of_N (Npos p)
  | _ => str_of_N (Z.to_N z)
  end.

(** The decimal digits of [s] as a number; [s] holds digits only. *)
Fixpoint digits_value (s : string) (acc : Z) : Z :=
  match s with
  | EmptyString => acc
  | String c t => digits_value t (10 * acc + Z.of_N (code c - 48))
  end.

(** ** Regular expressions

    The patterns of the source are written as terms of [re] and run by a
    backtracking matcher with the semantics of Python's [re]: leftmost
    match, greedy repetition, alternatives tried left to right.  Every
    pattern of the source has at most one capturing group. *)

Module Re.

Inductive re :=
| Chr (p : ascii -> bool)   (* one character of a class *)
| Eps
| Seq (a b : re)
| Alt (a b : re)
| Star (a : re)             (* a*, greedy *)
| Bol                       (* ^ *)
| Eol                       (* $ *)
| WordB                     (* \b *)
| Group (a : re).           (* ( a ) *)

Definition Plus (a : re) : re := Seq a (Star a).
Definition Opt (a : re) : re := Alt a Eps.

Definition lit (c : ascii) : re := Chr (Ascii.eqb c).
(** a letter under [re.IGNORECASE] *)
Definition lit_ci (c : ascii) : re :=
  Chr (fun x => Ascii.eqb (to_lower x) (to_lower c)).

Fixpoint str (s : string) : re :=
  match s with
  | EmptyString => Eps
  | String c EmptyString => lit c
  | String c t => Seq (lit c) (str t)
  end.
Fixpoint str_ci (s : string) : re :=
  match s with
  | EmptyString => Eps
  | String c EmptyString => lit_ci c
  | String c t => Seq (lit_ci c) (str_ci t)
  end.

Fixpoint alts (rs : list re) : re :=
  match rs with
  | [] => Chr (fun _ => false)
  | [r] => r
  | r :: t => Alt r (alts t)
  end.

Definition digit : re := Chr is_digit.
Definition word : re := Chr is_word.
Definition space : re := Chr is_space.
(** [.] matches anything but a newline *)
Definition dot : re := Chr (fun c => negb (Ascii.eqb c "010")).

(** A position in the subject: its index, the character before it and
    the text from it on. *)
Record cursor := mk_cursor
  { pos : nat; before : option ascii; rest : string }.

Definition start (s : string) : cursor := mk_cursor 0 None s.

Definition advance (c : cursor) : option cursor :=
  match rest c with
  | EmptyString => None
  | String a t => Some (mk_cursor (S (pos c)) (Some a) t)
  end.

Definition word_before (c : cursor) : bool :=
  match before c with Some a => is_word a | None => false end.
Definition word_after (c : cursor) : bool :=
  match rest c with String a _ => is_word a | EmptyString => false end.

Definition at_eol (c : cursor) : bool :=
  match rest c with
  | EmptyString => true
  | String a EmptyString => Ascii.eqb a "010"
  | _ => false
  end.

Definition span := (nat * nat)%type.

Section Match.
Context {X : Type}.

(** [run r k c g]: match [r] at [c], then continue with [k]; [g] is the
    capture so far.  A repetition stops when an iteration consumes
    nothing. *)
Fixpoint run (r : re) (k : cursor -> option span -> option X)
    (c : cursor) (g : option span) {struct r} : option X :=
  match r with
  | Chr p =>
      match rest c with
      | String a t =>
          if p a then k (mk_cursor (S (pos c)) (Some a) t) g else None
      | EmptyString => None
      end
  | Eps => k c g
  | Seq a b => run a (run b k) c g
  | Alt a b =>
      match run a k c g with
      | Some x => Some x
      | None => run b k c g
      end
  | Star a =>
      (fix loop (fuel : nat) (c : cursor) (g : option span) : option X :=
         match fuel with
         | O => k c g
         | S fuel' =>
             match run a (fun c' g' =>
                            if (pos c <? pos c')%nat then loop fuel' c' g'
                            else None) c g with
             | Some x => Some x
             | None => k c g
             end
         end) (String.length (rest c)) c g
  | Bol => if (pos c =? 0)%nat then k c g else None
  | Eol => if at_eol c then k c g else None
  | WordB => if xorb (word_before c) (word_after c) then k c g else None
  | Group a => run a (fun c' _ => k c' (Some (pos c, pos c'))) c g
  end.
End Match.

(** A match: where it starts, where it ends and what the group holds. *)
Record found := mk_found
  { m_start : nat; m_end : cursor; m_group : option span }.

Definition match_at (r : re) (c : cursor) : option found :=
  run r (fun c' g => Some (mk_found (pos c) c' g)) c None.

(** [re.search]: the first position, from [c] on, where [r] matches. *)
Fixpoint search_from (fuel : nat) (r : re) (c : cursor) : option found :=
  match match_at r c with
  | Some m => Some m
  | None =>
      match fuel, advance c with
      | S fuel', Some c' => search_from fuel' r c'
      | _, _ => None
      end
  end.

Definition search (r : re) (s : string) : option found :=
  search_from (String.length s) r (start s).

Definition matches (r : re) (s : string) : bool :=
  match search r s with Some _ => true | None => false end.

(** [match.group(1)] *)
Definition group1 (s : string) (m : found) : string :=
  match m_group m with
  | Some (a, b) => slice s a b
  | None => EmptyString
  end.

(** [re.sub(r, repl, s)]: every match, left to right, replaced. *)
Fixpoint sub_from (fuel : nat) (r : re) (repl : string) (c : cursor)
  : string :=
  match fuel with
  | O => rest c
  | S fuel' =>
      match match_at r c with
      | Some m =>
          if (pos c <? pos (m_end m))%nat
          then repl ++ sub_from fuel' r repl (m_end m)
          else match rest c with
               | EmptyString => repl
               | String a t =>
                   repl ++ String a
                     (sub_from fuel' r repl (mk_cursor (S (pos c)) (Some a) t))
               end
      | None =>
          match rest c with
          | EmptyString => EmptyString
          | String a t =>
              String a
                (sub_from fuel' r repl (mk_cursor (S (pos c)) (Some a) t))
          end
      end
  end.

Definition sub (r : re) (repl s : string) : string :=
  sub_from (S (String.length s)) r repl (start s).

End Re.

(** ** config.py *)

(** [finetune_patterns] holds the vocabulary as literal words: the
    source splices each one into a regular expression, the model reads
    it as plain text. *)
Record FilterConfig := mk_config
  { min_size_bytes : Z;
    size_drop_threshold : spec_float;
    min_downloads : Z;
    trusted_uploaders : list string;
    finetune_patterns : list string;
    backup_enabled : bool;
    detailed_logging : bool;
    ram_multiplier : spec_float;
    quantization_ram_reduction : spec_float;
    small_model_threshold : Z;
    medium_model_threshold : Z;
    large_model_threshold : Z;
    gpu_required_threshold : Z;
    default_os_support : list string }.

(** [FilterConfig()] *)
Definition default_config : FilterConfig :=
  {| min_size_bytes := 100 * 1024 * 1024;
     size_drop_threshold := float_of_ratio 5 100;
     min_downloads := 100;
     trusted_uploaders :=
       ["TheBloke"; "lmstudio"; "ggml-org"; "koboldai";
        "NousResearch"; "abacaj"; "OpenAccessAI"; "microsoft";
        "meta-llama"; "mistralai"; "google"; "anthropic"];
     finetune_patterns :=
       ["instruct"; "chat"; "code"; "alpaca"; "vicuna"; "wizard";
        "orca"; "dolphin"; "airoboros"; "guanaco"; "openassistant";
        "uncensored"; "roleplay"; "storytelling"; "creative";
        "assistant"; "helpful"; "harmless"; "honest"];
     backup_enabled := true;
     detailed_logging := true;
     ram_multiplier := float_of_Z_round 2;
     quantization_ram_reduction := float_of_ratio 3 10;
     small_model_threshold := 2000000000;
     medium_model_threshold := 7000000000;
     large_model_threshold := 13000000000;
     gpu_required_threshold := 13000000000;
     default_os_support := ["Windows"; "Linux"; "macOS"] |}.

Definition is_nil {A} (l : list A) : bool :=
  match l with [] => true | _ => false end.

(** [errors.append(msg)] when [cond] holds *)
Definition check (cond : bool) (msg : string) (errors : list string)
  : list string :=
  if cond then (errors ++ [msg])%list else errors.

Definition validate (c : FilterConfig) : list string :=
  let errors := [] in
  let errors := check (min_size_bytes c <=? 0)
    "min_size_bytes must be positive" errors in
  let errors :=
    check (negb (flt f_zero (size_drop_threshold c)
                 && flt (size_drop_threshold c) f_one))
    "size_drop_threshold must be between 0 and 1" errors in
  let errors := check (min_downloads c <? 0)
    "min_downloads must be non-negative" errors in
  let errors := check (is_nil (trusted_uploaders c))
    "trusted_uploaders list cannot be empty" errors in
  let errors := check (is_nil (finetune_patterns c))
    "finetune_patterns list cannot be empty" errors in
  let errors := check (fle (ram_multiplier c) f_zero)
    "ram_multiplier must be positive" errors in
  let errors :=
    check (negb (fle f_zero (quantization_ram_reduction c)
                 && fle (quantization_ram_reduction c) f_one))
    "quantization_ram_reduction must be between 0 and 1" errors in
  let errors := check (small_model_threshold c <=? 0)
    "small_model_threshold must be positive" errors in
  let errors :=
    check (medium_model_threshold c <=? small_model_threshold c)
    "medium_model_threshold must be greater than small_model_threshold"
    errors in
  let errors :=
    check (large_model_threshold c <=? medium_model_threshold c)
    "large_model_threshold must be greater than medium_model_threshold"
    errors in
  let errors := check (gpu_required_threshold c <=? 0)
    "gpu_required_threshold must be positive" errors in
  let errors := check (is_nil (default_os_support c))
    "default_os_support list cannot be empty" errors in
  errors.

(** ** classifier.py *)

Definition exn_no_attribute (v : pyval) (attr : string) : exn :=
  mk_exn AttributeError
    ("'" ++ type_name v ++ "' object has no attribute '" ++ attr ++ "'").

(** [v.lower()], [v.upper()] on a value that should be a string *)
Definition py_lower (v : pyval) : result string :=
  match v with
  | PStr s => Ok (lower s)
  | _ => Raise (exn_no_attribute v "lower")
  end.
Definition py_upper (v : pyval) : result string :=
  match v with
  | PStr s => Ok (upper s)
  | _ => Raise (exn_no_attribute v "upper")
  end.

(** [(model.get(key) or '').lower()] *)
Definition get_or_empty_lower (model : dict) (key : string) : result string :=
  let v := dict_get model key PNone in
  py_lower (if truthy v then v else PStr "").

Module Classifier.

(** [re.compile(rf'\b{pattern}\b', re.IGNORECASE)] *)
Definition compile_finetune (pattern : string) : Re.re :=
  Re.Seq Re.WordB (Re.Seq (Re.str_ci pattern) Re.WordB).

Definition compiled_finetune_patterns (c : FilterConfig) : list Re.re :=
  map compile_finetune (finetune_patterns c).

Definition bounded_word (w : Re.re) : Re.re :=
  Re.Seq Re.WordB (Re.Seq w Re.WordB).

Definition base_patterns : list Re.re :=
  [ bounded_word
      (Re.Group (Re.alts (map Re.str_ci
         ["llama"; "mistral"; "qwen"; "deepseek"; "phi"; "gemma";
          "falcon"; "mpt"])));
    bounded_word
      (Re.Seq (Re.Plus Re.digit)
              (Re.Chr (fun c => Ascii.eqb (to_lower c) "b"
                                || Ascii.eqb (to_lower c) "m")));
    bounded_word (Re.str_ci "base");
    bounded_word (Re.str_ci "foundation") ].

Definition finetune_indicators : list string :=
  ["dpo"; "rlhf"; "sft"; "ppo";
   "medical"; "legal"; "finance"; "science";
   "chinese"; "japanese"; "korean"; "german"; "french";
   "orca"; "wizard"].

Definition base_indicators : list string :=
  ["base"; "foundation"; "pretrained"; "raw";
   "llama-2"; "llama-3"; "mistral-7b"; "qwen"; "deepseek";
   "7b"; "13b"; "70b"; "1b"; "3b"; "8b"; "6.7b"].

(** Some pattern of [ps] is found in the name or in the link. *)
Definition any_pattern (ps : list Re.re) (model_name model_id : string)
  : bool :=
  existsb (fun p => Re.matches p model_name || Re.matches p model_id) ps.

(** Some word of [ws] is a substring of the name or of the link. *)
Definition any_indicator (ws : list string) (model_name model_id : string)
  : bool :=
  existsb (fun w => contains w model_name || contains w model_id) ws.

Definition codellama_rule (model_name : string) : bool :=
  contains "codellama" model_name
  && (contains "instruct" model_name || contains "chat" model_name).

Definition is_finetuned (c : FilterConfig) (model : dict) : result bool :=
  model_name <- get_or_empty_lower model "modelName" ;;
  model_id <- get_or_empty_lower model "huggingFaceLink" ;;
  if any_pattern (compiled_finetune_patterns c) model_name model_id
  then Ok true
  else if codellama_rule model_name then Ok true
  else if any_indicator finetune_indicators model_name model_id then Ok true
  else Ok false.

Definition is_base_model (c : FilterConfig) (model : dict) : result bool :=
  ft <- is_finetuned c model ;;
  if ft then Ok false
  else
    model_name <- get_or_empty_lower model "modelName" ;;
    model_id <- get_or_empty_lower model "huggingFaceLink" ;;
    if any_pattern base_patterns model_name model_id then Ok true
    else if any_indicator base_indicators model_name model_id then Ok true
    else Ok true.

(** The substitutions of [get_base_model_group], in source order. *)
Definition strip_finetune_suffix (pattern base_group : string) : string :=
  Re.sub (Re.Seq (compile_finetune pattern) (Re.Star Re.dot)) "" base_group.

Definition version_re : Re.re :=
  Re.Seq (Re.lit "v")
    (Re.Seq (Re.Plus Re.digit)
       (Re.Seq (Re.Opt (Re.lit ".")) (Re.Star Re.digit))).

Definition format_re : Re.re :=
  bounded_word (Re.Group (Re.Alt (Re.str "gguf") (Re.str "ggml"))).

Definition quant_re : Re.re :=
  bounded_word
    (Re.Group
       (Re.alts
          [ Re.Seq (Re.lit "q")
              (Re.Seq (Re.Plus Re.digit)
                 (Re.Seq (Re.lit "_") (Re.Plus Re.word)));
            Re.str "f16"; Re.str "bf16" ])).

Definition punctuation_re : Re.re :=
  Re.Chr (fun c => negb (is_word c || is_space c || Ascii.eqb c "-")).

Definition get_base_model_group (c : FilterConfig) (model : dict)
  : result string :=
  model_name <- get_or_empty_lower model "modelName" ;;
  let base_group := model_name in
  let base_group :=
    fold_left (fun g pattern => strip_finetune_suffix pattern g)
              (finetune_patterns c) base_group in
  let base_group := Re.sub version_re "" base_group in
  let base_group := Re.sub format_re "" base_group in
  let base_group := Re.sub quant_re "" base_group in
  let base_group := strip (Re.sub (Re.Plus Re.space) " " base_group) in
  let base_group := Re.sub punctuation_re "" base_group in
  let base_group :=
    if String.eqb base_group "" then model_name else base_group in
  Ok base_group.

End Classifier.

(** ** quantization_selector.py *)

Definition exn_expected_string (v : pyval) : exn :=
  mk_exn TypeError
    ("expected string or bytes-like object, got '" ++ type_name v ++ "'").

(** [re.search(r, v)] followed by [match.group(1)] *)
Definition py_search_group (r : Re.re) (v : pyval) : result (option string) :=
  match v with
  | PStr s => Ok (option_map (Re.group1 s) (Re.search r s))
  | _ => Raise (exn_expected_string v)
  end.

(** [needle in v] for a string [needle] *)
Definition py_in (needle : string) (v : pyval) : result bool :=
  match v with
  | PStr s => Ok (contains needle s)
  | PList l => Ok (existsb (py_eq (PStr needle)) l)
  | PDict d => Ok (dict_has d needle)
  | _ => Raise (mk_exn TypeError
                  ("argument of type '" ++ type_name v
                   ++ "' is not iterable"))
  end.

Module Selector.

Definition not_slash (c : ascii) : bool := negb (Ascii.eqb c "/").

(** [huggingface\.co/([^/]+)/] *)
Definition hf_uploader_re : Re.re :=
  Re.Seq (Re.str "huggingface.co/")
    (Re.Seq (Re.Group (Re.Plus (Re.Chr not_slash))) (Re.lit "/")).

Definition slash_or_dash (c : ascii) : bool :=
  Ascii.eqb c "/" || Ascii.eqb c "-".

(** The two name patterns: a leading run free of slash, dash and space
    that a slash or a dash follows; and a capitalised camel-case word
    that spaces and a dash follow. *)
Definition uploader_patterns : list Re.re :=
  [ Re.Seq Re.Bol
      (Re.Seq
         (Re.Group
            (Re.Plus (Re.Chr (fun c => negb (slash_or_dash c || is_space c)))))
         (Re.Seq (Re.Chr slash_or_dash) (Re.Star Re.space)));
    Re.Seq Re.WordB
      (Re.Seq
         (Re.Group
            (Re.Seq (Re.Chr is_upper)
               (Re.Seq (Re.Plus (Re.Chr is_lower))
                  (Re.Star (Re.Seq (Re.Chr is_upper)
                                   (Re.Star (Re.Chr is_lower)))))))
         (Re.Seq (Re.Plus Re.space) (Re.lit "-"))) ].

Definition looks_like_username (u : string) : bool :=
  (2 <? String.length u)%nat
  && negb (existsb (String.eqb (lower u)) ["the"; "a"; "an"]).

(** The loop over [uploader_patterns]. *)
Fixpoint uploader_from_name (ps : list Re.re) (model_name : pyval)
  : result string :=
  match ps with
  | [] => Ok ""
  | p :: rest =>
      m <- py_search_group p model_name ;;
      match m with
      | Some u =>
          if looks_like_username u then Ok u
          else uploader_from_name rest model_name
      | None => uploader_from_name rest model_name
      end
  end.

Definition uploader_from_download_link (model : dict)
    (otherwise : result string) : result string :=
  let download_link := dict_get model "directDownloadLink" (PStr "") in
  if truthy download_link then
    cdn <- py_in "cdn-lfs.huggingface.co" download_link ;;
    if negb cdn then
      m <- py_search_group hf_uploader_re download_link ;;
      match m with
      | Some u => Ok u
      | None => otherwise
      end
    else otherwise
  else otherwise.

Definition extract_uploader_from_model_id (model : dict) : result string :=
  let from_name :=
    uploader_from_name uploader_patterns (dict_get model "modelName" (PStr ""))
  in
  let from_download := uploader_from_download_link model from_name in
  let hf_link := dict_get model "huggingFaceLink" (PStr "") in
  if truthy hf_link then
    m <- py_search_group hf_uploader_re hf_link ;;
    match m with
    | Some u => Ok u
    | None => from_download
    end
  else from_download.

Definition is_trusted_uploader (c : FilterConfig) (model : dict)
  : result bool :=
  uploader <- extract_uploader_from_model_id model ;;
  Ok (existsb (String.eqb (lower uploader))
              (map lower (trusted_uploaders c))).

Definition meets_download_threshold (model : dict) (min_downloads : Z)
  : result bool :=
  let download_count := dict_get model "downloadCount" (PInt 0) in
  let download_count :=
    match download_count with PNone => PInt 0 | v => v end in
  py_ge download_count (PInt min_downloads).

Definition has_significant_size_drop (variant last_kept : dict)
    (threshold : spec_float) : result bool :=
  let current_size := dict_get variant "fileSize" (PInt 0) in
  let last_size := dict_get last_kept "fileSize" (PInt 0) in
  if py_eq last_size (PInt 0) then Ok true
  else
    size_ratio <- py_truediv current_size last_size ;;
    let size_drop := fsub f_one size_ratio in
    Ok (flt threshold size_drop).

Definition quant_families : list (string * list string) :=
  [ ("Q4", ["Q4_0"; "Q4_1"; "Q4_K_S"; "Q4_K_M"]);
    ("Q5", ["Q5_0"; "Q5_1"; "Q5_K_S"; "Q5_K_M"]);
    ("Q6", ["Q6_K"]);
    ("Q8", ["Q8_0"]);
    ("IQ", ["IQ1_S"; "IQ2_XXS"; "IQ3_XXS"; "IQ4_XS"]);
    ("F16", ["F16"; "BF16"]);
    ("Q2", ["Q2_K"]);
    ("Q3", ["Q3_K_S"; "Q3_K_M"; "Q3_K_L"]) ].

(** [any(quant.startswith(fmt) for fmt in formats)] *)
Definition in_formats (quant : string) (formats : list string) : bool :=
  existsb (startswith quant) formats.

(** The first family with a format that prefixes [quant]. *)
Definition family_of (quant : string) : option string :=
  option_map fst
    (find (fun fam => in_formats quant (snd fam)) quant_families).

(** Some kept format belongs to the family named [current_family]. *)
Definition family_kept (current_family : string) (kept_quants : list string)
  : bool :=
  existsb
    (fun kept_quant =>
       existsb (fun fam => String.eqb (fst fam) current_family
                           && in_formats kept_quant (snd fam))
               quant_families)
    kept_quants.

Definition quant_upper (model : dict) : result string :=
  py_upper (dict_get model "quantFormat" (PStr "")).

Definition is_different_quantization_family (variant : dict)
    (kept_variants : list dict) : result bool :=
  current_quant <- quant_upper variant ;;
  kept_quants <- rmap quant_upper kept_variants ;;
  match family_of current_quant with
  | None => Ok true
  | Some current_family => Ok (negb (family_kept current_family kept_quants))
  end.

Definition download_count_ge (variant : dict) (n : Z) : result bool :=
  py_ge (dict_get variant "downloadCount" (PInt 0)) (PInt n).

(** [kept_variants[-1]] of a list that is not empty *)
Definition last_of (kept_variants : list dict) : dict :=
  last kept_variants [].

Definition should_keep_variant (c : FilterConfig) (variant : dict)
    (kept_variants : list dict) : result bool :=
  if is_nil kept_variants then Ok true
  else
    trusted <- is_trusted_uploader c variant ;;
    lenient <- (if trusted then meets_download_threshold variant 50
                else Ok false) ;;
    if lenient then Ok true
    else
      popular <- meets_download_threshold variant (min_downloads c) ;;
      if negb popular then Ok false
      else
        let last_kept := last_of kept_variants in
        drop <- has_significant_size_drop variant last_kept
                  (size_drop_threshold c) ;;
        if drop then Ok true
        else
          different <- is_different_quantization_family variant
                         kept_variants ;;
          if different then
            enough <- download_count_ge variant (min_downloads c * 2) ;;
            Ok enough
          else Ok false.

(** The loop of [filter_quantized_variants], from a kept list on. *)
Fixpoint filter_loop (c : FilterConfig) (variants : list dict)
    (kept_variants : list dict) : result (list dict) :=
  match variants with
  | [] => Ok kept_variants
  | variant :: rest =>
      keep <- should_keep_variant c variant kept_variants ;;
      filter_loop c rest
        (if keep then (kept_variants ++ [variant])%list else kept_variants)
  end.

Definition filter_quantized_variants (c : FilterConfig)
    (variants : list dict) : result (list dict) :=
  filter_loop c variants [].

Definition file_size (model : dict) : pyval :=
  dict_get model "fileSize" (PInt 0).

(** [list.sort(key=file_size, reverse=True)]: a stable sort, largest
    first, that compares keys with [<].  The keys that reach it have
    passed the comparison with [min_size_bytes], so they are numbers and
    none is a NaN; on such keys every stable sort gives this list. *)
Fixpoint insert_desc (x : dict) (sorted : list dict) : result (list dict) :=
  match sorted with
  | [] => Ok [x]
  | y :: rest =>
      smaller <- py_lt (file_size x) (file_size y) ;;
      if smaller then (r <- insert_desc x rest ;; Ok (y :: r))
      else Ok (x :: sorted)
  end.

Fixpoint sort_desc (xs : list dict) : result (list dict) :=
  match xs with
  | [] => Ok []
  | x :: rest => s <- sort_desc rest ;; insert_desc x s
  end.

(** [base_model] is [None] or a dict; an empty dict counts as absent. *)
Definition select_variants_for_group (c : FilterConfig)
    (base_model : option dict) (variants : list dict)
  : result (list dict) :=
  let selected :=
    match base_model with
    | Some b => if is_nil b then [] else [b]
    | None => []
    end in
  if is_nil variants then Ok selected
  else
    valid_variants <-
      rfilter (fun v => py_ge (file_size v) (PInt (min_size_bytes c)))
              variants ;;
    if is_nil valid_variants then Ok selected
    else
      valid_variants <- sort_desc valid_variants ;;
      filtered_variants <- filter_quantized_variants c valid_variants ;;
      Ok (selected ++ filtered_variants)%list.

End Selector.

(** ** hardware_calculator.py *)

(** [try: body except (classes): handler] *)
Definition try_except {A} (body : result A) (caught : exn_class -> bool)
    (handler : result A) : result A :=
  match body with
  | Ok a => Ok a
  | Raise e => if caught (exn_cls e) then handler else Raise e
  end.

(** [except Exception] *)
Definition any_exception (_ : exn_class) : bool := true.

(** Comparisons of a float with an int constant *)
Definition float_le_int (x : spec_float) (z : Z) : bool :=
  ord_holds OpLe (num_cmp (NFloat x) (NInt z)).
Definition float_ge_int (x : spec_float) (z : Z) : bool :=
  ord_holds OpGe (num_cmp (NFloat x) (NInt z)).
Definition float_gt_int (x : spec_float) (z : Z) : bool :=
  ord_holds OpGt (num_cmp (NFloat x) (NInt z)).

Definition os_list (c : FilterConfig) : pyval :=
  PList (map PStr (default_os_support c)).

Module Hardware.

Section WithRepr.

(** [repr] of a float, a list or a dict is not modelled: the text is a
    parameter. *)
Variable py_repr : pyval -> string.

(** [str(v)] *)
Definition py_str (v : pyval) : string :=
  match v with
  | PStr s => s
  | PNone => "None"
  | PBool b => if b then "True" else "False"
  | PInt z => str_of_Z z
  | _ => py_repr v
  end.

Definition number : Re.re :=
  Re.Group (Re.Seq (Re.Plus Re.digit)
                   (Re.Opt (Re.Seq (Re.lit ".") (Re.Plus Re.digit)))).

(** The four patterns, compiled with [re.IGNORECASE]. *)
Definition param_patterns : list Re.re :=
  [ Re.Seq number (Re.Seq (Re.lit_ci "b")
                          (Re.alts [Re.space; Re.Eol; Re.lit "-"]));
    Re.Seq number (Re.Seq (Re.lit_ci "B") (Re.lit "-"));
    Re.Seq (Re.lit "-")
           (Re.Seq number (Re.Seq (Re.lit_ci "b") (Re.lit "-")));
    Re.Seq (Re.lit "_")
           (Re.Seq number (Re.Seq (Re.lit_ci "b") (Re.lit "_"))) ].

(** [float(s)] for [s] of the shape digits, or digits.digits *)
Definition float_of_decimal (s : string) : spec_float :=
  match split_on (Ascii.eqb ".") s with
  | [whole; frac] =>
      float_of_ratio (digits_value (whole ++ frac) 0)
                     (10 ^ Z.of_nat (String.length frac))
  | _ => float_of_ratio (digits_value s 0) 1
  end.

Definition billion : spec_float := float_of_Z_round 1000000000.

(** [int(x * 1_000_000_000)] *)
Definition billions_to_params (x : spec_float) : result Z :=
  int_of_float (fmul x billion).

(** The loop over [param_patterns]; the conversion of a match never
    raises [ValueError] or [IndexError], so the first match decides. *)
Fixpoint params_from_name (ps : list Re.re) (model_name : pyval)
  : result (option Z) :=
  match ps with
  | [] => Ok None
  | p :: rest =>
      m <- py_search_group p model_name ;;
      match m with
      | Some param_str =>
          n <- billions_to_params (float_of_decimal param_str) ;;
          Ok (Some n)
      | None => params_from_name rest model_name
      end
  end.

(** [1.5 * 1024 * 1024 * 1024] *)
Definition gib_per_billion : spec_float := float_of_Z_round 1610612736.

Definition estimate_parameters (model : dict) : result (option Z) :=
  let model_name := dict_get model "modelName" (PStr "") in
  let file_size := dict_get model "fileSize" (PInt 0) in
  from_name <- params_from_name param_patterns model_name ;;
  match from_name with
  | Some n => Ok (Some n)
  | None =>
      positive <- py_gt file_size (PInt 0) ;;
      if positive then
        estimated_billions <- py_truediv file_size (PFloat gib_per_billion) ;;
        if flt f_half estimated_billions then
          n <- billions_to_params estimated_billions ;;
          Ok (Some n)
        else Ok None
      else Ok None
  end.

Definition efficient_formats : list string :=
  ["Q4_"; "Q3_"; "Q2_"; "IQ4_"; "IQ3_"; "IQ2_"].

Definition _is_efficient_quantization (quant_format : string) : bool :=
  if String.eqb quant_format "" then false
  else existsb (startswith (upper quant_format)) efficient_formats.

(** The ladder of RAM sizes *)
Definition ram_bucket (base_ram : spec_float) : Z :=
  if float_le_int base_ram 8 then 8
  else if float_le_int base_ram 16 then 16
  else if float_le_int base_ram 32 then 32
  else if float_le_int base_ram 64 then 64
  else 128.

Definition calculate_ram_requirements (c : FilterConfig) (file_size : Z)
    (quant_format : string) : result Z :=
  if file_size <=? 0 then Ok 8
  else
    file_size_gb <- int_truediv file_size gib ;;
    let base_ram := fmul file_size_gb (ram_multiplier c) in
    let base_ram :=
      if _is_efficient_quantization quant_format
      then fmul base_ram (fsub f_one (quantization_ram_reduction c))
      else base_ram in
    Ok (ram_bucket base_ram).

Definition calculate_cpu_requirements (c : FilterConfig)
    (estimated_params : option Z) (file_size : Z) : result Z :=
  match estimated_params with
  | Some estimated_params =>
      if estimated_params <=? small_model_threshold c then Ok 4
      else if estimated_params <=? medium_model_threshold c then Ok 6
      else if estimated_params <=? 30000000000 then Ok 8
      else if estimated_params <=? 70000000000 then Ok 12
      else Ok 16
  | None =>
      file_size_gb <- int_truediv file_size gib ;;
      if float_le_int file_size_gb 2 then Ok 4
      else if float_le_int file_size_gb 6 then Ok 6
      else if float_le_int file_size_gb 15 then Ok 8
      else if float_le_int file_size_gb 40 then Ok 12
      else Ok 16
  end.

Definition params_reach (estimated_params : option Z) (threshold : Z) : bool :=
  match estimated_params with
  | Some n => threshold <=? n
  | None => false
  end.

Definition determine_gpu_requirement (c : FilterConfig)
    (estimated_params : option Z) (file_size : Z) (quant_format : string)
  : result bool :=
  if params_reach estimated_params (gpu_required_threshold c) then Ok true
  else
    file_size_gb <- int_truediv file_size gib ;;
    if float_ge_int file_size_gb 8 then Ok true
    else if _is_efficient_quantization quant_format
            && float_le_int file_size_gb 4 then Ok false
    else Ok true.

Definition get_os_support (c : FilterConfig) (model : dict) : pyval :=
  os_list c.

(** [file_size_gb] of the fallback: the int [1] or a float. *)
Definition default_file_size_gb (file_size : pyval) : result num :=
  try_except
    (positive <- (if is_int_or_float file_size
                  then py_gt file_size (PInt 0) else Ok false) ;;
     if positive then
       gb <- py_truediv file_size (PInt gib) ;;
       (* max(1, gb) *)
       Ok (if float_gt_int gb 1 then NFloat gb else NInt 1)
     else Ok (NInt 1))
    (fun cls => match cls with
                | TypeError | ZeroDivisionError => true
                | _ => false
                end)
    (Ok (NInt 1)).

(** [file_size_gb * 3] *)
Definition times_three (x : num) : num :=
  match x with
  | NInt z => NInt (z * 3)
  | NFloat f => NFloat (fmul f (float_of_Z_round 3))
  end.

Definition num_le_int (x : num) (z : Z) : bool :=
  ord_holds OpLe (num_cmp x (NInt z)).

Definition default_ram (base_ram : num) : Z :=
  if num_le_int base_ram 8 then 8
  else if num_le_int base_ram 16 then 16
  else if num_le_int base_ram 32 then 32
  else 64.

Definition _apply_default_requirements (c : FilterConfig) (model : dict)
  : result dict :=
  let enhanced_model := model in
  let file_size := dict_get model "fileSize" (PInt 0) in
  file_size_gb <- default_file_size_gb file_size ;;
  let base_ram := times_three file_size_gb in
  let enhanced_model :=
    dict_set enhanced_model "minRamGB" (PInt (default_ram base_ram)) in
  let enhanced_model := dict_set enhanced_model "minCpuCores" (PInt 8) in
  let enhanced_model := dict_set enhanced_model "gpuRequired" (PBool true) in
  let enhanced_model := dict_set enhanced_model "osSupported" (os_list c) in
  Ok enhanced_model.

(** The check of [fileSize]; the text of the [ValueError] is only
    logged. *)
Definition checked_file_size (file_size : pyval) : result num :=
  match as_num file_size with
  | Some x =>
      if ord_holds OpLt (num_cmp x (NInt 0))
      then Raise (mk_exn ValueError "Invalid file_size")
      else Ok x
  | None => Raise (mk_exn ValueError "Invalid file_size")
  end.

(** [quant_format] made a string *)
Definition coerce_quant_format (quant_format : pyval) : string :=
  match quant_format with
  | PNone => ""
  | v => py_str v
  end.

(** The body of the [try] of [calculate_requirements]. *)
Definition requirements_body (c : FilterConfig) (model : dict)
  : result dict :=
  let enhanced_model := model in
  let file_size := dict_get model "fileSize" (PInt 0) in
  let quant_format := dict_get model "quantFormat" (PStr "") in
  file_size <- checked_file_size file_size ;;
  let quant_format := coerce_quant_format quant_format in
  estimated_params <- estimate_parameters model ;;
  size <- num_to_int file_size ;;
  ram <- calculate_ram_requirements c size quant_format ;;
  let enhanced_model := dict_set enhanced_model "minRamGB" (PInt ram) in
  size <- num_to_int file_size ;;
  cpu <- calculate_cpu_requirements c estimated_params size ;;
  let enhanced_model := dict_set enhanced_model "minCpuCores" (PInt cpu) in
  size <- num_to_int file_size ;;
  gpu <- determine_gpu_requirement c estimated_params size quant_format ;;
  let enhanced_model := dict_set enhanced_model "gpuRequired" (PBool gpu) in
  let enhanced_model :=
    dict_set enhanced_model "osSupported" (get_os_support c model) in
  Ok enhanced_model.

Definition calculate_requirements (c : FilterConfig) (model : dict)
  : result dict :=
  try_except (requirements_body c model) any_exception
             (_apply_default_requirements c model).

End WithRepr.

End Hardware.

Definition hardware_fields : list string :=
  ["minRamGB"; "minCpuCores"; "gpuRequired"; "osSupported"].

Definition has_hardware_profile (model : dict) : bool :=
  forallb (dict_has model) hardware_fields.

(** ** engine.py: reading raw records *)

(** [v.get(key, dflt)] on a value that should be a dict *)
Definition py_get (v : pyval) (key : string) (dflt : pyval) : result pyval :=
  match v with
  | PDict d => Ok (dict_get d key dflt)
  | _ => Raise (exn_no_attribute v "get")
  end.

(** [for x in v] *)
Definition py_iter (v : pyval) : result (list pyval) :=
  match v with
  | PList l => Ok l
  | PStr s => Ok (map (fun c => PStr (String c EmptyString))
                      (list_ascii_of_string s))
  | PDict d => Ok (map (fun kv => PStr (fst kv)) d)
  | _ => Raise (mk_exn TypeError
                  ("'" ++ type_name v ++ "' object is not iterable"))
  end.

(** ** Fixed-point formatting of a float: [f"{x:.1f}"], [f"{x:.0f}"] *)

(** [m * 2^e * 10^d] rounded to an integer, ties to even. *)
Definition scaled_round (m : positive) (e : Z) (d : nat) : Z :=
  let n := Zpos m * 10 ^ Z.of_nat d in
  match e with
  | Zneg p =>
      let den := 2 ^ Zpos p in
      let q := n / den in
      let r := n mod den in
      match 2 * r ?= den with
      | Lt => q
      | Gt => q + 1
      | Eq => if Z.even q then q else q + 1
      end
  | _ => n * 2 ^ e
  end.

Fixpoint zeros (n : nat) : string :=
  match n with
  | O => EmptyString
  | S n' => String "0" (zeros n')
  end.

(** The decimal text of [q / 10^d] with [d] digits after the point. *)
Definition fixed_text (q : Z) (d : nat) : string :=
  let scale := 10 ^ Z.of_nat d in
  let whole := str_of_Z (q / scale) in
  match d with
  | O => whole
  | _ =>
      let frac := str_of_Z (q mod scale) in
      whole ++ "." ++ zeros (d - String.length frac) ++ frac
  end.

Definition format_fixed (d : nat) (x : spec_float) : string :=
  match x with
  | S754_nan => "nan"
  | S754_infinity s => if s then "-inf" else "inf"
  | S754_zero s => (if s then "-" else "") ++ fixed_text 0 d
  | S754_finite s m e =>
      (if s then "-" else "") ++ fixed_text (scaled_round m e d) d
  end.

Module Engine.

Section WithRepr.

Variable py_repr : pyval -> string.

Definition py_str := Hardware.py_str py_repr.

Definition is_gguf_sibling (sibling : pyval) : result bool :=
  rfilename <- py_get sibling "rfilename" (PStr "") ;;
  name <- py_lower rfilename ;;
  Ok (endswith name ".gguf").

Definition _has_gguf_files (raw_model : pyval) : result bool :=
  siblings <- py_get raw_model "siblings" (PList []) ;;
  siblings <- py_iter siblings ;;
  rany is_gguf_sibling siblings.

Definition _get_gguf_files (raw_model : pyval) : result (list pyval) :=
  siblings <- py_get raw_model "siblings" (PList []) ;;
  siblings <- py_iter siblings ;;
  rfilter is_gguf_sibling siblings.

Definition dash_or_underscore (c : ascii) : bool :=
  Ascii.eqb c "-" || Ascii.eqb c "_".

(** [-q\d+_\w+] under [re.IGNORECASE] *)
Definition quant_suffix_re : Re.re :=
  Re.Seq (Re.lit "-")
    (Re.Seq (Re.lit_ci "q")
       (Re.Seq (Re.Plus Re.digit) (Re.Seq (Re.lit "_") (Re.Plus Re.word)))).

Definition last_segment (model_id : string) : string :=
  last (split_on (Ascii.eqb "/") model_id) model_id.

(** A [model_id] that is not a string makes the source raise, at the
    [in] test, at [split] or at [re.sub], according to its type; the
    caller turns every exception into [None]. *)
Definition _extract_model_name (model_id : pyval) (filename : string)
  : result string :=
  match model_id with
  | PStr model_id =>
      let name :=
        if contains "/" model_id then last_segment model_id else model_id in
      let name := Re.sub (Re.str_ci "-gguf") "" name in
      let name := Re.sub quant_suffix_re "" name in
      Ok (join " " (map capitalize (split_on dash_or_underscore name)))
  | v => Raise (exn_expected_string v)
  end.

Definition quant_patterns : list (string * string) :=
  [ ("bf16", "BF16"); ("f16", "F16");
    ("q8_0", "Q8_0"); ("q6_k", "Q6_K"); ("q5_k_m", "Q5_K_M");
    ("q5_k_s", "Q5_K_S"); ("q5_0", "Q5_0"); ("q5_1", "Q5_1");
    ("q4_k_m", "Q4_K_M"); ("q4_k_s", "Q4_K_S"); ("q4_0", "Q4_0");
    ("q4_1", "Q4_1"); ("q3_k_m", "Q3_K_M"); ("q3_k_s", "Q3_K_S");
    ("q3_k_l", "Q3_K_L"); ("q2_k", "Q2_K"); ("iq4_xs", "IQ4_XS");
    ("iq3_xxs", "IQ3_XXS"); ("iq2_xxs", "IQ2_XXS"); ("iq1_s", "IQ1_S") ].

Definition _extract_quantization_format (filename : string) : string :=
  let filename_lower := lower filename in
  match find (fun p => contains (fst p) filename_lower) quant_patterns with
  | Some p => snd p
  | None => "Unknown"
  end.

Definition type_patterns : list (string * string) :=
  [ ("llama", "Llama"); ("mistral", "Mistral"); ("qwen", "Qwen");
    ("gemma", "Gemma"); ("deepseek", "DeepSeek"); ("phi", "Phi");
    ("falcon", "Falcon"); ("mpt", "MPT"); ("bert", "BERT");
    ("embed", "BERT") ].

Definition _extract_model_type (model_id filename : string) : string :=
  let text := lower (model_id ++ " " ++ filename) in
  match find (fun p => Re.matches
                         (Classifier.bounded_word (Re.str (fst p))) text)
             type_patterns with
  | Some p => snd p
  | None => "Unknown"
  end.

Definition _format_file_size (size_bytes : pyval) : result string :=
  tiny <- py_lt size_bytes (PInt 1024) ;;
  if tiny then Ok (py_str size_bytes ++ " B")
  else
    small <- py_lt size_bytes (PInt (1024 * 1024)) ;;
    if small then
      x <- py_truediv size_bytes (PInt 1024) ;;
      Ok (format_fixed 1 x ++ " KB")
    else
      medium <- py_lt size_bytes (PInt (1024 * 1024 * 1024)) ;;
      if medium then
        x <- py_truediv size_bytes (PInt (1024 * 1024)) ;;
        Ok (format_fixed 0 x ++ " MB")
      else
        x <- py_truediv size_bytes (PInt (1024 * 1024 * 1024)) ;;
        Ok (format_fixed 1 x ++ " GB").

(** The body of the [try] of [_convert_to_expected_format]; [filename]
    is a string, the file passed [is_gguf_sibling]. *)
Definition convert_body (raw_model : dict) (gguf_file : dict)
    (filename : string) : result dict :=
  let model_id := dict_get raw_model "id" (PStr "") in
  let file_size := dict_get gguf_file "size" (PInt 0) in
  model_name <- _extract_model_name model_id filename ;;
  let quant_format := _extract_quantization_format filename in
  file_size_formatted <- _format_file_size file_size ;;
  id_text <- match model_id with
             | PStr s => Ok s
             | v => Raise (exn_expected_string v)
             end ;;
  let model_type := _extract_model_type id_text filename in
  let hf_link := "https://huggingface.co/" ++ id_text in
  let download_link :=
    "https://huggingface.co/" ++ id_text ++ "/resolve/main/" ++ filename in
  Ok [ ("modelName", PStr model_name);
       ("quantFormat", PStr quant_format);
       ("fileSize", file_size);
       ("fileSizeFormatted", PStr file_size_formatted);
       ("modelType", PStr model_type);
       ("license", PStr "Not specified");
       ("downloadCount", dict_get raw_model "downloads" (PInt 0));
       ("likeCount", dict_get raw_model "likes" (PInt 0));
       ("huggingFaceLink", PStr hf_link);
       ("directDownloadLink", PStr download_link);
       ("uploadDate", dict_get raw_model "created_at" PNone) ].

(** Any exception gives [None]. *)
Definition _convert_to_expected_format (raw_model : dict) (gguf_file : pyval)
  : option dict :=
  match gguf_file with
  | PDict f =>
      match dict_get f "rfilename" (PStr "") with
      | PStr filename =>
          match convert_body raw_model f filename with
          | Ok model => Some model
          | Raise _ => None
          end
      | _ => None
      end
  | _ => None
  end.

(** *** The report and the result *)

Record GroupStats := mk_stats
  { original : Z; kept : Z; removed : Z }.

Record ProcessingReport := mk_report
  { total_processed : Z;
    total_kept : Z;
    total_removed : Z;
    small_models_removed : Z;
    finetuned_removed : Z;
    quantization_variants_removed : Z;
    variants_removed_by_size : Z;
    variants_removed_by_uploader : Z;
    variants_removed_by_downloads : Z;
    base_models_kept : Z;
    quantized_variants_kept : Z;
    trusted_uploader_variants_kept : Z;
    size_reduction_mb : Z;
    processing_time_seconds : spec_float;
    model_group_stats : list (string * GroupStats);
    report_errors : list string }.

(** [ProcessingReport()] *)
Definition new_report : ProcessingReport :=
  mk_report 0 0 0 0 0 0 0 0 0 0 0 0 0 (S754_zero false) [] [].

Record FilterResult := mk_result
  { filtered_models : list dict;
    original_count : Z;
    filtered_count : Z;
    removed_count : Z;
    backup_path : option string;
    processing_report : ProcessingReport;
    errors : list string }.

Definition success (r : FilterResult) : bool :=
  (List.length (errors r) =? 0)%nat && (0 <? filtered_count r).

(** Field updates of the report *)
Definition set_total_processed (n : Z) (r : ProcessingReport) :=
  mk_report n (total_kept r) (total_removed r) (small_models_removed r)
    (finetuned_removed r) (quantization_variants_removed r)
    (variants_removed_by_size r) (variants_removed_by_uploader r)
    (variants_removed_by_downloads r) (base_models_kept r)
    (quantized_variants_kept r) (trusted_uploader_variants_kept r)
    (size_reduction_mb r) (processing_time_seconds r)
    (model_group_stats r) (report_errors r).
Definition set_total_kept (n : Z) (r : ProcessingReport) :=
  mk_report (total_processed r) n (total_removed r) (small_models_removed r)
    (finetuned_removed r) (quantization_variants_removed r)
    (variants_removed_by_size r) (variants_removed_by_uploader r)
    (variants_removed_by_downloads r) (base_models_kept r)
    (quantized_variants_kept r) (trusted_uploader_variants_kept r)
    (size_reduction_mb r) (processing_time_seconds r)
    (model_group_stats r) (report_errors r).
Definition set_total_removed (n : Z) (r : ProcessingReport) :=
  mk_report (total_processed r) (total_kept r) n (small_models_removed r)
    (finetuned_removed r) (quantization_variants_removed r)
    (variants_removed_by_size r) (variants_removed_by_uploader r)
    (variants_removed_by_downloads r) (base_models_kept r)
    (quantized_variants_kept r) (trusted_uploader_variants_kept r)
    (size_reduction_mb r) (processing_time_seconds r)
    (model_group_stats r) (report_errors r).
Definition set_small_models_removed (n : Z) (r : ProcessingReport) :=
  mk_report (total_processed r) (total_kept r) (total_removed r) n
    (finetuned_removed r) (quantization_variants_removed r)
    (variants_removed_by_size r) (variants_removed_by_uploader r)
    (variants_removed_by_downloads r) (base_models_kept r)
    (quantized_variants_kept r) (trusted_uploader_variants_kept r)
    (size_reduction_mb r) (processing_time_seconds r)
    (model_group_stats r) (report_errors r).
Definition set_finetuned_removed (n : Z) (r : ProcessingReport) :=
  mk_report (total_processed r) (total_kept r) (total_removed r)
    (small_models_removed r) n (quantization_variants_removed r)
    (variants_removed_by_size r) (variants_removed_by_uploader r)
    (variants_removed_by_downloads r) (base_models_kept r)
    (quantized_variants_kept r) (trusted_uploader_variants_kept r)
    (size_reduction_mb r) (processing_time_seconds r)
    (model_group_stats r) (report_errors r).
Definition set_quantization_variants_removed (n : Z) (r : ProcessingReport) :=
  mk_report (total_processed r) (total_kept r) (total_removed r)
    (small_models_removed r) (finetuned_removed r) n
    (variants_removed_by_size r) (variants_removed_by_uploader r)
    (variants_removed_by_downloads r) (base_models_kept r)
    (quantized_variants_kept r) (trusted_uploader_variants_kept r)
    (size_reduction_mb r) (processing_time_seconds r)
    (model_group_stats r) (report_errors r).
Definition set_base_models_kept (n : Z) (r : ProcessingReport) :=
  mk_report (total_processed r) (total_kept r) (total_removed r)
    (small_models_removed r) (finetuned_removed r)
    (quantization_variants_removed r)
    (variants_removed_by_size r) (variants_removed_by_uploader r)
    (variants_removed_by_downloads r) n
    (quantized_variants_kept r) (trusted_uploader_variants_kept r)
    (size_reduction_mb r) (processing_time_seconds r)
    (model_group_stats r) (report_errors r).
Definition set_quantized_variants_kept (n : Z) (r : ProcessingReport) :=
  mk_report (total_processed r) (total_kept r) (total_removed r)
    (small_models_removed r) (finetuned_removed r)
    (quantization_variants_removed r)
    (variants_removed_by_size r) (variants_removed_by_uploader r)
    (variants_removed_by_downloads r) (base_models_kept r)
    n (trusted_uploader_variants_kept r)
    (size_reduction_mb r) (processing_time_seconds r)
    (model_group_stats r) (report_errors r).
Definition set_trusted_uploader_variants_kept (n : Z) (r : ProcessingReport) :=
  mk_report (total_processed r) (total_kept r) (total_removed r)
    (small_models_removed r) (finetuned_removed r)
    (quantization_variants_removed r)
    (variants_removed_by_size r) (variants_removed_by_uploader r)
    (variants_removed_by_downloads r) (base_models_kept r)
    (quantized_variants_kept r) n
    (size_reduction_mb r) (processing_time_seconds r)
    (model_group_stats r) (report_errors r).
Definition set_processing_time_seconds (t : spec_float)
    (r : ProcessingReport) :=
  mk_report (total_processed r) (total_kept r) (total_removed r)
    (small_models_removed r) (finetuned_removed r)
    (quantization_variants_removed r)
    (variants_removed_by_size r) (variants_removed_by_uploader r)
    (variants_removed_by_downloads r) (base_models_kept r)
    (quantized_variants_kept r) (trusted_uploader_variants_kept r)
    (size_reduction_mb r) t
    (model_group_stats r) (report_errors r).
Definition set_model_group_stats (g : list (string * GroupStats))
    (r : ProcessingReport) :=
  mk_report (total_processed r) (total_kept r) (total_removed r)
    (small_models_removed r) (finetuned_removed r)
    (quantization_variants_removed r)
    (variants_removed_by_size r) (variants_removed_by_uploader r)
    (variants_removed_by_downloads r) (base_models_kept r)
    (quantized_variants_kept r) (trusted_uploader_variants_kept r)
    (size_reduction_mb r) (processing_time_seconds r)
    g (report_errors r).

(** [stats[key] = value] on an insertion-ordered dict *)
Fixpoint assoc_set {V} (d : list (string * V)) (k : string) (v : V)
  : list (string * V) :=
  match d with
  | [] => [(k, v)]
  | (k', v') :: t =>
      if String.eqb k k' then (k', v) :: t else (k', v') :: assoc_set t k v
  end.

Definition add_group_stats (group_name : string)
    (original_count kept_count : Z) (r : ProcessingReport)
  : ProcessingReport :=
  set_model_group_stats
    (assoc_set (model_group_stats r) group_name
       (mk_stats original_count kept_count (original_count - kept_count)))
    r.

Definition calculate_totals (r : ProcessingReport) : ProcessingReport :=
  set_total_removed (total_processed r - total_kept r) r.

(** *** The monad of the pipeline

    A stage reads and updates the report and the error list; when it
    raises, what it had written stays written. *)

Definition pstate := (ProcessingReport * list string)%type.
Definition M (A : Type) := pstate -> result A * pstate.

Definition mret {A} (a : A) : M A := fun s => (Ok a, s).
Definition mbind {A B} (m : M A) (k : A -> M B) : M B :=
  fun s => match m s with
           | (Ok a, s') => k a s'
           | (Raise e, s') => (Raise e, s')
           end.
Definition lift {A} (r : result A) : M A := fun s => (r, s).
Definition update_report (f : ProcessingReport -> ProcessingReport) : M unit :=
  fun s => (Ok tt, (f (fst s), snd s)).
Definition append_error (msg : string) : M unit :=
  fun s => (Ok tt, (fst s, (snd s ++ [msg])%list)).
(** [try: body except Exception as e: handler(e)] *)
Definition m_try {A} (body : M A) (handler : exn -> M A) : M A :=
  fun s => match body s with
           | (Ok a, s') => (Ok a, s')
           | (Raise e, s') => handler e s'
           end.

Notation "x <~ c ;; k" := (mbind c (fun x => k))
  (at level 61, c at next level, right associativity).
Notation "c ;;; k" := (mbind c (fun _ => k))
  (at level 61, right associativity).

Fixpoint mfilter {A} (f : A -> M bool) (xs : list A) : M (list A) :=
  match xs with
  | [] => mret []
  | x :: t =>
      b <~ f x ;; ys <~ mfilter f t ;; mret (if b then x :: ys else ys)
  end.

Fixpoint mconcat_map {A B} (f : A -> M (list B)) (xs : list A)
  : M (list B) :=
  match xs with
  | [] => mret []
  | x :: t => ys <~ f x ;; zs <~ mconcat_map f t ;; mret (ys ++ zs)%list
  end.

Definition len {A} (l : list A) : Z := Z.of_nat (List.length l).

(** *** Step 1: extraction *)

Definition _convert_of (raw_model : pyval) (gguf_file : pyval)
  : result (option dict) :=
  match raw_model with
  | PDict d => Ok (_convert_to_expected_format d gguf_file)
  | v => Raise (exn_no_attribute v "get")
  end.

(** [if model: gguf_models.append(model)] *)
Definition appended (model : option dict) : list dict :=
  match model with
  | Some m => if is_nil m then [] else [m]
  | None => []
  end.

(** The body of the outer [try], for one raw record. *)
Definition gguf_entries (raw_model : pyval) : result (list dict) :=
  has <- _has_gguf_files raw_model ;;
  if negb has then Ok []
  else
    gguf_files <- _get_gguf_files raw_model ;;
    models <- rmap (_convert_of raw_model) gguf_files ;;
    Ok (flat_map appended models).

Definition extract_one (raw_model : pyval) : M (list dict) :=
  m_try (lift (gguf_entries raw_model))
    (fun e =>
       id <~ lift (py_get raw_model "id" (PStr "unknown")) ;;
       append_error ("Error processing raw model " ++ py_str id ++ ": "
                     ++ exn_msg e) ;;;
       mret []).

Definition _extract_gguf_models (raw_models : list pyval) : M (list dict) :=
  mconcat_map extract_one raw_models.

(** *** Steps 2 and 3: size and fine-tune filters *)

Definition bump (get : ProcessingReport -> Z)
    (set : Z -> ProcessingReport -> ProcessingReport) (n : Z) : M unit :=
  update_report (fun r => set (get r + n) r).

Definition _remove_small_models (c : FilterConfig) (models : list dict)
  : M (list dict) :=
  mfilter (fun model =>
             big <~ lift (py_ge (Selector.file_size model)
                                (PInt (min_size_bytes c))) ;;
             if big then mret true
             else bump small_models_removed set_small_models_removed 1 ;;;
                  mret false)
          models.

Definition _remove_finetuned_models (c : FilterConfig) (models : list dict)
  : M (list dict) :=
  mfilter (fun model =>
             base <~ lift (Classifier.is_base_model c model) ;;
             if base then mret true
             else bump finetuned_removed set_finetuned_removed 1 ;;;
                  mret false)
          models.

(** *** Step 4: grouping, in order of first appearance *)

Fixpoint group_append (groups : list (string * list dict)) (k : string)
    (model : dict) : list (string * list dict) :=
  match groups with
  | [] => [(k, [model])]
  | (k', ms) :: t =>
      if String.eqb k k' then (k', (ms ++ [model])%list) :: t
      else (k', ms) :: group_append t k model
  end.

Fixpoint group_loop (c : FilterConfig) (models : list dict)
    (groups : list (string * list dict))
  : result (list (string * list dict)) :=
  match models with
  | [] => Ok groups
  | model :: rest =>
      base_group <- Classifier.get_base_model_group c model ;;
      group_loop c rest (group_append groups base_group model)
  end.

Definition _group_models_by_base (c : FilterConfig) (models : list dict)
  : M (list (string * list dict)) :=
  lift (group_loop c models []).

(** *** Step 5: selection inside each group *)

Definition is_base_entry (model : dict) : result bool :=
  quant_format <- py_upper (dict_get model "quantFormat" (PStr "")) ;;
  if existsb (String.eqb quant_format) ["F16"; "BF16"] then Ok true
  else
    name <- py_lower (dict_get model "modelName" (PStr "")) ;;
    Ok (contains "base" name).

(** The loop that fills [base_models] and [variants]. *)
Fixpoint split_group (models : list dict)
  : result (list dict * list dict) :=
  match models with
  | [] => Ok ([], [])
  | model :: rest =>
      b <- is_base_entry model ;;
      r <- split_group rest ;;
      Ok (if b then (model :: fst r, snd r) else (fst r, model :: snd r))
  end.

(** [max(items, key=file_size)]: the first of the largest. *)
Fixpoint max_loop (best : dict) (items : list dict) : result dict :=
  match items with
  | [] => Ok best
  | item :: rest =>
      bigger <- py_gt (Selector.file_size item) (Selector.file_size best) ;;
      max_loop (if bigger then item else best) rest
  end.

Definition best_base_model (base_models : list dict) : M (option dict) :=
  match base_models with
  | [] => mret None
  | first :: rest =>
      base_model <~ lift (max_loop first rest) ;;
      bump base_models_kept set_base_models_kept 1 ;;;
      mret (Some base_model)
  end.

Fixpoint count_trusted (c : FilterConfig) (selected : list dict) : M unit :=
  match selected with
  | [] => mret tt
  | variant :: rest =>
      trusted <~ lift (Selector.is_trusted_uploader c variant) ;;
      (if trusted
       then bump trusted_uploader_variants_kept
                 set_trusted_uploader_variants_kept 1
       else mret tt) ;;;
      count_trusted c rest
  end.

Definition select_in_group (c : FilterConfig) (variants : list dict)
  : M (list dict) :=
  if is_nil variants then mret []
  else
    selected_variants <~
      lift (Selector.select_variants_for_group c None variants) ;;
    bump quantized_variants_kept set_quantized_variants_kept
         (len selected_variants) ;;;
    bump quantization_variants_removed set_quantization_variants_removed
         (len variants - len selected_variants) ;;;
    count_trusted c selected_variants ;;;
    mret selected_variants.

(** [if base_model:] a dict counts when it is not empty. *)
Definition present (base_model : option dict) : list dict :=
  match base_model with
  | Some b => if is_nil b then [] else [b]
  | None => []
  end.

(** One turn of the loop over the groups: what it adds to
    [final_models]. *)
Definition filter_group (c : FilterConfig) (group : string * list dict)
  : M (list dict) :=
  let (group_name, models) := group in
  let original_count := len models in
  parts <~ lift (split_group models) ;;
  let (base_models, variants) := parts in
  base_model <~ best_base_model base_models ;;
  selected_variants <~ select_in_group c variants ;;
  let kept_count := len (present base_model) + len selected_variants in
  update_report (add_group_stats group_name original_count kept_count) ;;;
  mret (selected_variants ++ present base_model)%list.

Definition _filter_variants_in_groups (c : FilterConfig)
    (model_groups : list (string * list dict)) : M (list dict) :=
  mconcat_map (filter_group c) model_groups.

(** *** Step 6: hardware requirements *)

Definition add_requirements (c : FilterConfig) (model : dict) : dict :=
  match Hardware.calculate_requirements py_repr c model with
  | Ok enhanced_model => enhanced_model
  | Raise _ => model
  end.

Definition _add_hardware_requirements (c : FilterConfig)
    (models : list dict) : list dict :=
  map (add_requirements c) models.

(** *** The pipeline *)

(** The body of the [try] of [filter_models], up to the final
    statistics: the extracted entries and the annotated survivors. *)
Definition stages (c : FilterConfig) (raw_models : list pyval)
  : M (list dict * list dict) :=
  gguf_models <~ _extract_gguf_models raw_models ;;
  update_report (set_total_processed (len gguf_models)) ;;;
  filtered_models <~ _remove_small_models c gguf_models ;;
  base_models <~ _remove_finetuned_models c filtered_models ;;
  model_groups <~ _group_models_by_base c base_models ;;
  final_models <~ _filter_variants_in_groups c model_groups ;;
  let enhanced_models := _add_hardware_requirements c final_models in
  mret (gguf_models, enhanced_models).

(** [f"Filtering failed: {str(e)}"] *)
Definition failure_message (e : exn) : string :=
  "Filtering failed: " ++ exn_msg e.

(** [start_time] and [end_time] are the two readings of [time.time()]. *)
Definition filter_models (c : FilterConfig) (start_time end_time : spec_float)
    (raw_models : list pyval) : FilterResult :=
  match stages c raw_models (new_report, []) with
  | (Ok (gguf_models, enhanced_models), (report, errors)) =>
      let report := set_total_kept (len enhanced_models) report in
      let report :=
        set_processing_time_seconds (fsub end_time start_time) report in
      let report := calculate_totals report in
      mk_result enhanced_models
                (len gguf_models)
                (len enhanced_models)
                (len gguf_models - len enhanced_models)
                None report errors
  | (Raise e, (report, errors)) =>
      let errors := (errors ++ [failure_message e])%list in
      mk_result [] (total_processed report) 0 (total_processed report)
                None report errors
  end.

End WithRepr.

End Engine.

(** ** scripts/simplified_gguf_fetcher.py: the configuration gate of [main] *)

Module Fetcher.

(** The parsed command line, as far as the spam filter goes. *)
Record Args := mk_args
  { disable_spam_filter : bool;
    min_size : Z;                  (* --min-size, in MB *)
    size_threshold : spec_float;   (* --size-threshold *)
    arg_min_downloads : Z;         (* --min-downloads *)
    no_backup : bool;
    verbose : bool }.

(** [FilterConfig(min_size_bytes=..., ...)]: the other fields keep their
    defaults. *)
Definition config_of_args (a : Args) : FilterConfig :=
  {| min_size_bytes := min_size a * 1024 * 1024;
     size_drop_threshold := size_threshold a;
     min_downloads := arg_min_downloads a;
     trusted_uploaders := trusted_uploaders default_config;
     finetune_patterns := finetune_patterns default_config;
     backup_enabled := negb (no_backup a);
     detailed_logging := verbose a;
     ram_multiplier := ram_multiplier default_config;
     quantization_ram_reduction := quantization_ram_reduction default_config;
     small_model_threshold := small_model_threshold default_config;
     medium_model_threshold := medium_model_threshold default_config;
     large_model_threshold := large_model_threshold default_config;
     gpu_required_threshold := gpu_required_threshold default_config;
     default_os_support := default_os_support default_config |}.

(** What [main] does before it builds the fetcher: it stops the process
    with [sys.exit(code)] after logging some lines, or goes on with the
    configuration it built ([None] when the filter is disabled). *)
Inductive gate :=
| Exit (code : Z) (logged : list string)
| Proceed (filter_config : option FilterConfig).

Definition main_gate (a : Args) : gate :=
  if disable_spam_filter a then Proceed None
  else
    let filter_config := config_of_args a in
    let config_errors := validate filter_config in
    if negb (is_nil config_errors) then
      Exit 1 ("Spam filter configuration validation errors:"
              :: map (fun error => "  - " ++ error) config_errors)
    else Proceed (Some filter_config).

End Fetcher.

(** ** Sample data *)

Definition MB : Z := 1024 * 1024.

(** A stand-in for the text of [repr], for runs that never ask for it. *)
Definition sample_repr (v : pyval) : string := "<" ++ type_name v ++ ">".

(** An entry of the shape [_convert_to_expected_format] builds, for the
    repository [uploader/Llama-2-7B-GGUF]. *)
Definition llama_entry (quant uploader : string) (size downloads : Z)
  : dict :=
  [ ("modelName", PStr "Llama 2 7b");
    ("quantFormat", PStr quant);
    ("fileSize", PInt size);
    ("fileSizeFormatted", PStr (str_of_Z (size / MB) ++ " MB"));
    ("modelType", PStr "Llama");
    ("license", PStr "Not specified");
    ("downloadCount", PInt downloads);
    ("likeCount", PInt 0);
    ("huggingFaceLink",
     PStr ("https://huggingface.co/" ++ uploader ++ "/Llama-2-7B-GGUF"));
    ("directDownloadLink",
     PStr ("https://huggingface.co/" ++ uploader
           ++ "/Llama-2-7B-GGUF/resolve/main/llama-2-7b." ++ quant
           ++ ".gguf"));
    ("uploadDate", PNone) ].

(** The group of the scenario: a full-precision file and three
    quantized variants. *)
Definition entry_f16 : dict := llama_entry "F16" "someuser" (500 * MB) 1000.
Definition entry_q8 : dict := llama_entry "Q8_0" "someuser" (300 * MB) 40.
Definition entry_q4 : dict := llama_entry "Q4_K_M" "TheBloke" (120 * MB) 60.
Definition entry_q2 : dict := llama_entry "Q2_K" "someuser" (60 * MB) 500.

Definition scenario_group : string * list dict :=
  ("llama 2 7b", [entry_f16; entry_q8; entry_q4; entry_q2]).

(** The default configuration with a lower size floor. *)
Definition with_min_size (n : Z) (c : FilterConfig) : FilterConfig :=
  mk_config n (size_drop_threshold c) (min_downloads c)
    (trusted_uploaders c) (finetune_patterns c) (backup_enabled c)
    (detailed_logging c) (ram_multiplier c) (quantization_ram_reduction c)
    (small_model_threshold c) (medium_model_threshold c)
    (large_model_threshold c) (gpu_required_threshold c)
    (default_os_support c).

Definition config_floor_50 : FilterConfig :=
  with_min_size (50 * MB) default_config.

(** The state a run starts from. *)
Definition fresh : Engine.pstate := (Engine.new_report, []).

(** A raw record as the hub returns it: one repository, its files. *)
Definition gguf_file (name : string) (size : Z) : pyval :=
  PDict [("rfilename", PStr name); ("size", PInt size)].

Definition raw_llama : pyval :=
  PDict [ ("id", PStr "TheBloke/Llama-2-7B-GGUF");
          ("downloads", PInt 1000);
          ("likes", PInt 5);
          ("siblings",
           PList [ PDict [("rfilename", PStr "README.md")];
                   gguf_file "llama-2-7b.Q4_K_M.gguf" 4200000000 ]) ].

(** A record whose download count is text, with two files that land in
    one group. *)
Definition raw_bad_downloads : pyval :=
  PDict [ ("id", PStr "bob/mistral-7b");
          ("downloads", PStr "many");
          ("siblings",
           PList [ gguf_file "mistral-7b.Q5_K_M.gguf" 5100000000;
                   gguf_file "mistral-7b.Q4_K_M.gguf" 4200000000 ]) ].

(** A configuration that validation rejects: the size drop threshold is
    1.5. *)
Definition config_bad_threshold : FilterConfig :=
  mk_config (min_size_bytes default_config) (float_of_ratio 3 2)
    (min_downloads default_config) (trusted_uploaders default_config)
    (finetune_patterns default_config) (backup_enabled default_config)
    (detailed_logging default_config) (ram_multiplier default_config)
    (quantization_ram_reduction default_config)
    (small_model_threshold default_config)
    (medium_model_threshold default_config)
    (large_model_threshold default_config)
    (gpu_required_threshold default_config)
    (default_os_support default_config).

(** [--size-threshold 1.5] *)
Definition args_bad_threshold : Fetcher.Args :=
  Fetcher.mk_args false 100 (float_of_ratio 3 2) 100 false false.

(** An entry whose size is an int beyond the range of a float. *)
Definition huge_entry : dict :=
  [ ("modelName", PStr "Llama 2 7B");
    ("quantFormat", PStr "Q4_K_M");
    ("fileSize", PInt (2 ^ 1100)) ].

(** A name that only the CodeLlama rule flags: no vocabulary word stands
    alone in it. *)
Definition codellama_entry : dict :=
  [ ("modelName", PStr "Codellama Instructed");
    ("huggingFaceLink",
     PStr "https://huggingface.co/acme/codellama-instructed") ].

(** A name without any signal, fine-tune or base. *)
Definition unlabelled_entry : dict :=
  [ ("modelName", PStr "Zephyrus");
    ("huggingFaceLink", PStr "https://huggingface.co/acme/zephyrus") ].

(** Two variants of one size; the second comes from a trusted
    uploader. *)
Definition twin_a : dict := llama_entry "Q8_0" "someuser" (300 * MB) 500.
Definition twin_b : dict := llama_entry "Q4_K_M" "TheBloke" (300 * MB) 60.

(** Two runs' clock readings *)
Definition clock_0 : spec_float := float_of_Z_round 10.
Definition clock_1 : spec_float := float_of_Z_round 12.

(** A batch on which the selection of stage 5 raises: the download
    count of the second record cannot be compared with a number. *)
Definition fatal_batch : list pyval := [raw_llama; raw_bad_downloads].

Definition fatal_exn : exn :=
  mk_exn TypeError
    "'>=' not supported between instances of 'str' and 'int'".

(** The report as the stages leave it on [fatal_batch]. *)
Definition fatal_report : Engine.ProcessingReport :=
  Eval vm_compute in
    fst (snd (Engine.stages sample_repr default_config fatal_batch fresh)).

(** ** Properties of kept lists *)

Definition size_ge (a b : dict) : Prop :=
  py_ge (Selector.file_size a) (Selector.file_size b) = Ok true.
Definition size_gt (a b : dict) : Prop :=
  py_gt (Selector.file_size a) (Selector.file_size b) = Ok true.

(** Every element is at least as large as every later one. *)
Definition descending (l : list dict) : Prop := ForallOrdPairs size_ge l.
Definition strictly_descending (l : list dict) : Prop :=
  ForallOrdPairs size_gt l.

Inductive Subseq {A} : list A -> list A -> Prop :=
| Subseq_nil : Subseq [] []
| Subseq_skip x l l' : Subseq l l' -> Subseq l (x :: l')
| Subseq_take x l l' : Subseq l l' -> Subseq (x :: l) (x :: l').

(** The reasons [should_keep_variant] has to keep [v] after [last], the
    most recently kept of [kept]. *)
Definition trusted_bypass (c : FilterConfig) (v : dict) : Prop :=
  Selector.is_trusted_uploader c v = Ok true
  /\ Selector.meets_download_threshold v 50 = Ok true.

Definition popular (c : FilterConfig) (v : dict) : Prop :=
  Selector.meets_download_threshold v (min_downloads c) = Ok true.

Definition last_size_zero (last : dict) : Prop :=
  py_eq (Selector.file_size last) (PInt 0) = true.

(** [1 - size(v) / size(last) > threshold] *)
Definition size_drop_over (c : FilterConfig) (v last : dict) : Prop :=
  exists ratio,
    py_truediv (Selector.file_size v) (Selector.file_size last) = Ok ratio
    /\ flt (size_drop_threshold c) (fsub f_one ratio) = true.

Definition family_escape (c : FilterConfig) (v : dict) (kept : list dict)
  : Prop :=
  Selector.is_different_quantization_family v kept = Ok true
  /\ Selector.download_count_ge v (min_downloads c * 2) = Ok true.

Definition admitted (c : FilterConfig) (v : dict) (kept : list dict)
    (last : dict) : Prop :=
  trusted_bypass c v
  \/ (popular c v
      /\ (last_size_zero last \/ size_drop_over c v last
          \/ family_escape c v kept)).

(** The sizes the two ladders can return *)
Definition ram_buckets : list Z := [8; 16; 32; 64; 128].
Definition cpu_buckets : list Z := [4; 6; 8; 12; 16].

(** The smallest file size whose quotient by [2^30] is beyond a float. *)
Definition first_overflowing_size : Z := overflow_threshold * gib.

(** The size of the entry is not an int that overflows the division
    by [2^30]. *)
Definition size_fits (model : dict) : Prop :=
  forall z, Selector.file_size model = PInt z -> z < first_overflowing_size.

(** What a stage returns, when it returns, satisfies [Q]. *)
Definition yields {A} (Q : A -> Prop) (m : Engine.M A) : Prop :=
  forall s a s', m s = (Ok a, s') -> Q a.

(** An entry with the field types the engine's own entries have when
    the hub data is clean: text for the name, the format and the links,
    an int for the download count, a non-negative int for the size. *)
Definition plain_entry (e : dict) : Prop :=
  (exists s, dict_get e "huggingFaceLink" (PStr "") = PStr s)
  /\ (exists s, dict_get e "directDownloadLink" (PStr "") = PStr s)
  /\ (exists s, dict_get e "modelName" (PStr "") = PStr s)
  /\ (exists s, dict_get e "quantFormat" (PStr "") = PStr s)
  /\ (exists n, dict_get e "downloadCount" (PInt 0) = PInt n)
  /\ (exists z, Selector.file_size e = PInt z /\ 0 <= z).

(** The result of a run with the wall-clock time left out. *)
Definition timeless (r : Engine.FilterResult) : Engine.FilterResult :=
  Engine.mk_result (Engine.filtered_models r) (Engine.original_count r)
    (Engine.filtered_count r) (Engine.removed_count r)
    (Engine.backup_path r)
    (Engine.set_processing_time_seconds (S754_zero false)
       (Engine.processing_report r))
    (Engine.errors r).

(** The counters of a report *)
Definition counters (r : Engine.ProcessingReport) : list Z :=
  [ Engine.total_processed r; Engine.total_kept r; Engine.total_removed r;
    Engine.small_models_removed r; Engine.finetuned_removed r;
    Engine.quantization_variants_removed r;
    Engine.variants_removed_by_size r;
    Engine.variants_removed_by_uploader r;
    Engine.variants_removed_by_downloads r;
    Engine.base_models_kept r; Engine.quantized_variants_kept r;
    Engine.trusted_uploader_variants_kept r; Engine.size_reduction_mb r ].

(** ** Annotated entries *)

(** What an entry annotated by [calculate_requirements] holds. *)
Definition annotated (c : FilterConfig) (model m' : dict) : Prop :=
  (exists ram, dict_find m' "minRamGB" = Some (PInt ram) /\ In ram ram_buckets)
  /\ (exists cpu, dict_find m' "minCpuCores" = Some (PInt cpu)
                  /\ In cpu cpu_buckets)
  /\ (exists gpu, dict_find m' "gpuRequired" = Some (PBool gpu))
  /\ dict_find m' "osSupported" = Some (os_list c)
  /\ forall k, ~ In k hardware_fields -> dict_find m' k = dict_find model k.

(** What the fallback writes: a RAM size of its own ladder, 8 cores, GPU
    required. *)
Definition conservative (c : FilterConfig) (model m' : dict) : Prop :=
  (exists ram, dict_find m' "minRamGB" = Some (PInt ram)
               /\ In ram [8; 16; 32; 64])
  /\ dict_find m' "minCpuCores" = Some (PInt 8)
  /\ dict_find m' "gpuRequired" = Some (PBool true)
  /\ dict_find m' "osSupported" = Some (os_list c)
  /\ forall k, ~ In k hardware_fields -> dict_find m' k = dict_find model k.

(** ** Groups *)

(** The entries with their group keys, when every key can be computed. *)
Definition keyed (c : FilterConfig) (models : list dict)
  : result (list (string * dict)) :=
  rmap (fun model =>
          k <- Classifier.get_base_model_group c model ;; Ok (k, model))
       models.

(** The entries filed under [k], in order. *)
Definition members (k : string) (entries : list (string * dict))
  : list dict :=
  map snd (filter (fun p => String.eqb k (fst p)) entries).

(** [groups] files [entries] by key. *)
Definition grouped (groups : list (string * list dict))
    (entries : list (string * dict)) : Prop :=
  NoDup (map fst groups)
  /\ (forall k, In k (map fst groups) <-> In k (map fst entries))
  /\ forall k ms, In (k, ms) groups -> ms <> [] /\ ms = members k entries.

(** ** Selections *)

(** [v] passes the size test of [select_variants_for_group]. *)
Definition valid_size (c : FilterConfig) (v : dict) : Prop :=
  py_ge (Selector.file_size v) (PInt (min_size_bytes c)) = Ok true.

(** ** Entries of the pipeline *)

(** An entry built from a GGUF file of one of the raw records. *)
Definition built_from (py_repr : pyval -> string) (raw_models : list pyval)
    (e : dict) : Prop :=
  exists raw_model entries,
    In raw_model raw_models
    /\ Engine.gguf_entries py_repr raw_model = Ok entries
    /\ In e entries.

(** ** Clean batches *)

(** The stage returns from every state, with a value that satisfies
    [Q]. *)
Definition returns {A} (Q : A -> Prop) (m : Engine.M A) : Prop :=
  forall s, exists a s', m s = (Ok a, s') /\ Q a.

(** A raw record as the hub sends it when its data is clean: a dict whose
    download count, when present, is an int, and whose files have
    non-negative int sizes, when they state one. *)
Definition clean_record (raw_model : pyval) : Prop :=
  exists d,
    raw_model = PDict d
    /\ (exists n, dict_get d "downloads" (PInt 0) = PInt n)
    /\ forall files,
         py_iter (dict_get d "siblings" (PList [])) = Ok files ->
         forall f, In (PDict f) files ->
                   exists z, dict_get f "size" (PInt 0) = PInt z /\ 0 <= z.

(** * Properties *)

(** ** The scenario group (C1) *)

(** C1, as the specification states it, fails: the selection for the
    scenario group is not the list F16, Q4_K_M, Q2_K, neither from the
    selector with F16 as its base model nor from the engine's turn on the
    group. *)
Lemma scenario_not_as_stated :
  Selector.select_variants_for_group default_config (Some entry_f16)
    [entry_q8; entry_q4; entry_q2]
  <> Ok [entry_f16; entry_q4; entry_q2]
  /\ fst (Engine.filter_group default_config scenario_group fresh)
     <> Ok [entry_f16; entry_q4; entry_q2].
Proof.
  split; vm_compute; intro H; discriminate H.
Qed.

(** C1, amended: with the default configuration (minimum 100 downloads,
    threshold 0.05, size floor 100MB) Q8_0 is kept as the size anchor, the
    first variant, although it has 40 downloads; Q4_K_M is kept by the
    trusted-uploader bypass; Q2_K, at 60MB, is under the size floor and is
    discarded before the selection.  The selector returns F16, Q8_0,
    Q4_K_M; the engine, which appends the base model last, returns Q8_0,
    Q4_K_M, F16.  With a size floor of 50MB, Q2_K is kept as well, by its
    size drop of one half after Q4_K_M. *)
Theorem scenario_selection :
  Selector.select_variants_for_group default_config (Some entry_f16)
    [entry_q8; entry_q4; entry_q2]
  = Ok [entry_f16; entry_q8; entry_q4]
  /\ fst (Engine.filter_group default_config scenario_group fresh)
     = Ok [entry_q8; entry_q4; entry_f16]
  /\ Selector.should_keep_variant default_config entry_q8 [] = Ok true
  /\ trusted_bypass default_config entry_q4
  /\ py_ge (Selector.file_size entry_q2)
           (PInt (min_size_bytes default_config)) = Ok false
  /\ Selector.select_variants_for_group config_floor_50 (Some entry_f16)
       [entry_q8; entry_q4; entry_q2]
     = Ok [entry_f16; entry_q8; entry_q4; entry_q2]
  /\ fst (Engine.filter_group config_floor_50 scenario_group fresh)
     = Ok [entry_q8; entry_q4; entry_q2; entry_f16]
  /\ size_drop_over config_floor_50 entry_q2 entry_q4.
Proof.
  repeat split; try (vm_compute; reflexivity).
  exists (float_of_ratio 1 2). split; vm_compute; reflexivity.
Qed.

(** ** The result of a run (C6, C8, C9, C10) *)

Section Runs.

Variable py_repr : pyval -> string.
Variable c : FilterConfig.

(** What [filter_models] returns is fixed by what the stages return. *)
Lemma run_cases (t0 t1 : spec_float) (raw : list pyval) :
  (exists gguf enhanced report errs,
      Engine.stages py_repr c raw fresh = (Ok (gguf, enhanced), (report, errs))
      /\ Engine.filtered_models (Engine.filter_models py_repr c t0 t1 raw)
         = enhanced
      /\ Engine.filtered_count (Engine.filter_models py_repr c t0 t1 raw)
         = Engine.len enhanced
      /\ Engine.errors (Engine.filter_models py_repr c t0 t1 raw) = errs)
  \/ (exists e report errs,
      Engine.stages py_repr c raw fresh = (Raise e, (report, errs))
      /\ Engine.filtered_models (Engine.filter_models py_repr c t0 t1 raw) = []
      /\ Engine.filtered_count (Engine.filter_models py_repr c t0 t1 raw) = 0
      /\ Engine.errors (Engine.filter_models py_repr c t0 t1 raw)
         = (errs ++ [Engine.failure_message e])%list).
Proof.
  unfold Engine.filter_models, fresh.
  destruct (Engine.stages py_repr c raw (Engine.new_report, []))
    as [[[gguf enhanced] | e] [report errs]].
  - left. exists gguf, enhanced, report, errs. repeat split.
  - right. exists e, report, errs. repeat split.
Qed.

Lemma filtered_count_is_length (t0 t1 : spec_float) (raw : list pyval) :
  Engine.filtered_count (Engine.filter_models py_repr c t0 t1 raw)
  = Engine.len
      (Engine.filtered_models (Engine.filter_models py_repr c t0 t1 raw)).
Proof.
  destruct (run_cases t0 t1 raw)
    as [(g & en & r & es & _ & Hm & Hc & _) | (e & r & es & _ & Hm & Hc & _)];
    rewrite Hm, Hc; reflexivity.
Qed.

End Runs.

(** C6: when a stage raises, whatever the batch, [filter_models] still
    returns a result; the result holds no entry, its kept count is zero,
    its error list is the one accumulated so far followed by the message
    of the failure, and it does not count as a success. *)
Theorem fatal_error_gives_empty_result
    (py_repr : pyval -> string) (c : FilterConfig) (t0 t1 : spec_float)
    (raw : list pyval) (e : exn) (report : Engine.ProcessingReport)
    (errs : list string) :
  Engine.stages py_repr c raw fresh = (Raise e, (report, errs)) ->
  let r := Engine.filter_models py_repr c t0 t1 raw in
  Engine.filtered_models r = []
  /\ Engine.filtered_count r = 0
  /\ Engine.errors r = (errs ++ [Engine.failure_message e])%list
  /\ Engine.processing_report r = report
  /\ Engine.success r = false.
Proof.
  intros H r. subst r. unfold Engine.filter_models.
  unfold fresh in H. rewrite H.
  repeat split.
  unfold Engine.success. apply andb_false_r.
Qed.

(** A batch on which stage 5 raises after three entries were extracted. *)
Lemma fatal_error_witness :
  Engine.stages sample_repr default_config fatal_batch fresh
  = (Raise fatal_exn, (fatal_report, []))
  /\ (let r := Engine.filter_models sample_repr default_config
                 clock_0 clock_1 fatal_batch in
      Engine.filtered_models r = []
      /\ Engine.filtered_count r = 0
      /\ Engine.errors r = ([] ++ [Engine.failure_message fatal_exn])%list
      /\ Engine.processing_report r = fatal_report
      /\ Engine.success r = false).
Proof.
  assert (E : Engine.stages sample_repr default_config fatal_batch fresh
              = (Raise fatal_exn, (fatal_report, [])))
    by (vm_compute; reflexivity).
  split.
  - exact E.
  - exact (fatal_error_gives_empty_result sample_repr default_config
             clock_0 clock_1 fatal_batch fatal_exn fatal_report [] E).
Defined.

(** C8: on the empty batch the output is empty, every counter of the
    report is zero, no group is recorded and the error list is empty,
    whatever the configuration and the clock. *)
Theorem empty_batch_result
    (py_repr : pyval -> string) (c : FilterConfig) (t0 t1 : spec_float) :
  let r := Engine.filter_models py_repr c t0 t1 [] in
  Engine.filtered_models r = []
  /\ Engine.original_count r = 0
  /\ Engine.filtered_count r = 0
  /\ Engine.removed_count r = 0
  /\ Forall (fun n => n = 0) (counters (Engine.processing_report r))
  /\ Engine.model_group_stats (Engine.processing_report r) = []
  /\ Engine.report_errors (Engine.processing_report r) = []
  /\ Engine.errors r = [].
Proof.
  cbv zeta. unfold Engine.filter_models. cbn.
  repeat split. repeat constructor.
Qed.

(** Two runs differ at most in the time they report. *)
Lemma runs_agree_timeless
    (py_repr : pyval -> string) (c : FilterConfig) (raw : list pyval)
    (t0 t1 t0' t1' : spec_float) :
  timeless (Engine.filter_models py_repr c t0 t1 raw)
  = timeless (Engine.filter_models py_repr c t0' t1' raw).
Proof.
  unfold Engine.filter_models.
  destruct (Engine.stages py_repr c raw (Engine.new_report, []))
    as [[[gguf enhanced] | e] [report errs]]; reflexivity.
Qed.

(** What [timeless] keeps: everything but [processing_time_seconds]. *)
Lemma timeless_keeps (r r' : Engine.FilterResult) :
  timeless r = timeless r' ->
  Engine.filtered_models r = Engine.filtered_models r'
  /\ Engine.errors r = Engine.errors r'
  /\ counters (Engine.processing_report r)
     = counters (Engine.processing_report r')
  /\ Engine.model_group_stats (Engine.processing_report r)
     = Engine.model_group_stats (Engine.processing_report r')
  /\ Engine.report_errors (Engine.processing_report r)
     = Engine.report_errors (Engine.processing_report r').
Proof.
  destruct r as [m o f rm b rep es], r' as [m' o' f' rm' b' rep' es'].
  destruct rep, rep'. unfold timeless, counters. cbn.
  intro H. inversion H; subst. repeat split.
Qed.

(** C9: two runs of the pipeline on one batch with one configuration,
    whatever the clock reads in each, return the same entries, the same
    error list and reports with the same counters, the same per-group
    statistics and the same error list. *)
Theorem runs_agree
    (py_repr : pyval -> string) (c : FilterConfig) (raw : list pyval)
    (t0 t1 t0' t1' : spec_float) :
  let r := Engine.filter_models py_repr c t0 t1 raw in
  let r' := Engine.filter_models py_repr c t0' t1' raw in
  Engine.filtered_models r = Engine.filtered_models r'
  /\ Engine.errors r = Engine.errors r'
  /\ counters (Engine.processing_report r)
     = counters (Engine.processing_report r')
  /\ Engine.model_group_stats (Engine.processing_report r)
     = Engine.model_group_stats (Engine.processing_report r')
  /\ Engine.report_errors (Engine.processing_report r)
     = Engine.report_errors (Engine.processing_report r').
Proof.
  cbv zeta. apply timeless_keeps, runs_agree_timeless.
Qed.

(** C10: a run succeeds exactly when its error list is empty and it kept
    at least one entry; the kept count is the number of entries returned,
    zero when a stage raised; the run on the empty batch does not
    succeed. *)
Theorem success_iff
    (py_repr : pyval -> string) (c : FilterConfig) (t0 t1 : spec_float)
    (raw : list pyval) :
  let r := Engine.filter_models py_repr c t0 t1 raw in
  (Engine.success r = true
   <-> Engine.errors r = [] /\ Engine.filtered_models r <> [])
  /\ Engine.success (Engine.filter_models py_repr c t0 t1 []) = false.
Proof.
  cbv zeta. split; [| reflexivity].
  unfold Engine.success.
  rewrite filtered_count_is_length.
  destruct (Engine.errors (Engine.filter_models py_repr c t0 t1 raw))
    as [| msg errs];
    destruct (Engine.filtered_models
                (Engine.filter_models py_repr c t0 t1 raw)) as [| m ms];
    cbn; split; try (intros [H1 H2]); try intro H;
    try discriminate; try contradiction; try (split; congruence);
    try reflexivity; try (exfalso; apply H2; reflexivity).
Qed.

(** ** Configuration and the pipeline (C2) *)

(** C2, as the specification states it, fails: validation rejects the
    configuration with threshold 1.5, and the pipeline built on it still
    runs every stage on the batch, returns the entry it kept and reports
    no error at all. *)
Lemma invalid_config_still_runs :
  validate config_bad_threshold
  = ["size_drop_threshold must be between 0 and 1"]
  /\ (let r := Engine.filter_models sample_repr config_bad_threshold
                 clock_0 clock_1 [raw_llama] in
      List.length (Engine.filtered_models r) = 1%nat
      /\ Engine.total_processed (Engine.processing_report r) = 1
      /\ Engine.total_kept (Engine.processing_report r) = 1
      /\ Engine.errors r = []
      /\ Engine.success r = true).
Proof.
  split; [| cbv zeta; repeat split]; vm_compute; reflexivity.
Qed.

(** C2, amended: the engine does not validate the configuration it is
    given; the refusal is in the command-line entry point.  When the spam
    filter is enabled and validation of the configuration built from the
    arguments gives at least one message, [main] logs a header and each
    message and exits with status 1, before any pipeline is built. *)
Theorem cli_refuses_invalid_config (a : Fetcher.Args) :
  Fetcher.disable_spam_filter a = false ->
  validate (Fetcher.config_of_args a) <> [] ->
  Fetcher.main_gate a
  = Fetcher.Exit 1
      ("Spam filter configuration validation errors:"
       :: map (fun error => "  - " ++ error)
              (validate (Fetcher.config_of_args a))).
Proof.
  intros Hon Hbad. unfold Fetcher.main_gate. rewrite Hon.
  destruct (validate (Fetcher.config_of_args a)) as [| msg rest].
  - contradiction.
  - reflexivity.
Qed.

Lemma cli_refuses_witness :
  Fetcher.main_gate args_bad_threshold
  = Fetcher.Exit 1
      ("Spam filter configuration validation errors:"
       :: map (fun error => "  - " ++ error)
              (validate (Fetcher.config_of_args args_bad_threshold))).
Proof.
  assert (Hbad : validate (Fetcher.config_of_args args_bad_threshold) <> [])
    by (vm_compute; intro H; discriminate H).
  exact (cli_refuses_invalid_config args_bad_threshold eq_refl Hbad).
Defined.

(** ** The classifier (C4) *)

Lemma rbind_ok {A B} (r : result A) (k : A -> result B) (b : B) :
  rbind r k = Ok b -> exists a, r = Ok a /\ k a = Ok b.
Proof.
  destruct r as [a | e]; cbn; intro H.
  - exists a. split; [reflexivity | exact H].
  - discriminate H.
Qed.

(** An entry that [is_finetuned] flags is never a base model. *)
Lemma finetuned_not_base (c : FilterConfig) (model : dict) :
  Classifier.is_finetuned c model = Ok true ->
  Classifier.is_base_model c model = Ok false.
Proof.
  intro H. unfold Classifier.is_base_model. rewrite H. reflexivity.
Qed.

(** An entry that [is_finetuned] clears is a base model, with or without
    a base indicator. *)
Lemma not_finetuned_is_base (c : FilterConfig) (model : dict) :
  Classifier.is_finetuned c model = Ok false ->
  Classifier.is_base_model c model = Ok true.
Proof.
  intro H. unfold Classifier.is_base_model. rewrite H. cbn [rbind].
  unfold Classifier.is_finetuned in H.
  destruct (get_or_empty_lower model "modelName") as [name | e];
    [| discriminate H].
  destruct (get_or_empty_lower model "huggingFaceLink") as [id | e];
    [| discriminate H].
  cbn [rbind].
  destruct (Classifier.any_pattern Classifier.base_patterns name id);
    [reflexivity |].
  destruct (Classifier.any_indicator Classifier.base_indicators name id);
    reflexivity.
Qed.

(** C4, as the specification states it, fails: on the entry named
    Codellama Instructed no vocabulary pattern, no fine-tune indicator, no
    base pattern and no base indicator matches, and [is_base_model]
    returns false, because the CodeLlama rule flags the name. *)
Lemma codellama_not_base :
  get_or_empty_lower codellama_entry "modelName" = Ok "codellama instructed"
  /\ get_or_empty_lower codellama_entry "huggingFaceLink"
     = Ok "https://huggingface.co/acme/codellama-instructed"
  /\ Classifier.any_pattern
       (Classifier.compiled_finetune_patterns default_config)
       "codellama instructed"
       "https://huggingface.co/acme/codellama-instructed" = false
  /\ Classifier.any_indicator Classifier.finetune_indicators
       "codellama instructed"
       "https://huggingface.co/acme/codellama-instructed" = false
  /\ Classifier.any_pattern Classifier.base_patterns
       "codellama instructed"
       "https://huggingface.co/acme/codellama-instructed" = false
  /\ Classifier.any_indicator Classifier.base_indicators
       "codellama instructed"
       "https://huggingface.co/acme/codellama-instructed" = false
  /\ Classifier.is_base_model default_config codellama_entry = Ok false.
Proof.
  repeat split; vm_compute; reflexivity.
Qed.

(** C4, amended: on an entry whose name and link can be read, when no
    fine-tune vocabulary pattern matches, the CodeLlama rule (a name with
    codellama and with instruct or chat in it) does not apply, no
    fine-tune indicator matches, and no base pattern and no base indicator
    matches either, [is_base_model] returns true. *)
Theorem conservative_default
    (c : FilterConfig) (model : dict) (name id : string) :
  get_or_empty_lower model "modelName" = Ok name ->
  get_or_empty_lower model "huggingFaceLink" = Ok id ->
  Classifier.any_pattern (Classifier.compiled_finetune_patterns c) name id
  = false ->
  Classifier.codellama_rule name = false ->
  Classifier.any_indicator Classifier.finetune_indicators name id = false ->
  Classifier.any_pattern Classifier.base_patterns name id = false ->
  Classifier.any_indicator Classifier.base_indicators name id = false ->
  Classifier.is_base_model c model = Ok true.
Proof.
  intros Hname Hid Hvocab Hrule Hind Hbase Hbind.
  apply not_finetuned_is_base.
  unfold Classifier.is_finetuned.
  rewrite Hname, Hid. cbn [rbind]. rewrite Hvocab, Hrule, Hind. reflexivity.
Qed.

Lemma conservative_default_witness :
  Classifier.is_base_model default_config unlabelled_entry = Ok true.
Proof.
  apply (conservative_default default_config unlabelled_entry
           "zephyrus" "https://huggingface.co/acme/zephyrus");
    vm_compute; reflexivity.
Defined.

(** ** The hardware ladders (C7) *)

Lemma ram_bucket_in (x : spec_float) : In (Hardware.ram_bucket x) ram_buckets.
Proof.
  unfold Hardware.ram_bucket, ram_buckets.
  repeat match goal with
         | |- context [if ?b then _ else _] => destruct b
         end; cbn; auto 6.
Qed.

(** Whatever [calculate_ram_requirements] returns is a RAM bucket. *)
Lemma ram_result_in_buckets
    (c : FilterConfig) (file_size : Z) (quant_format : string) (v : Z) :
  Hardware.calculate_ram_requirements c file_size quant_format = Ok v ->
  In v ram_buckets.
Proof.
  unfold Hardware.calculate_ram_requirements.
  destruct (file_size <=? 0).
  - intro H. injection H as <-. cbn. auto.
  - intro H. apply rbind_ok in H. destruct H as (gb & _ & H).
    injection H as <-. apply ram_bucket_in.
Qed.

(** Whatever [calculate_cpu_requirements] returns is a core count of
    the ladder. *)
Lemma cpu_result_in_buckets
    (c : FilterConfig) (estimated_params : option Z) (file_size v : Z) :
  Hardware.calculate_cpu_requirements c estimated_params file_size = Ok v ->
  In v cpu_buckets.
Proof.
  unfold Hardware.calculate_cpu_requirements, cpu_buckets.
  destruct estimated_params as [n |].
  - repeat match goal with
           | |- context [if ?b then _ else _] => destruct b
           end; intro H; injection H as <-; cbn; auto 6.
  - intro H. apply rbind_ok in H. destruct H as (gb & _ & H).
    revert H.
    repeat match goal with
           | |- context [if ?b then _ else _] => destruct b
           end; intro H; injection H as <-; cbn; auto 6.
Qed.

(** The division by [2^30] returns below [first_overflowing_size] and
    raises from it on. *)
Lemma size_in_gb_returns (file_size : Z) :
  Z.abs file_size < first_overflowing_size ->
  int_truediv file_size gib = Ok (float_of_ratio file_size gib).
Proof.
  unfold first_overflowing_size, int_truediv. intro H.
  change (gib =? 0) with false. change (Z.abs gib) with gib. cbv iota.
  destruct (Z.leb_spec (overflow_threshold * gib) (Z.abs file_size)) as [L | L].
  - exfalso. apply (Z.lt_irrefl (Z.abs file_size)).
    eapply Z.lt_le_trans; eassumption.
  - reflexivity.
Qed.

Lemma size_in_gb_overflows (file_size : Z) :
  first_overflowing_size <= file_size ->
  int_truediv file_size gib = Raise exn_div_too_large.
Proof.
  unfold first_overflowing_size, int_truediv. intro H.
  change (gib =? 0) with false. change (Z.abs gib) with gib. cbv iota.
  assert (Hpos : 0 <= overflow_threshold * gib) by (vm_compute; discriminate).
  rewrite (Z.abs_eq file_size) by (eapply Z.le_trans; eassumption).
  destruct (Z.leb_spec (overflow_threshold * gib) file_size) as [L | L].
  - reflexivity.
  - exfalso. apply (Z.lt_irrefl file_size).
    eapply Z.lt_le_trans; eassumption.
Qed.

(** Below [first_overflowing_size] both ladders return a bucket. *)
Lemma ram_returns_in_range
    (c : FilterConfig) (file_size : Z) (quant_format : string) :
  file_size < first_overflowing_size ->
  exists v, Hardware.calculate_ram_requirements c file_size quant_format
            = Ok v /\ In v ram_buckets.
Proof.
  intro H.
  destruct (Hardware.calculate_ram_requirements c file_size quant_format)
    as [v | e] eqn:E.
  - exists v. split; [reflexivity |]. eapply ram_result_in_buckets, E.
  - exfalso. unfold Hardware.calculate_ram_requirements in E.
    destruct (Z.leb_spec file_size 0) as [L | L]; [discriminate E |].
    rewrite size_in_gb_returns in E.
    + discriminate E.
    + rewrite Z.abs_eq; [exact H | apply Z.lt_le_incl, L].
Qed.

Lemma cpu_returns_in_range
    (c : FilterConfig) (estimated_params : option Z) (file_size : Z) :
  Z.abs file_size < first_overflowing_size ->
  exists v, Hardware.calculate_cpu_requirements c estimated_params file_size
            = Ok v /\ In v cpu_buckets.
Proof.
  intro H.
  destruct (Hardware.calculate_cpu_requirements c estimated_params file_size)
    as [v | e] eqn:E.
  - exists v. split; [reflexivity |]. eapply cpu_result_in_buckets, E.
  - exfalso. unfold Hardware.calculate_cpu_requirements in E.
    destruct estimated_params as [n |].
    + revert E.
      repeat match goal with
             | |- context [if ?b then _ else _] => destruct b
             end; discriminate.
    + rewrite (size_in_gb_returns _ H) in E. cbn [rbind] in E. revert E.
      repeat match goal with
             | |- context [if ?b then _ else _] => destruct b
             end; discriminate.
Qed.

(** C7 fails on the code: from a file size of [first_overflowing_size]
    bytes on, and so at [2^1100], the division of the size by [2^30]
    raises [OverflowError]; [calculate_ram_requirements] returns no
    bucket, and neither does [calculate_cpu_requirements] when the
    parameter estimate is absent. *)
Theorem ladders_overflow
    (c : FilterConfig) (quant_format : string) (file_size : Z) :
  first_overflowing_size <= 2 ^ 1100
  /\ (first_overflowing_size <= file_size ->
      Hardware.calculate_ram_requirements c file_size quant_format
      = Raise exn_div_too_large
      /\ Hardware.calculate_cpu_requirements c None file_size
         = Raise exn_div_too_large).
Proof.
  split; [vm_compute; discriminate |].
  intro H.
  assert (Hpos : 0 < first_overflowing_size) by (vm_compute; reflexivity).
  unfold Hardware.calculate_ram_requirements,
    Hardware.calculate_cpu_requirements.
  rewrite (size_in_gb_overflows _ H).
  destruct (Z.leb_spec file_size 0) as [L | L].
  - exfalso. apply (Z.lt_irrefl 0).
    eapply Z.lt_le_trans; [exact Hpos |].
    eapply Z.le_trans; eassumption.
  - split; reflexivity.
Qed.

Lemma ladders_overflow_witness :
  Hardware.calculate_ram_requirements default_config (2 ^ 1100) "Q4_K_M"
  = Raise exn_div_too_large
  /\ Hardware.calculate_cpu_requirements default_config None (2 ^ 1100)
     = Raise exn_div_too_large.
Proof.
  assert (H : first_overflowing_size <= 2 ^ 1100)
    by (vm_compute; discriminate).
  exact (proj2 (ladders_overflow default_config "Q4_K_M" (2 ^ 1100)) H).
Defined.

(** ** The greedy pass over the variants (C5) *)

(** Why [should_keep_variant] says yes. *)
Lemma should_keep_reason
    (c : FilterConfig) (v : dict) (kept : list dict) :
  Selector.should_keep_variant c v kept = Ok true ->
  kept = [] \/ admitted c v kept (Selector.last_of kept).
Proof.
  unfold Selector.should_keep_variant.
  destruct kept as [| k0 ks]; [left; reflexivity |].
  cbn [is_nil]. intro H. right. unfold admitted.
  apply rbind_ok in H. destruct H as (trusted & Htrusted & H).
  apply rbind_ok in H. destruct H as (lenient & Hlenient & H).
  destruct lenient.
  - left. destruct trusted; [| discriminate Hlenient].
    split; assumption.
  - right.
    apply rbind_ok in H. destruct H as (pop & Hpop & H).
    destruct pop; [| discriminate H]. cbn [negb] in H.
    split; [exact Hpop |].
    apply rbind_ok in H. destruct H as (drop & Hdrop & H).
    destruct drop.
    + unfold Selector.has_significant_size_drop in Hdrop.
      destruct (py_eq (Selector.file_size (Selector.last_of (k0 :: ks)))
                      (PInt 0)) eqn:Ez.
      * left. exact Ez.
      * right. left.
        fold (Selector.file_size v) in Hdrop.
        fold (Selector.file_size (Selector.last_of (k0 :: ks))) in Hdrop.
        rewrite Ez in Hdrop.
        apply rbind_ok in Hdrop. destruct Hdrop as (ratio & Hratio & Hd).
        exists ratio. split; [exact Hratio |]. congruence.
    + right. right.
      apply rbind_ok in H. destruct H as (different & Hdiff & H).
      destruct different; [| discriminate H].
      apply rbind_ok in H. destruct H as (enough & Henough & H).
      split; [exact Hdiff |]. congruence.
Qed.

(** The pass only appends: the list it returns is the list it started
    from, followed by a subsequence of the variants, and each appended
    variant was admitted against the list kept before it. *)
Lemma filter_loop_trace (c : FilterConfig) (variants : list dict) :
  forall kept0 kept,
    Selector.filter_loop c variants kept0 = Ok kept ->
    exists added,
      kept = (kept0 ++ added)%list
      /\ Subseq added variants
      /\ forall pre x post,
           added = (pre ++ x :: post)%list ->
           (kept0 ++ pre)%list = []
           \/ admitted c x (kept0 ++ pre)%list
                (Selector.last_of (kept0 ++ pre)%list).
Proof.
  induction variants as [| v rest IH]; intros kept0 kept H; cbn in H.
  - injection H as <-. exists []. rewrite app_nil_r.
    split; [reflexivity |]. split; [constructor |].
    intros pre x post E. destruct pre; discriminate E.
  - apply rbind_ok in H. destruct H as (keep & Hkeep & H).
    destruct keep.
    + destruct (IH _ _ H) as (added & -> & Hsub & Hadm).
      exists (v :: added). rewrite <- app_assoc.
      split; [reflexivity |]. split; [constructor; exact Hsub |].
      intros pre x post E. destruct pre as [| p pre].
      * injection E as <- _. rewrite app_nil_r.
        apply should_keep_reason, Hkeep.
      * injection E as <- E.
        specialize (Hadm pre x post E).
        rewrite <- app_assoc in Hadm. exact Hadm.
    + destruct (IH _ _ H) as (added & -> & Hsub & Hadm).
      exists added. split; [reflexivity |].
      split; [constructor; exact Hsub |]. exact Hadm.
Qed.

Lemma Subseq_Forall {A} (P : A -> Prop) (l l' : list A) :
  Subseq l l' -> Forall P l' -> Forall P l.
Proof.
  induction 1 as [| x l l' _ IH | x l l' _ IH]; intro H.
  - constructor.
  - inversion H; subst. auto.
  - inversion H; subst. constructor; auto.
Qed.

(** A subsequence of a list ordered pairwise is ordered pairwise. *)
Lemma Subseq_ordered {A} (R : A -> A -> Prop) (l l' : list A) :
  Subseq l l' -> ForallOrdPairs R l' -> ForallOrdPairs R l.
Proof.
  induction 1 as [| x l l' Hs IH | x l l' Hs IH]; intro H.
  - constructor.
  - inversion H; subst. auto.
  - inversion H; subst. constructor; [| auto].
    eapply Subseq_Forall; eassumption.
Qed.

Lemma last_of_snoc (l : list dict) (a : dict) :
  Selector.last_of (l ++ [a])%list = a.
Proof. unfold Selector.last_of. apply last_last. Qed.

(** *** On plain entries in descending order the pass returns *)

Lemma uploader_from_name_returns (ps : list Re.re) (s : string) :
  exists u, Selector.uploader_from_name ps (PStr s) = Ok u.
Proof.
  induction ps as [| p rest IH]; cbn [Selector.uploader_from_name].
  - eexists; reflexivity.
  - cbn [py_search_group rbind].
    destruct (option_map (Re.group1 s) (Re.search p s)) as [u |];
      [| exact IH].
    destruct (Selector.looks_like_username u); [eexists; reflexivity |].
    exact IH.
Qed.

Lemma uploader_returns (e : dict) :
  plain_entry e -> exists u, Selector.extract_uploader_from_model_id e = Ok u.
Proof.
  intros ((hf & Hhf) & (dl & Hdl) & (nm & Hnm) & _).
  unfold Selector.extract_uploader_from_model_id,
    Selector.uploader_from_download_link.
  rewrite Hhf, Hdl, Hnm.
  destruct (uploader_from_name_returns Selector.uploader_patterns nm)
    as [u0 Hu0].
  rewrite Hu0. cbn [py_search_group py_in rbind].
  repeat match goal with
         | |- context [if ?b then _ else _] => destruct b
         | |- context [match option_map ?f ?o with _ => _ end] =>
             destruct (option_map f o)
         end; eexists; reflexivity.
Qed.

Lemma trusted_returns (c : FilterConfig) (e : dict) :
  plain_entry e -> exists b, Selector.is_trusted_uploader c e = Ok b.
Proof.
  intro H. unfold Selector.is_trusted_uploader.
  destruct (uploader_returns e H) as [u ->]. eexists; reflexivity.
Qed.

Lemma downloads_returns (e : dict) (n : Z) :
  plain_entry e ->
  (exists b, Selector.meets_download_threshold e n = Ok b)
  /\ (exists b, Selector.download_count_ge e n = Ok b).
Proof.
  intros (_ & _ & _ & _ & (d & Hd) & _).
  unfold Selector.meets_download_threshold, Selector.download_count_ge.
  rewrite Hd. split; eexists; reflexivity.
Qed.

Lemma family_returns (v : dict) (kept : list dict) :
  plain_entry v -> Forall plain_entry kept ->
  exists b, Selector.is_different_quantization_family v kept = Ok b.
Proof.
  intros Hv Hk. unfold Selector.is_different_quantization_family.
  assert (Hq : forall e, plain_entry e ->
                         exists q, Selector.quant_upper e = Ok q).
  { intros e (_ & _ & _ & (q & Hq) & _). unfold Selector.quant_upper.
    rewrite Hq. eexists; reflexivity. }
  destruct (Hq v Hv) as [q ->]. cbn [rbind].
  assert (Hqs : exists qs, rmap Selector.quant_upper kept = Ok qs).
  { induction Hk as [| k t Hk _ IH]; cbn [rmap].
    - eexists; reflexivity.
    - destruct (Hq k Hk) as [q' ->]. destruct IH as [qs ->].
      eexists; reflexivity. }
  destruct Hqs as [qs ->]. cbn [rbind].
  destruct (Selector.family_of q); eexists; reflexivity.
Qed.

Lemma threshold_at_least_two : 2 <= overflow_threshold.
Proof. vm_compute. discriminate. Qed.

(** The size comparison returns when the last kept entry is at least as
    large as the variant. *)
Lemma size_drop_returns (v last : dict) (threshold : spec_float) :
  plain_entry v -> plain_entry last -> size_ge last v ->
  exists b, Selector.has_significant_size_drop v last threshold = Ok b.
Proof.
  intros (_ & _ & _ & _ & _ & (cur & Hcur & Hcur0))
         (_ & _ & _ & _ & _ & (lst & Hlst & Hlst0)) Hge.
  unfold size_ge in Hge. rewrite Hcur, Hlst in Hge.
  unfold Selector.has_significant_size_drop.
  fold (Selector.file_size v). fold (Selector.file_size last).
  rewrite Hcur, Hlst.
  unfold py_ge, py_order in Hge. cbn [as_num num_cmp] in Hge.
  unfold py_eq. cbn [as_num num_cmp].
  destruct (lst ?= 0) eqn:E0; [eexists; reflexivity | |].
  - apply Z.compare_lt_iff in E0. exfalso.
    apply (Z.lt_irrefl 0). eapply Z.le_lt_trans; eassumption.
  - apply Z.compare_gt_iff in E0.
    assert (Hle : cur <= lst).
    { destruct (lst ?= cur) eqn:E; try discriminate Hge.
      - apply Z.compare_eq in E. subst. apply Z.le_refl.
      - apply Z.compare_gt_iff in E. apply Z.lt_le_incl, E. }
    unfold py_truediv. cbn [as_num]. unfold int_truediv.
    destruct (Z.eqb_spec lst 0) as [-> | _];
      [exfalso; exact (Z.lt_irrefl 0 E0) |].
    rewrite (Z.abs_eq cur), (Z.abs_eq lst)
      by (try assumption; apply Z.lt_le_incl, E0).
    pose proof threshold_at_least_two as H2.
    destruct (Z.leb_spec (overflow_threshold * lst) cur) as [L | _].
    + exfalso. generalize dependent overflow_threshold. intros T L H2. nia.
    + cbn [rbind]. eexists; reflexivity.
Qed.

Lemma should_keep_returns
    (c : FilterConfig) (v : dict) (kept : list dict) :
  plain_entry v -> Forall plain_entry kept ->
  (kept = [] \/ size_ge (Selector.last_of kept) v) ->
  exists b, Selector.should_keep_variant c v kept = Ok b.
Proof.
  intros Hv Hk Hlast. unfold Selector.should_keep_variant.
  destruct kept as [| k0 ks]; [eexists; reflexivity |].
  cbn [is_nil].
  destruct Hlast as [Hnil | Hlast]; [discriminate Hnil |].
  assert (Hplain : plain_entry (Selector.last_of (k0 :: ks))).
  { rewrite Forall_forall in Hk. apply Hk.
    unfold Selector.last_of.
    destruct (exists_last (l := k0 :: ks)) as (l' & a & E);
      [discriminate |].
    rewrite E, last_last. apply in_or_app. right. left. reflexivity. }
  destruct (trusted_returns c v Hv) as [t ->]. cbn [rbind].
  destruct (downloads_returns v 50 Hv) as [[m50 Hm50] _].
  destruct (downloads_returns v (min_downloads c) Hv) as [[mp ->] _].
  destruct (downloads_returns v (min_downloads c * 2) Hv) as [_ [en ->]].
  destruct (size_drop_returns v _ (size_drop_threshold c) Hv Hplain Hlast)
    as [dr ->].
  destruct (family_returns v (k0 :: ks) Hv Hk) as [df ->].
  rewrite Hm50.
  destruct t, m50, mp, dr, df; cbn [rbind negb]; eexists; reflexivity.
Qed.

Lemma filter_loop_returns (c : FilterConfig) (variants : list dict) :
  Forall plain_entry variants -> descending variants ->
  forall kept0,
    Forall plain_entry kept0 ->
    (kept0 = []
     \/ Forall (fun x => size_ge (Selector.last_of kept0) x) variants) ->
    exists kept, Selector.filter_loop c variants kept0 = Ok kept.
Proof.
  induction 1 as [| v rest Hv Hrest IH]; intros Hdesc kept0 Hk Hlast;
    cbn [Selector.filter_loop].
  - eexists; reflexivity.
  - inversion Hdesc as [| ? ? Hvrest Hdesc']; subst.
    assert (Hhere : kept0 = [] \/ size_ge (Selector.last_of kept0) v).
    { destruct Hlast as [-> | Hall]; [left; reflexivity | right].
      inversion Hall; assumption. }
    destruct (should_keep_returns c v kept0 Hv Hk Hhere) as [keep ->].
    cbn [rbind]. destruct keep.
    + apply (IH Hdesc').
      * apply Forall_app. split; [exact Hk |].
        constructor; [exact Hv | constructor].
      * right. rewrite last_of_snoc. exact Hvrest.
    + apply (IH Hdesc' kept0 Hk).
      destruct Hlast as [-> | Hall]; [left; reflexivity | right].
      inversion Hall; assumption.
Qed.

(** On plain entries sorted by size, [filter_quantized_variants]
    returns a list. *)
Lemma filter_quantized_variants_returns
    (c : FilterConfig) (variants : list dict) :
  Forall plain_entry variants -> descending variants ->
  exists kept, Selector.filter_quantized_variants c variants = Ok kept.
Proof.
  intros Hp Hd. unfold Selector.filter_quantized_variants.
  apply filter_loop_returns; auto.
Qed.

(** C5, as the specification states it, fails: the list of the two
    variants of one size is size-descending, both are kept, the second by
    the trusted-uploader bypass, and the kept list is not strictly
    size-descending. *)
Lemma twins_both_kept :
  descending [twin_a; twin_b]
  /\ Selector.filter_quantized_variants default_config [twin_a; twin_b]
     = Ok [twin_a; twin_b]
  /\ ~ strictly_descending [twin_a; twin_b].
Proof.
  split; [| split].
  - repeat constructor.
  - vm_compute. reflexivity.
  - intro H. inversion H as [| a l Hall _]; subst.
    inversion Hall as [| b l' Hgt _]; subst.
    vm_compute in Hgt. discriminate Hgt.
Qed.

(** C5, amended: the kept list is a subsequence of the input, so it is
    size-descending when the input is, and strictly so when the input is
    strictly size-descending; and for every two consecutive kept items a
    then b, either b came in by the trusted-uploader bypass, or b meets
    the minimum download count and the size of a is zero, or the drop
    1 - size(b)/size(a) exceeds the threshold, or b came in by the
    family-diversity escape against the items kept up to a. *)
Theorem kept_list_invariant
    (c : FilterConfig) (variants kept : list dict) :
  Selector.filter_quantized_variants c variants = Ok kept ->
  Subseq kept variants
  /\ (descending variants -> descending kept)
  /\ (strictly_descending variants -> strictly_descending kept)
  /\ forall pre a b post,
       kept = (pre ++ a :: b :: post)%list ->
       admitted c b (pre ++ [a])%list a.
Proof.
  unfold Selector.filter_quantized_variants. intro H.
  destruct (filter_loop_trace c variants [] kept H)
    as (added & -> & Hsub & Hadm).
  cbn [app] in *.
  split; [exact Hsub |].
  split; [apply Subseq_ordered, Hsub |].
  split; [apply Subseq_ordered, Hsub |].
  intros pre a b post E.
  destruct (Hadm (pre ++ [a])%list b post) as [Hnil | Hok].
  - rewrite <- app_assoc. exact E.
  - destruct pre; discriminate Hnil.
  - rewrite last_of_snoc in Hok. exact Hok.
Qed.

Lemma kept_list_witness :
  Subseq [twin_a; twin_b] [twin_a; twin_b]
  /\ (descending [twin_a; twin_b] -> descending [twin_a; twin_b])
  /\ (strictly_descending [twin_a; twin_b] ->
      strictly_descending [twin_a; twin_b])
  /\ forall pre a b post,
       [twin_a; twin_b] = (pre ++ a :: b :: post)%list ->
       admitted default_config b (pre ++ [a])%list a.
Proof.
  assert (H : Selector.filter_quantized_variants default_config
                [twin_a; twin_b] = Ok [twin_a; twin_b])
    by (vm_compute; reflexivity).
  exact (kept_list_invariant default_config [twin_a; twin_b]
           [twin_a; twin_b] H).
Defined.

(** ** The hardware profile (C3) *)

Lemma dict_has_set (d : dict) (k k' : string) (v : pyval) :
  dict_has (dict_set d k v) k' = String.eqb k' k || dict_has d k'.
Proof.
  unfold dict_has. induction d as [| [k0 v0] t IH]; cbn.
  - destruct (String.eqb k' k); reflexivity.
  - destruct (String.eqb k k0) eqn:E; cbn.
    + apply String.eqb_eq in E. subst k0.
      destruct (String.eqb k' k); reflexivity.
    + destruct (String.eqb k' k0); [now rewrite orb_true_r |].
      exact IH.
Qed.

(** Four assignments later the profile is there. *)
Lemma profile_after_sets (d : dict) (ram cpu gpu os : pyval) :
  has_hardware_profile
    (dict_set (dict_set (dict_set (dict_set d "minRamGB" ram)
                            "minCpuCores" cpu) "gpuRequired" gpu)
       "osSupported" os) = true.
Proof.
  unfold has_hardware_profile, hardware_fields. cbn [forallb].
  rewrite !dict_has_set. cbn [String.eqb Ascii.eqb Bool.eqb orb andb].
  reflexivity.
Qed.

(** When the body of the [try] returns, the entry it returns has the
    profile. *)
Lemma body_gives_profile
    (py_repr : pyval -> string) (c : FilterConfig) (model m' : dict) :
  Hardware.requirements_body py_repr c model = Ok m' ->
  has_hardware_profile m' = true.
Proof.
  unfold Hardware.requirements_body. intro H.
  repeat (apply rbind_ok in H; destruct H as (? & _ & H)).
  injection H as <-. apply profile_after_sets.
Qed.

(** The size of the fallback is defined unless [fileSize] is an int
    from [first_overflowing_size] on. *)
Lemma default_file_size_gb_returns (v : pyval) :
  (forall z, v = PInt z -> z < first_overflowing_size) ->
  exists x, Hardware.default_file_size_gb v = Ok x.
Proof.
  intro Hrange. unfold Hardware.default_file_size_gb.
  destruct v as [| b | z | f | s | l | d];
    try (eexists; reflexivity).
  - destruct b; eexists; vm_compute; reflexivity.
  - specialize (Hrange z eq_refl).
    unfold is_int_or_float, py_gt, py_order, py_truediv.
    cbn [as_num num_cmp rbind].
    destruct (z ?= 0) eqn:E; cbn [ord_holds rbind try_except];
      try (eexists; reflexivity).
    rewrite size_in_gb_returns.
    + cbn [rbind try_except]. eexists; reflexivity.
    + apply Z.compare_gt_iff in E.
      rewrite Z.abs_eq; [exact Hrange | apply Z.lt_le_incl, E].
  - unfold is_int_or_float, py_gt, py_order, py_truediv.
    cbn [as_num rbind].
    destruct (ord_holds OpGt (num_cmp (NFloat f) (NInt 0)));
      cbn [rbind try_except]; eexists; reflexivity.
Qed.

(** Outside that range of sizes [calculate_requirements] returns, and
    what it returns has the four fields. *)
Lemma calculate_requirements_total
    (py_repr : pyval -> string) (c : FilterConfig) (model : dict) :
  (forall z, dict_get model "fileSize" (PInt 0) = PInt z ->
             z < first_overflowing_size) ->
  exists m',
    Hardware.calculate_requirements py_repr c model = Ok m'
    /\ has_hardware_profile m' = true.
Proof.
  intro Hrange. unfold Hardware.calculate_requirements, try_except.
  destruct (Hardware.requirements_body py_repr c model) as [m' | e] eqn:E.
  - exists m'. split; [reflexivity |]. eapply body_gives_profile, E.
  - cbn [any_exception]. unfold Hardware._apply_default_requirements.
    destruct (default_file_size_gb_returns _ Hrange) as [x Hx].
    rewrite Hx. cbn [rbind]. eexists. split; [reflexivity |].
    apply profile_after_sets.
Qed.

(** *** Inside the pipeline every entry gets its profile *)

Lemma py_lt_int_false (z n : Z) :
  n <= z -> py_lt (PInt z) (PInt n) = Ok false.
Proof.
  intro H. unfold py_lt, py_order. cbn [as_num num_cmp].
  destruct (z ?= n) eqn:E; try reflexivity.
  apply Z.compare_lt_iff in E. exfalso.
  apply (Z.lt_irrefl z). eapply Z.lt_le_trans; eassumption.
Qed.

(** A size that [_format_file_size] can print fits. *)
Lemma formatted_size_fits
    (py_repr : pyval -> string) (z : Z) (text : string) :
  Engine._format_file_size py_repr (PInt z) = Ok text ->
  z < first_overflowing_size.
Proof.
  intro H. destruct (Z.lt_ge_cases z first_overflowing_size) as [L | G];
    [exact L | exfalso].
  assert (Hbig : 1024 * 1024 * 1024 <= first_overflowing_size)
    by (vm_compute; discriminate).
  unfold Engine._format_file_size in H.
  rewrite !py_lt_int_false in H;
    try (eapply Z.le_trans; [| exact G];
         eapply Z.le_trans; [| exact Hbig]; vm_compute; discriminate).
  cbn [rbind] in H. unfold py_truediv in H. cbn [as_num] in H.
  change (1024 * 1024 * 1024) with gib in H.
  rewrite (size_in_gb_overflows z G) in H. discriminate H.
Qed.

Lemma converted_size_fits
    (py_repr : pyval -> string) (raw_model : dict) (gguf_file : pyval)
    (model : dict) :
  Engine._convert_to_expected_format py_repr raw_model gguf_file
  = Some model ->
  size_fits model.
Proof.
  unfold Engine._convert_to_expected_format.
  destruct gguf_file as [| | | | | | f]; try discriminate.
  destruct (dict_get f "rfilename" (PStr "")) as [| | | | filename | |];
    try discriminate.
  destruct (Engine.convert_body py_repr raw_model f filename)
    as [m | e] eqn:E; [| discriminate].
  intro H. injection H as <-.
  unfold Engine.convert_body in E.
  apply rbind_ok in E. destruct E as (name & _ & E).
  apply rbind_ok in E. destruct E as (text & Htext & E).
  apply rbind_ok in E. destruct E as (id & _ & E).
  injection E as <-. intros z Hz.
  change (dict_get f "size" (PInt 0) = PInt z) in Hz.
  rewrite Hz in Htext. eapply formatted_size_fits, Htext.
Qed.

Lemma rmap_Forall {A B} (f : A -> result B) (Q : B -> Prop)
    (xs : list A) :
  (forall x y, f x = Ok y -> Q y) ->
  forall ys, rmap f xs = Ok ys -> Forall Q ys.
Proof.
  intro Hf. induction xs as [| x t IH]; intros ys H; cbn in H.
  - injection H as <-. constructor.
  - apply rbind_ok in H. destruct H as (y & Hy & H).
    apply rbind_ok in H. destruct H as (ys' & Hys & H).
    injection H as <-. constructor; [eapply Hf, Hy | apply IH, Hys].
Qed.

Lemma rfilter_Forall {A} (f : A -> result bool) (Q : A -> Prop)
    (xs : list A) :
  Forall Q xs -> forall ys, rfilter f xs = Ok ys -> Forall Q ys.
Proof.
  induction 1 as [| x t Hx Ht IH]; intros ys H; cbn in H.
  - injection H as <-. constructor.
  - apply rbind_ok in H. destruct H as (b & _ & H).
    apply rbind_ok in H. destruct H as (ys' & Hys & H).
    injection H as <-. destruct b; [constructor |]; auto.
Qed.

Lemma extracted_sizes_fit (py_repr : pyval -> string) (raw_model : pyval)
    (models : list dict) :
  Engine.gguf_entries py_repr raw_model = Ok models ->
  Forall size_fits models.
Proof.
  unfold Engine.gguf_entries. intro H.
  apply rbind_ok in H. destruct H as (has & _ & H).
  destruct has; cbn [negb] in H; [| injection H as <-; constructor].
  apply rbind_ok in H. destruct H as (files & _ & H).
  apply rbind_ok in H. destruct H as (converted & Hconv & H).
  injection H as <-.
  assert (Hall : Forall (fun o => forall m, o = Some m -> size_fits m)
                        converted).
  { eapply rmap_Forall; [| exact Hconv].
    intros x y Hxy m ->. unfold Engine._convert_of in Hxy.
    destruct raw_model; try discriminate Hxy.
    injection Hxy as Hxy. eapply converted_size_fits, Hxy. }
  clear Hconv. induction Hall as [| o t Ho _ IH]; cbn [flat_map].
  - constructor.
  - apply Forall_app. split; [| exact IH].
    destruct o as [m |]; cbn [Engine.appended]; [| constructor].
    destruct (is_nil m); constructor; [apply Ho; reflexivity | constructor].
Qed.

(** Rules for [yields] *)
Lemma yields_ret {A} (Q : A -> Prop) (a : A) : Q a -> yields Q (Engine.mret a).
Proof. intros H s a' s' E. injection E as <- _. exact H. Qed.

Lemma yields_lift {A} (Q : A -> Prop) (r : result A) :
  (forall a, r = Ok a -> Q a) -> yields Q (Engine.lift r).
Proof. intros H s a s' E. injection E as -> _. apply H. reflexivity. Qed.

Lemma yields_bind {A B} (Q1 : A -> Prop) (Q2 : B -> Prop)
    (m : Engine.M A) (k : A -> Engine.M B) :
  yields Q1 m -> (forall a, Q1 a -> yields Q2 (k a)) ->
  yields Q2 (Engine.mbind m k).
Proof.
  intros Hm Hk s b s' E. unfold Engine.mbind in E.
  destruct (m s) as [[a | e] s1] eqn:Em; [| discriminate E].
  eapply Hk; [eapply Hm, Em | exact E].
Qed.

Lemma yields_any {A} (m : Engine.M A) : yields (fun _ => True) m.
Proof. intros s a s' _. exact I. Qed.

Lemma yields_mfilter {A} (Q : A -> Prop) (f : A -> Engine.M bool)
    (xs : list A) :
  Forall Q xs -> yields (Forall Q) (Engine.mfilter f xs).
Proof.
  induction 1 as [| x t Hx Ht IH]; cbn [Engine.mfilter].
  - apply yields_ret. constructor.
  - eapply yields_bind; [apply yields_any |]. intros b _.
    eapply yields_bind; [exact IH |]. intros ys Hys.
    apply yields_ret. destruct b; [constructor |]; assumption.
Qed.

Lemma yields_mconcat_map {A B} (Q : B -> Prop)
    (f : A -> Engine.M (list B)) (xs : list A) :
  (forall x, In x xs -> yields (Forall Q) (f x)) ->
  yields (Forall Q) (Engine.mconcat_map f xs).
Proof.
  induction xs as [| x t IH]; intro Hf; cbn [Engine.mconcat_map].
  - apply yields_ret. constructor.
  - eapply yields_bind; [apply Hf; left; reflexivity |]. intros ys Hys.
    eapply yields_bind; [apply IH; intros y Hy; apply Hf; right; exact Hy |].
    intros zs Hzs. apply yields_ret. apply Forall_app. split; assumption.
Qed.

Lemma extract_yields_fits (py_repr : pyval -> string)
    (raw_models : list pyval) :
  yields (Forall size_fits) (Engine._extract_gguf_models py_repr raw_models).
Proof.
  apply yields_mconcat_map. intros raw _ s models s' E.
  unfold Engine.extract_one, Engine.m_try, Engine.lift in E.
  destruct (Engine.gguf_entries py_repr raw) as [ms | e] eqn:Eg.
  - injection E as <- _. eapply extracted_sizes_fit, Eg.
  - assert (Hnil : yields (fun l : list dict => l = [])
              (Engine.mbind
                 (Engine.lift (py_get raw "id" (PStr "unknown")))
                 (fun id =>
                    Engine.mbind
                      (Engine.append_error
                         ("Error processing raw model "
                          ++ Engine.py_str py_repr id ++ ": " ++ exn_msg e))
                      (fun _ => Engine.mret [])))).
    { eapply yields_bind; [apply yields_any |]. intros id _.
      eapply yields_bind; [apply yields_any |]. intros u _.
      apply yields_ret. reflexivity. }
    rewrite (Hnil _ _ _ E). constructor.
Qed.

Lemma group_append_fits (groups : list (string * list dict)) (k : string)
    (model : dict) :
  Forall (fun g => Forall size_fits (snd g)) groups ->
  size_fits model ->
  Forall (fun g => Forall size_fits (snd g))
         (Engine.group_append groups k model).
Proof.
  intros Hg Hm. induction Hg as [| [k' ms] t Hk Ht IH];
    cbn [Engine.group_append].
  - repeat constructor. exact Hm.
  - destruct (String.eqb k k').
    + constructor; [| exact Ht]. cbn [snd] in *.
      apply Forall_app. split; [exact Hk | repeat constructor; exact Hm].
    + constructor; assumption.
Qed.

Lemma group_loop_fits (c : FilterConfig) (models : list dict) :
  Forall size_fits models ->
  forall groups0 groups,
    Forall (fun g => Forall size_fits (snd g)) groups0 ->
    Engine.group_loop c models groups0 = Ok groups ->
    Forall (fun g => Forall size_fits (snd g)) groups.
Proof.
  induction 1 as [| m t Hm Ht IH]; intros groups0 groups H0 H;
    cbn [Engine.group_loop] in H.
  - injection H as <-. exact H0.
  - apply rbind_ok in H. destruct H as (key & _ & H).
    eapply IH; [| exact H]. apply group_append_fits; assumption.
Qed.

Lemma split_group_fits (models : list dict) :
  Forall size_fits models ->
  forall parts, Engine.split_group models = Ok parts ->
                Forall size_fits (fst parts) /\ Forall size_fits (snd parts).
Proof.
  induction 1 as [| m t Hm Ht IH]; intros parts H;
    cbn [Engine.split_group] in H.
  - injection H as <-. split; constructor.
  - apply rbind_ok in H. destruct H as (b & _ & H).
    apply rbind_ok in H. destruct H as (r & Hr & H).
    injection H as <-. destruct (IH _ Hr) as [Hb Hv].
    destruct b; cbn [fst snd]; split;
      try assumption; constructor; assumption.
Qed.

Lemma max_loop_fits (items : list dict) :
  Forall size_fits items ->
  forall best r, size_fits best -> Engine.max_loop best items = Ok r ->
                 size_fits r.
Proof.
  induction 1 as [| x t Hx Ht IH]; intros best r Hbest H;
    cbn [Engine.max_loop] in H.
  - injection H as <-. exact Hbest.
  - apply rbind_ok in H. destruct H as (bigger & _ & H).
    eapply IH; [| exact H]. destruct bigger; assumption.
Qed.

Lemma insert_desc_fits (x : dict) (sorted : list dict) :
  size_fits x -> Forall size_fits sorted ->
  forall r, Selector.insert_desc x sorted = Ok r -> Forall size_fits r.
Proof.
  intros Hx Hs. induction Hs as [| y t Hy Ht IH]; intros r H;
    cbn [Selector.insert_desc] in H.
  - injection H as <-. repeat constructor. exact Hx.
  - apply rbind_ok in H. destruct H as (smaller & _ & H).
    destruct smaller.
    + apply rbind_ok in H. destruct H as (r' & Hr' & H).
      injection H as <-. constructor; [exact Hy | apply IH, Hr'].
    + injection H as <-. repeat (constructor; try assumption).
Qed.

Lemma sort_desc_fits (xs : list dict) :
  Forall size_fits xs ->
  forall r, Selector.sort_desc xs = Ok r -> Forall size_fits r.
Proof.
  induction 1 as [| x t Hx Ht IH]; intros r H; cbn [Selector.sort_desc] in H.
  - injection H as <-. constructor.
  - apply rbind_ok in H. destruct H as (s & Hs & H).
    eapply insert_desc_fits; [exact Hx | apply IH, Hs | exact H].
Qed.

Lemma selection_fits (c : FilterConfig) (variants selected : list dict) :
  Forall size_fits variants ->
  Selector.select_variants_for_group c None variants = Ok selected ->
  Forall size_fits selected.
Proof.
  intros Hv H. unfold Selector.select_variants_for_group in H.
  destruct (is_nil variants); [injection H as <-; constructor |].
  apply rbind_ok in H. destruct H as (valid & Hvalid & H).
  destruct (is_nil valid); [injection H as <-; constructor |].
  apply rbind_ok in H. destruct H as (sorted & Hsorted & H).
  apply rbind_ok in H. destruct H as (filtered & Hfiltered & H).
  injection H as <-. cbn [app].
  destruct (filter_loop_trace c sorted [] filtered Hfiltered)
    as (added & -> & Hsub & _).
  cbn [app]. eapply Subseq_Forall; [exact Hsub |].
  eapply sort_desc_fits; [| exact Hsorted].
  eapply rfilter_Forall; [exact Hv | exact Hvalid].
Qed.

Lemma filter_group_fits (c : FilterConfig) (group : string * list dict) :
  Forall size_fits (snd group) ->
  yields (Forall size_fits) (Engine.filter_group c group).
Proof.
  destruct group as [name models]. cbn [snd]. intro Hm.
  unfold Engine.filter_group.
  eapply yields_bind.
  { apply yields_lift. intros parts Hp. exact (split_group_fits _ Hm _ Hp). }
  intros [bases variants] [Hb Hv]. cbn [fst snd] in Hb, Hv.
  eapply yields_bind with
    (Q1 := fun o : option dict => Forall size_fits (Engine.present o)).
  { unfold Engine.best_base_model.
    destruct Hb as [| first rest Hfirst Hrest].
    - apply yields_ret. constructor.
    - eapply yields_bind.
      + apply yields_lift. intros r Hr.
        exact (max_loop_fits _ Hrest _ _ Hfirst Hr).
      + intros r Hr. eapply yields_bind; [apply yields_any |]. intros _ _.
        apply yields_ret. cbn [Engine.present].
        destruct (is_nil r); repeat constructor. exact Hr. }
  intros base Hbase.
  eapply yields_bind with (Q1 := Forall size_fits).
  { unfold Engine.select_in_group.
    destruct (is_nil variants); [apply yields_ret; constructor |].
    eapply yields_bind.
    - apply yields_lift. intros sel Hsel.
      exact (selection_fits c _ _ Hv Hsel).
    - intros sel Hsel.
      eapply yields_bind; [apply yields_any |]. intros _ _.
      eapply yields_bind; [apply yields_any |]. intros _ _.
      eapply yields_bind; [apply yields_any |]. intros _ _.
      apply yields_ret. exact Hsel. }
  intros sel Hsel.
  eapply yields_bind; [apply yields_any |]. intros _ _.
  apply yields_ret. apply Forall_app. split; assumption.
Qed.

Lemma add_requirements_profile (py_repr : pyval -> string)
    (c : FilterConfig) (model : dict) :
  size_fits model ->
  has_hardware_profile (Engine.add_requirements py_repr c model) = true.
Proof.
  intro H. unfold Engine.add_requirements.
  destruct (calculate_requirements_total py_repr c model H)
    as (m' & -> & Hp).
  exact Hp.
Qed.

(** Every entry the pipeline returns carries the four fields: a size
    that would overflow the division never reaches step 6, because
    [_format_file_size] raises on it and the file is skipped. *)
Lemma pipeline_output_has_profile
    (py_repr : pyval -> string) (c : FilterConfig) (t0 t1 : spec_float)
    (raw : list pyval) :
  Forall (fun model => has_hardware_profile model = true)
         (Engine.filtered_models (Engine.filter_models py_repr c t0 t1 raw)).
Proof.
  destruct (run_cases py_repr c t0 t1 raw)
    as [(gguf & enhanced & report & errs & Hst & -> & _)
       | (e & report & errs & _ & -> & _)]; [| constructor].
  assert (Hy : yields
                 (fun r : list dict * list dict =>
                    Forall (fun model => has_hardware_profile model = true)
                           (snd r))
                 (Engine.stages py_repr c raw)).
  { unfold Engine.stages.
    eapply yields_bind; [apply extract_yields_fits |]. intros g Hg.
    eapply yields_bind; [apply yields_any |]. intros _ _.
    eapply yields_bind; [apply yields_mfilter, Hg |]. intros f Hf.
    eapply yields_bind; [apply yields_mfilter, Hf |]. intros b Hb.
    eapply yields_bind with
      (Q1 := Forall (fun g => Forall size_fits (snd g))).
    { apply yields_lift. intros groups Hgr.
      eapply group_loop_fits; [exact Hb | constructor | exact Hgr]. }
    intros groups Hgroups.
    eapply yields_bind with (Q1 := Forall size_fits).
    { apply yields_mconcat_map. intros grp Hin.
      apply filter_group_fits.
      rewrite Forall_forall in Hgroups. apply Hgroups, Hin. }
    intros final Hfinal. apply yields_ret. cbn [snd].
    unfold Engine._add_hardware_requirements.
    induction Hfinal as [| m t Hm _ IH]; cbn [map]; constructor;
      [apply add_requirements_profile, Hm | exact IH]. }
  exact (Hy _ _ _ Hst).
Qed.

(** C3 fails on the code: on an entry whose [fileSize] is the int
    [2^1100] the body of [calculate_requirements] raises, the fallback
    divides the size by [2^30] again and the [OverflowError] of that
    division is not among the exceptions it catches; the error leaves
    [calculate_requirements], and the engine then keeps the entry as it
    was, without the four fields. *)
Theorem huge_size_escapes_fallback
    (py_repr : pyval -> string) (c : FilterConfig) :
  Hardware.calculate_requirements py_repr c huge_entry
  = Raise exn_div_too_large
  /\ Engine._add_hardware_requirements py_repr c [huge_entry] = [huge_entry]
  /\ has_hardware_profile huge_entry = false.
Proof.
  assert (H : Hardware.calculate_requirements py_repr c huge_entry
              = Raise exn_div_too_large) by (vm_compute; reflexivity).
  split; [exact H |]. split; [| reflexivity].
  unfold Engine._add_hardware_requirements, Engine.add_requirements.
  cbn [map]. rewrite H. reflexivity.
Qed.

(** * Further properties of the code *)

(** ** config.py and the command line *)

Lemma check_nil (cond : bool) (msg : string) (errors : list string) :
  check cond msg errors = [] <-> cond = false /\ errors = [].
Proof.
  unfold check. destruct cond.
  - split; [| intros [H _]; discriminate H].
    intro H. destruct errors; discriminate H.
  - split; [intro H; split; [reflexivity | exact H] | intros [_ H]; exact H].
Qed.

(** [validate] returns no message exactly when every constraint of the
    source holds: positive size floor, threshold strictly between 0 and 1,
    non-negative download floor, non-empty lists, positive multiplier,
    reduction between 0 and 1, positive and strictly ascending parameter
    thresholds, positive GPU threshold. *)
Theorem validate_accepts_iff (c : FilterConfig) :
  validate c = []
  <-> (0 < min_size_bytes c
       /\ flt f_zero (size_drop_threshold c) = true
       /\ flt (size_drop_threshold c) f_one = true
       /\ 0 <= min_downloads c
       /\ trusted_uploaders c <> []
       /\ finetune_patterns c <> []
       /\ fle (ram_multiplier c) f_zero = false
       /\ fle f_zero (quantization_ram_reduction c) = true
       /\ fle (quantization_ram_reduction c) f_one = true
       /\ 0 < small_model_threshold c
       /\ small_model_threshold c < medium_model_threshold c
       /\ medium_model_threshold c < large_model_threshold c
       /\ 0 < gpu_required_threshold c
       /\ default_os_support c <> []).
Proof.
  unfold validate. cbv zeta. rewrite !check_nil.
  rewrite !Z.leb_gt, Z.ltb_ge, !negb_false_iff, !andb_true_iff.
  assert (Hnil : forall (A : Type) (l : list A), is_nil l = false <-> l <> []).
  { intros A l. destruct l; cbn; split; intro H; try reflexivity;
      try discriminate; try (intro E; discriminate E).
    exfalso. apply H. reflexivity. }
  rewrite !Hnil. intuition.
Qed.

(** [main] goes on to build the pipeline with a configuration exactly
    when the filter is enabled and the three values taken from the command
    line are in range; every other field keeps a valid default. *)
Theorem cli_proceeds_iff (a : Fetcher.Args) :
  Fetcher.main_gate a = Fetcher.Proceed (Some (Fetcher.config_of_args a))
  <-> (Fetcher.disable_spam_filter a = false
       /\ 0 < Fetcher.min_size a
       /\ flt f_zero (Fetcher.size_threshold a) = true
       /\ flt (Fetcher.size_threshold a) f_one = true
       /\ 0 <= Fetcher.arg_min_downloads a).
Proof.
  assert (Hvalid : forall c : FilterConfig,
             validate c = []
             <-> (0 < min_size_bytes c
             /\ flt f_zero (size_drop_threshold c) = true
             /\ flt (size_drop_threshold c) f_one = true
             /\ 0 <= min_downloads c
             /\ trusted_uploaders c <> []
             /\ finetune_patterns c <> []
             /\ fle (ram_multiplier c) f_zero = false
             /\ fle f_zero (quantization_ram_reduction c) = true
             /\ fle (quantization_ram_reduction c) f_one = true
             /\ 0 < small_model_threshold c
             /\ small_model_threshold c < medium_model_threshold c
             /\ medium_model_threshold c < large_model_threshold c
             /\ 0 < gpu_required_threshold c
             /\ default_os_support c <> [])).
  { intro c. unfold validate. cbv zeta. rewrite !check_nil.
    rewrite !Z.leb_gt, Z.ltb_ge, !negb_false_iff, !andb_true_iff.
    assert (Hnil : forall (A : Type) (l : list A), is_nil l = false <-> l <> []).
    { intros A l. destruct l; cbn; split; intro H; try reflexivity;
        try discriminate; try (intro E; discriminate E).
      exfalso. apply H. reflexivity. }
    rewrite !Hnil. intuition. }
  unfold Fetcher.main_gate.
  destruct (Fetcher.disable_spam_filter a).
  - split; [intro H; discriminate H | intros [H _]; discriminate H].
  - destruct (validate (Fetcher.config_of_args a)) as [| msg rest] eqn:E.
    + cbn [is_nil negb]. apply Hvalid in E.
      cbn [Fetcher.config_of_args min_size_bytes size_drop_threshold
             min_downloads] in E.
      destruct E as (H1 & H2 & H3 & H4 & _).
      split; [intros _ | reflexivity].
      repeat split; try assumption.
      destruct (Z.lt_ge_cases 0 (Fetcher.min_size a)) as [L | G];
        [exact L | exfalso].
      apply (Z.lt_irrefl 0). eapply Z.lt_le_trans; [exact H1 |].
      rewrite <- Z.mul_assoc.
      apply Z.mul_nonpos_nonneg; [exact G | vm_compute; discriminate].
    + cbn [is_nil negb]. split; [intro H; discriminate H |].
      intros (_ & H1 & H2 & H3 & H4). exfalso.
      assert (Hv : validate (Fetcher.config_of_args a) = []).
      { apply Hvalid.
        cbn [Fetcher.config_of_args min_size_bytes size_drop_threshold
               min_downloads trusted_uploaders finetune_patterns
               ram_multiplier quantization_ram_reduction
               small_model_threshold medium_model_threshold
               large_model_threshold gpu_required_threshold
               default_os_support].
        repeat split; try assumption; try (vm_compute; reflexivity);
          try (vm_compute; discriminate).
        rewrite <- Z.mul_assoc.
        apply Z.mul_pos_pos; [exact H1 | vm_compute; reflexivity]. }
      rewrite Hv in E. discriminate E.
Qed.

(** ** classifier.py *)

(** [is_base_model] is the negation of [is_finetuned], and raises
    exactly when [is_finetuned] does: the base patterns and the base
    indicators never change its answer. *)
Theorem base_is_not_finetuned (c : FilterConfig) (model : dict) :
  Classifier.is_base_model c model
  = (ft <- Classifier.is_finetuned c model ;; Ok (negb ft)).
Proof.
  unfold Classifier.is_base_model.
  destruct (Classifier.is_finetuned c model) as [ft | e] eqn:E;
    cbn [rbind]; [| reflexivity].
  destruct ft; [reflexivity |].
  unfold Classifier.is_finetuned in E.
  destruct (get_or_empty_lower model "modelName") as [name | e];
    [| discriminate E].
  destruct (get_or_empty_lower model "huggingFaceLink") as [id | e];
    [| discriminate E].
  cbn [rbind negb].
  destruct (Classifier.any_pattern Classifier.base_patterns name id);
    [reflexivity |].
  destruct (Classifier.any_indicator Classifier.base_indicators name id);
    reflexivity.
Qed.

(** Whenever the name of an entry can be read, [get_base_model_group]
    returns a key, and the key is empty only when the lowercased name is:
    a name that the clean-up empties is used as it is. *)
Theorem group_key_not_empty
    (c : FilterConfig) (model : dict) (name : string) :
  get_or_empty_lower model "modelName" = Ok name ->
  exists key,
    Classifier.get_base_model_group c model = Ok key
    /\ (key = "" -> name = "").
Proof.
  intro H. unfold Classifier.get_base_model_group. rewrite H. cbn [rbind].
  eexists. split; [reflexivity |].
  match goal with
  | |- (if String.eqb ?g "" then _ else _) = _ -> _ =>
      destruct (String.eqb_spec g "") as [E | E]
  end.
  - intro Hk. exact Hk.
  - intro Hk. contradiction.
Qed.

Lemma group_key_witness :
  exists key,
    Classifier.get_base_model_group default_config unlabelled_entry = Ok key
    /\ (key = "" -> "zephyrus" = "").
Proof.
  apply (group_key_not_empty default_config unlabelled_entry "zephyrus").
  vm_compute. reflexivity.
Defined.

(** ** hardware_calculator.py *)

Lemma dict_find_set_same (d : dict) (k : string) (v : pyval) :
  dict_find (dict_set d k v) k = Some v.
Proof.
  induction d as [| [k0 v0] t IH]; cbn.
  - rewrite String.eqb_refl. reflexivity.
  - destruct (String.eqb k k0) eqn:E; cbn; rewrite E; [reflexivity | exact IH].
Qed.

Lemma dict_find_set_other (d : dict) (k k' : string) (v : pyval) :
  k' <> k -> dict_find (dict_set d k v) k' = dict_find d k'.
Proof.
  intro Hne. apply String.eqb_neq in Hne.
  induction d as [| [k0 v0] t IH]; cbn.
  - rewrite Hne. reflexivity.
  - destruct (String.eqb k k0) eqn:E; cbn.
    + apply String.eqb_eq in E. subst k0. rewrite Hne. reflexivity.
    + destruct (String.eqb k' k0); [reflexivity | exact IH].
Qed.

(** The four assignments, read back. *)
Lemma profile_read_back (d : dict) (ram cpu gpu os : pyval) :
  let m := dict_set (dict_set (dict_set (dict_set d "minRamGB" ram)
                                 "minCpuCores" cpu) "gpuRequired" gpu)
             "osSupported" os in
  dict_find m "minRamGB" = Some ram
  /\ dict_find m "minCpuCores" = Some cpu
  /\ dict_find m "gpuRequired" = Some gpu
  /\ dict_find m "osSupported" = Some os
  /\ forall k, ~ In k hardware_fields -> dict_find m k = dict_find d k.
Proof.
  cbv zeta. repeat split.
  - rewrite !dict_find_set_other by discriminate. apply dict_find_set_same.
  - rewrite !dict_find_set_other by discriminate. apply dict_find_set_same.
  - rewrite !dict_find_set_other by discriminate. apply dict_find_set_same.
  - apply dict_find_set_same.
  - intros k Hk. unfold hardware_fields in Hk. cbn [In] in Hk.
    rewrite !dict_find_set_other; [reflexivity | | | |];
      intro E; apply Hk; subst k; auto 6.
Qed.

Lemma default_ram_in (x : num) : In (Hardware.default_ram x) [8; 16; 32; 64].
Proof.
  unfold Hardware.default_ram.
  repeat match goal with
         | |- context [if ?b then _ else _] => destruct b
         end; cbn; auto 6.
Qed.

Lemma body_annotates
    (py_repr : pyval -> string) (c : FilterConfig) (model m' : dict) :
  Hardware.requirements_body py_repr c model = Ok m' ->
  annotated c model m'.
Proof.
  unfold Hardware.requirements_body. intro H.
  apply rbind_ok in H. destruct H as (size & _ & H).
  apply rbind_ok in H. destruct H as (params & _ & H).
  apply rbind_ok in H. destruct H as (z1 & _ & H).
  apply rbind_ok in H. destruct H as (ram & Hram & H).
  apply rbind_ok in H. destruct H as (z2 & _ & H).
  apply rbind_ok in H. destruct H as (cpu & Hcpu & H).
  apply rbind_ok in H. destruct H as (z3 & _ & H).
  apply rbind_ok in H. destruct H as (gpu & _ & H).
  injection H as <-.
  pose proof (profile_read_back model (PInt ram) (PInt cpu) (PBool gpu)
                (Hardware.get_os_support c model)) as P.
  cbv zeta in P. destruct P as (P1 & P2 & P3 & P4 & P5).
  unfold annotated. repeat split.
  - exists ram. split; [exact P1 | eapply ram_result_in_buckets, Hram].
  - exists cpu. split; [exact P2 | eapply cpu_result_in_buckets, Hcpu].
  - exists gpu. exact P3.
  - exact P4.
  - exact P5.
Qed.

Lemma fallback_is_conservative (c : FilterConfig) (model m' : dict) :
  Hardware._apply_default_requirements c model = Ok m' ->
  conservative c model m'.
Proof.
  unfold Hardware._apply_default_requirements. intro H.
  apply rbind_ok in H. destruct H as (gb & _ & H). injection H as <-.
  pose proof (profile_read_back model
                (PInt (Hardware.default_ram (Hardware.times_three gb)))
                (PInt 8) (PBool true) (os_list c)) as P.
  cbv zeta in P. destruct P as (P1 & P2 & P3 & P4 & P5).
  unfold conservative. repeat split; try assumption.
  eexists. split; [exact P1 | apply default_ram_in].
Qed.

Lemma conservative_annotated (c : FilterConfig) (model m' : dict) :
  conservative c model m' -> annotated c model m'.
Proof.
  intros ((ram & Hram & Hin) & Hcpu & Hgpu & Hos & Hrest).
  unfold annotated. repeat split; try assumption.
  - exists ram. split; [exact Hram |].
    unfold ram_buckets. cbn [In] in *. intuition.
  - exists 8. split; [exact Hcpu |]. unfold cpu_buckets. cbn. auto.
  - exists true. exact Hgpu.
Qed.

(** On every entry whose size is not an int beyond the float range,
    [calculate_requirements] returns the entry with a RAM size among 8,
    16, 32, 64, 128, a core count among 4, 6, 8, 12, 16, a boolean GPU
    flag and the configured OS list, and with every other field as it
    was. *)
Theorem requirements_annotate
    (py_repr : pyval -> string) (c : FilterConfig) (model : dict) :
  size_fits model ->
  exists m',
    Hardware.calculate_requirements py_repr c model = Ok m'
    /\ annotated c model m'.
Proof.
  intro Hfit.
  destruct (calculate_requirements_total py_repr c model Hfit)
    as (m' & Hm & _).
  exists m'. split; [exact Hm |].
  unfold Hardware.calculate_requirements, try_except in Hm.
  destruct (Hardware.requirements_body py_repr c model) as [m | e] eqn:E.
  - injection Hm as <-. eapply body_annotates, E.
  - cbn [any_exception] in Hm.
    apply conservative_annotated, fallback_is_conservative, Hm.
Qed.

Lemma requirements_annotate_witness :
  exists m',
    Hardware.calculate_requirements sample_repr default_config entry_q4
    = Ok m'
    /\ annotated default_config entry_q4 m'.
Proof.
  apply (requirements_annotate sample_repr default_config entry_q4).
  intros z Hz. vm_compute in Hz. injection Hz as <-.
  vm_compute. reflexivity.
Defined.

(** When the size of an entry is not a number, or is negative, the
    result is the conservative profile: 8 cores, GPU required, a RAM size
    among 8, 16, 32, 64, whatever the name and the format say. *)
Theorem invalid_size_gets_defaults
    (py_repr : pyval -> string) (c : FilterConfig) (model : dict) :
  Hardware.checked_file_size (Selector.file_size model)
  = Raise (mk_exn ValueError "Invalid file_size") ->
  exists m',
    Hardware.calculate_requirements py_repr c model = Ok m'
    /\ conservative c model m'
    /\ dict_find m' "minRamGB" = Some (PInt 8).
Proof.
  intro Hbad.
  assert (Hbody : Hardware.requirements_body py_repr c model
                  = Raise (mk_exn ValueError "Invalid file_size")).
  { unfold Hardware.requirements_body.
    fold (Selector.file_size model). rewrite Hbad. reflexivity. }
  unfold Hardware.calculate_requirements, try_except. rewrite Hbody.
  cbn [any_exception].
  assert (Hgb : Hardware.default_file_size_gb (Selector.file_size model)
                = Ok (NInt 1)).
  { unfold Hardware.checked_file_size in Hbad.
    unfold Hardware.default_file_size_gb, is_int_or_float, py_gt, py_order.
    destruct (Selector.file_size model) as [| b | z | f | s | l | d];
      try reflexivity.
    - destruct b; discriminate Hbad.
    - cbn [as_num num_cmp ord_holds] in *.
      destruct (z ?= 0); try discriminate Hbad; reflexivity.
    - cbn [as_num] in *.
      destruct (num_cmp (NFloat f) (NInt 0)) as [[| |] |];
        try discriminate Hbad; reflexivity. }
  assert (Hm : Hardware._apply_default_requirements c model
               = Ok (dict_set (dict_set (dict_set (dict_set model
                       "minRamGB" (PInt 8)) "minCpuCores" (PInt 8))
                       "gpuRequired" (PBool true))
                       "osSupported" (os_list c))).
  { unfold Hardware._apply_default_requirements.
    fold (Selector.file_size model). rewrite Hgb. reflexivity. }
  eexists. split; [exact Hm |]. split.
  - apply fallback_is_conservative, Hm.
  - rewrite !dict_find_set_other by discriminate. apply dict_find_set_same.
Qed.

Lemma invalid_size_witness :
  exists m',
    Hardware.calculate_requirements sample_repr default_config
      [("modelName", PStr "Llama 2 70B"); ("fileSize", PStr "40 GB")] = Ok m'
    /\ conservative default_config
         [("modelName", PStr "Llama 2 70B"); ("fileSize", PStr "40 GB")] m'
    /\ dict_find m' "minRamGB" = Some (PInt 8).
Proof.
  apply (invalid_size_gets_defaults sample_repr default_config).
  reflexivity.
Defined.

(** With a parameter estimate, [calculate_cpu_requirements] always
    returns, and a larger estimate never gives fewer cores, whatever the
    thresholds of the configuration and the file size. *)
Theorem cpu_cores_monotone
    (c : FilterConfig) (p q file_size file_size' : Z) :
  p <= q ->
  exists a b,
    Hardware.calculate_cpu_requirements c (Some p) file_size = Ok a
    /\ Hardware.calculate_cpu_requirements c (Some q) file_size' = Ok b
    /\ a <= b.
Proof.
  intro Hpq. unfold Hardware.calculate_cpu_requirements.
  repeat match goal with
         | |- context [?x <=? ?y] => destruct (Z.leb_spec x y)
         end;
    do 2 eexists; (split; [reflexivity | split; [reflexivity |]]);
    try (vm_compute; discriminate);
    exfalso;
    repeat match goal with
           | H : ?x < ?y |- _ => apply Z.lt_nge in H
           end;
    match goal with
    | H : ~ (p <= ?t), L : q <= ?t |- _ =>
        apply H; eapply Z.le_trans; [exact Hpq | exact L]
    end.
Qed.

Lemma cpu_cores_monotone_witness :
  exists a b,
    Hardware.calculate_cpu_requirements default_config (Some 7000000000) 0
    = Ok a
    /\ Hardware.calculate_cpu_requirements default_config
         (Some 13000000000) 0 = Ok b
    /\ a <= b.
Proof.
  apply (cpu_cores_monotone default_config 7000000000 13000000000 0 0).
  vm_compute. discriminate.
Defined.

(** [determine_gpu_requirement] answers that no GPU is needed only for
    an efficient format, with an estimate (if any) under the GPU threshold
    and a size of at most 4 GiB; in particular it never does for a format
    that is not efficient. *)
Theorem cpu_only_needs_efficient_format
    (c : FilterConfig) (estimated_params : option Z) (file_size : Z)
    (quant_format : string) :
  Hardware.determine_gpu_requirement c estimated_params file_size quant_format
  = Ok false ->
  Hardware._is_efficient_quantization quant_format = true
  /\ Hardware.params_reach estimated_params (gpu_required_threshold c) = false
  /\ exists gb, int_truediv file_size gib = Ok gb
                /\ float_le_int gb 4 = true
                /\ float_ge_int gb 8 = false.
Proof.
  unfold Hardware.determine_gpu_requirement. intro H.
  destruct (Hardware.params_reach estimated_params (gpu_required_threshold c));
    [discriminate H |].
  apply rbind_ok in H. destruct H as (gb & Hgb & H).
  destruct (float_ge_int gb 8) eqn:E8; [discriminate H |].
  destruct (Hardware._is_efficient_quantization quant_format);
    [| discriminate H].
  destruct (float_le_int gb 4) eqn:E4; [| discriminate H].
  split; [reflexivity |]. split; [reflexivity |].
  exists gb. split; [exact Hgb |]. split; [exact E4 | exact E8].
Qed.

Lemma cpu_only_witness :
  Hardware._is_efficient_quantization "Q4_K_M" = true
  /\ Hardware.params_reach (Some 7000000000)
       (gpu_required_threshold default_config) = false
  /\ exists gb, int_truediv 4200000000 gib = Ok gb
                /\ float_le_int gb 4 = true
                /\ float_ge_int gb 8 = false.
Proof.
  apply (cpu_only_needs_efficient_format default_config (Some 7000000000)
           4200000000 "Q4_K_M").
  vm_compute. reflexivity.
Defined.

(** For every file size under [first_overflowing_size] bytes both
    ladders return, and what they return is a value of the ladder. *)
Theorem ladders_return_in_range
    (c : FilterConfig) (estimated_params : option Z) (file_size : Z)
    (quant_format : string) :
  Z.abs file_size < first_overflowing_size ->
  (exists ram,
      Hardware.calculate_ram_requirements c file_size quant_format = Ok ram
      /\ In ram ram_buckets)
  /\ (exists cpu,
         Hardware.calculate_cpu_requirements c estimated_params file_size
         = Ok cpu
         /\ In cpu cpu_buckets).
Proof.
  intro H. split.
  - apply ram_returns_in_range.
    eapply Z.le_lt_trans; [| exact H]. lia.
  - apply cpu_returns_in_range, H.
Qed.

Lemma ladders_return_witness :
  (exists ram,
      Hardware.calculate_ram_requirements default_config 4200000000 "Q4_K_M"
      = Ok ram
      /\ In ram ram_buckets)
  /\ (exists cpu,
         Hardware.calculate_cpu_requirements default_config None 4200000000
         = Ok cpu
         /\ In cpu cpu_buckets).
Proof.
  apply (ladders_return_in_range default_config None 4200000000 "Q4_K_M").
  vm_compute. reflexivity.
Defined.

(** ** engine.py: the helpers of the extraction *)

(** The format tag read from a file name is Unknown, which belongs to
    no quantization family of the selector, or one of the twenty tags of
    the table, and each of those belongs to a family: the family rule of
    the selector knows every tag the engine can produce. *)
Theorem extracted_format_has_family (filename : string) :
  let q := Engine._extract_quantization_format filename in
  (q = "Unknown" /\ Selector.family_of (upper q) = None)
  \/ (In q (map snd Engine.quant_patterns)
      /\ exists family, Selector.family_of (upper q) = Some family).
Proof.
  cbv zeta. unfold Engine._extract_quantization_format.
  destruct (find (fun p => contains (fst p) (lower filename))
                 Engine.quant_patterns) as [p |] eqn:E.
  - right. apply find_some in E. destruct E as [Hin _].
    split; [apply in_map, Hin |].
    unfold Engine.quant_patterns in Hin. cbn [In] in Hin.
    repeat (destruct Hin as [<- | Hin];
            [eexists; vm_compute; reflexivity |]).
    contradiction.
  - left. split; [reflexivity | vm_compute; reflexivity].
Qed.

Lemma int_truediv_returns (z d : Z) :
  0 < d -> Z.abs z < overflow_threshold * d ->
  int_truediv z d = Ok (float_of_ratio z d).
Proof.
  intros Hd Hz. unfold int_truediv.
  destruct (Z.eqb_spec d 0) as [-> | _];
    [exfalso; exact (Z.lt_irrefl 0 Hd) |].
  rewrite (Z.abs_eq d) by (apply Z.lt_le_incl, Hd).
  destruct (Z.leb_spec (overflow_threshold * d) (Z.abs z)) as [L | _];
    [| reflexivity].
  exfalso. apply (Z.lt_irrefl (Z.abs z)).
  eapply Z.lt_le_trans; eassumption.
Qed.

Lemma py_lt_int (z n : Z) : py_lt (PInt z) (PInt n) = Ok (z <? n).
Proof.
  unfold py_lt, py_order. cbn [as_num num_cmp]. unfold Z.ltb.
  destruct (z ?= n); reflexivity.
Qed.

(** [_format_file_size] returns a text exactly for a number that is
    not an int of [first_overflowing_size] or more: a size that is absent
    as a number (None, text, a list) or that large makes it raise, and the
    file is then skipped by the conversion. *)
Theorem format_file_size_returns_iff (py_repr : pyval -> string) (v : pyval) :
  (exists text, Engine._format_file_size py_repr v = Ok text)
  <-> match as_num v with
      | Some (NInt z) => z < first_overflowing_size
      | Some (NFloat _) => True
      | None => False
      end.
Proof.
  assert (Hint : forall z, z < first_overflowing_size ->
                           exists text,
                             Engine._format_file_size py_repr (PInt z)
                             = Ok text).
  { intros z Hz. unfold Engine._format_file_size.
    rewrite !py_lt_int. cbn [rbind].
    assert (Ht : 1024 * 1024 * 1024 <= overflow_threshold)
      by (vm_compute; discriminate).
    destruct (Z.ltb_spec z 1024) as [L1 | G1]; [eexists; reflexivity |].
    unfold py_truediv. cbn [as_num].
    destruct (Z.ltb_spec z (1024 * 1024)) as [L2 | G2].
    { rewrite int_truediv_returns; [eexists; reflexivity | reflexivity |].
      rewrite Z.abs_eq; lia. }
    destruct (Z.ltb_spec z (1024 * 1024 * 1024)) as [L3 | G3].
    { rewrite int_truediv_returns; [eexists; reflexivity | reflexivity |].
      rewrite Z.abs_eq; lia. }
    rewrite int_truediv_returns; [eexists; reflexivity | reflexivity |].
    rewrite Z.abs_eq by lia. exact Hz. }
  assert (Hraise : forall w, as_num w = None ->
                             forall text,
                               Engine._format_file_size py_repr w
                               <> Ok text).
  { intros w Hw text H. unfold Engine._format_file_size, py_lt in H.
    destruct w; try discriminate Hw;
      cbn [py_order as_num rbind] in H; discriminate H. }
  split.
  - intros [text H].
    destruct v as [| b | z | f | s | l | d]; cbn [as_num];
      try (refine (Hraise _ _ _ H); reflexivity); try exact I.
    + destruct b; vm_compute; reflexivity.
    + eapply formatted_size_fits, H.
  - destruct v as [| b | z | f | s | l | d]; cbn [as_num];
      try contradiction.
    + intros _. destruct b; eexists; vm_compute; reflexivity.
    + apply Hint.
    + intros _. unfold Engine._format_file_size, py_lt, py_truediv.
      cbn [py_order as_num rbind num_to_float].
      repeat match goal with
             | |- context [ord_holds OpLt ?x] => destruct (ord_holds OpLt x)
             end; cbn [rbind]; eexists; reflexivity.
Qed.

Lemma rfilter_rany {A} (f : A -> result bool) (xs ys : list A) :
  rfilter f xs = Ok ys -> rany f xs = Ok (negb (is_nil ys)).
Proof.
  revert ys. induction xs as [| x t IH]; intros ys H; cbn in *.
  - injection H as <-. reflexivity.
  - apply rbind_ok in H. destruct H as (b & Hb & H).
    apply rbind_ok in H. destruct H as (ys' & Hys & H).
    injection H as <-. rewrite Hb. cbn [rbind].
    destruct b; [reflexivity | apply IH, Hys].
Qed.

Lemma rany_false_rfilter {A} (f : A -> result bool) (xs : list A) :
  rany f xs = Ok false -> rfilter f xs = Ok [].
Proof.
  induction xs as [| x t IH]; intro H; cbn in *; [reflexivity |].
  apply rbind_ok in H. destruct H as (b & Hb & H).
  rewrite Hb. cbn [rbind]. destruct b; [discriminate H |].
  rewrite (IH H). reflexivity.
Qed.

(** [_has_gguf_files] and [_get_gguf_files] agree: when the list of
    files can be built, the test says whether it is non-empty; and when
    the test says no, the list is built and empty.  (The test can say yes
    and the list still raise: the test stops at the first GGUF file, the
    list reads every sibling.) *)
Theorem has_and_get_agree (raw_model : pyval) :
  (forall files, Engine._get_gguf_files raw_model = Ok files ->
                 Engine._has_gguf_files raw_model
                 = Ok (negb (is_nil files)))
  /\ (Engine._has_gguf_files raw_model = Ok false ->
      Engine._get_gguf_files raw_model = Ok []).
Proof.
  unfold Engine._has_gguf_files, Engine._get_gguf_files.
  destruct (py_get raw_model "siblings" (PList [])) as [sib | e];
    cbn [rbind]; [| split; [intros files H | intro H]; discriminate H].
  destruct (py_iter sib) as [l | e]; cbn [rbind];
    [| split; [intros files H | intro H]; discriminate H].
  split; [intros files H; apply rfilter_rany, H | apply rany_false_rfilter].
Qed.

(** ** engine.py: grouping *)

Lemma NoDup_snoc {A} (l : list A) (x : A) :
  NoDup l -> ~ In x l -> NoDup (l ++ [x]).
Proof.
  induction 1 as [| y l Hy Hl IH]; intro Hx; cbn.
  - constructor; [intros [] | constructor].
  - constructor.
    + rewrite in_app_iff. intros [H | [H | []]]; [exact (Hy H) |].
      apply Hx. left. symmetry. exact H.
    + apply IH. intro H. apply Hx. right. exact H.
Qed.

Lemma existsb_eqb_In (k : string) (l : list string) :
  existsb (String.eqb k) l = true <-> In k l.
Proof.
  rewrite existsb_exists. split.
  - intros (x & Hx & E). apply String.eqb_eq in E. subst x. exact Hx.
  - intro H. exists k. split; [exact H | apply String.eqb_refl].
Qed.

Lemma group_append_keys (groups : list (string * list dict)) (k : string)
    (model : dict) :
  map fst (Engine.group_append groups k model)
  = if existsb (String.eqb k) (map fst groups) then map fst groups
    else (map fst groups ++ [k])%list.
Proof.
  induction groups as [| [k0 ms0] t IH]; cbn; [reflexivity |].
  destruct (String.eqb k k0); cbn; [reflexivity |].
  rewrite IH. destruct (existsb (String.eqb k) (map fst t)); reflexivity.
Qed.

Lemma group_append_in (groups : list (string * list dict)) (k : string)
    (model : dict) (k' : string) (ms' : list dict) :
  NoDup (map fst groups) ->
  In (k', ms') (Engine.group_append groups k model) ->
  (k' <> k /\ In (k', ms') groups)
  \/ (k' = k
      /\ ((exists ms, In (k, ms) groups /\ ms' = (ms ++ [model])%list)
          \/ (~ In k (map fst groups) /\ ms' = [model]))).
Proof.
  induction groups as [| [k0 ms0] t IH]; cbn; intros Hnd Hin.
  - destruct Hin as [E | []]. inversion E; subst.
    right. split; [reflexivity |]. right. split; [intros [] | reflexivity].
  - inversion Hnd as [| ? ? Hk0 Ht]; subst.
    destruct (String.eqb k k0) eqn:E.
    + apply String.eqb_eq in E. subst k0.
      destruct Hin as [E | Hin].
      * inversion E; subst. right. split; [reflexivity |]. left.
        exists ms0. split; [left; reflexivity | reflexivity].
      * left. split; [| right; exact Hin].
        intros ->. apply Hk0.
        change k with (fst (k, ms')). apply in_map, Hin.
    + apply String.eqb_neq in E.
      destruct Hin as [E' | Hin].
      * inversion E'; subst. left.
        split; [intro H; apply E; symmetry; exact H | left; reflexivity].
      * destruct (IH Ht Hin) as [[Hne H] | [-> [(ms & H & ->) | [Hni ->]]]].
        -- left. split; [exact Hne | right; exact H].
        -- right. split; [reflexivity |]. left.
           exists ms. split; [right; exact H | reflexivity].
        -- right. split; [reflexivity |]. right.
           split; [| reflexivity].
           intros [H | H]; [apply E; symmetry; exact H | exact (Hni H)].
Qed.

Lemma members_snoc (k' k : string) (model : dict)
    (entries : list (string * dict)) :
  members k' (entries ++ [(k, model)])
  = (members k' entries ++ if String.eqb k' k then [model] else [])%list.
Proof.
  unfold members. rewrite filter_app, map_app. cbn.
  destruct (String.eqb k' k); reflexivity.
Qed.

Lemma members_absent (k : string) (entries : list (string * dict)) :
  ~ In k (map fst entries) -> members k entries = [].
Proof.
  unfold members. induction entries as [| [k0 m0] t IH]; cbn; intro H;
    [reflexivity |].
  destruct (String.eqb k k0) eqn:E.
  - apply String.eqb_eq in E. exfalso. apply H. left. symmetry. exact E.
  - apply IH. intro H'. apply H. right. exact H'.
Qed.

Lemma group_append_grouped (groups : list (string * list dict))
    (entries : list (string * dict)) (k : string) (model : dict) :
  grouped groups entries ->
  grouped (Engine.group_append groups k model) (entries ++ [(k, model)]).
Proof.
  intros (Hnd & Hkeys & Hms). unfold grouped.
  rewrite group_append_keys, map_app. cbn [map fst].
  destruct (existsb (String.eqb k) (map fst groups)) eqn:E.
  - apply existsb_eqb_In in E. split; [exact Hnd |]. split.
    + intro k'. rewrite in_app_iff, <- Hkeys. split; [intro H; left; exact H |].
      intros [H | [<- | []]]; [exact H | exact E].
    + intros k' ms' Hin. rewrite members_snoc.
      destruct (group_append_in _ _ _ _ _ Hnd Hin)
        as [[Hne H] | [-> [(ms & H & ->) | [Hni ->]]]].
      * apply String.eqb_neq in Hne. rewrite Hne, app_nil_r.
        apply Hms, H.
      * rewrite String.eqb_refl. destruct (Hms _ _ H) as [_ <-].
        split; [| reflexivity]. intro Hnil. apply app_eq_nil in Hnil.
        destruct Hnil as [_ Hnil]. discriminate Hnil.
      * exfalso. exact (Hni E).
  - assert (Hni : ~ In k (map fst groups)).
    { intro H. apply existsb_eqb_In in H. rewrite H in E. discriminate E. }
    split; [apply NoDup_snoc; assumption |]. split.
    + intro k'. rewrite !in_app_iff, Hkeys. reflexivity.
    + intros k' ms' Hin. rewrite members_snoc.
      destruct (group_append_in _ _ _ _ _ Hnd Hin)
        as [[Hne H] | [-> [(ms & H & ->) | [_ ->]]]].
      * apply String.eqb_neq in Hne. rewrite Hne, app_nil_r.
        apply Hms, H.
      * exfalso. apply Hni. change k with (fst (k, ms)). apply in_map, H.
      * rewrite String.eqb_refl, members_absent;
          [split; [discriminate | reflexivity] |].
        rewrite <- Hkeys. exact Hni.
Qed.

Lemma group_loop_grouped (c : FilterConfig) (models : list dict) :
  forall groups0 done groups,
    grouped groups0 done ->
    Engine.group_loop c models groups0 = Ok groups ->
    exists entries,
      keyed c models = Ok entries /\ grouped groups (done ++ entries).
Proof.
  induction models as [| model rest IH]; intros groups0 done groups Hinv H;
    cbn in H.
  - injection H as <-. exists []. split; [reflexivity |].
    rewrite app_nil_r. exact Hinv.
  - apply rbind_ok in H. destruct H as (k & Hk & H).
    destruct (IH _ (done ++ [(k, model)])%list _
                 (group_append_grouped _ _ k model Hinv) H)
      as (entries & He & Hg).
    exists ((k, model) :: entries). split.
    + unfold keyed in *. cbn. rewrite Hk. cbn [rbind]. rewrite He.
      reflexivity.
    + rewrite <- app_assoc in Hg. exact Hg.
Qed.

(** Grouping puts every entry in exactly one group, the group of its key:
    the groups have distinct keys, the keys are those of the entries, no
    group is empty, and each group lists, in the order of the input, the
    entries whose key it has.  The report and the error list are left as
    they were. *)
Theorem grouping_partitions (c : FilterConfig) (models : list dict)
    (groups : list (string * list dict)) (s s' : Engine.pstate) :
  Engine._group_models_by_base c models s = (Ok groups, s') ->
  s' = s
  /\ exists entries, keyed c models = Ok entries /\ grouped groups entries.
Proof.
  unfold Engine._group_models_by_base, Engine.lift. intro H.
  inversion H as [[Hg Hs]]. split; [reflexivity |].
  apply (group_loop_grouped c models [] [] groups); [| exact Hg].
  split; [constructor |].
  split; [intro k; reflexivity | intros k ms []].
Qed.

Lemma grouping_witness :
  fresh = fresh
  /\ exists entries,
       keyed default_config [entry_q8; codellama_entry; entry_q4] = Ok entries
       /\ grouped [("llama 2 7b", [entry_q8; entry_q4]);
                   ("codellama instructed", [codellama_entry])] entries.
Proof.
  assert (E : Engine._group_models_by_base default_config
                [entry_q8; codellama_entry; entry_q4] fresh
              = (Ok [("llama 2 7b", [entry_q8; entry_q4]);
                     ("codellama instructed", [codellama_entry])], fresh))
    by (vm_compute; reflexivity).
  exact (grouping_partitions _ _ _ _ _ E).
Defined.

(** ** quantization_selector.py: the selection for a group *)

Lemma py_ge_int (z n : Z) : py_ge (PInt z) (PInt n) = Ok (n <=? z).
Proof.
  unfold py_ge, py_order. cbn [as_num num_cmp ord_holds].
  rewrite Z.leb_antisym, Z.ltb_compare. 
  destruct (z ?= n); reflexivity.
Qed.

Lemma size_ge_int (a b : dict) (za zb : Z) :
  Selector.file_size a = PInt za -> Selector.file_size b = PInt zb ->
  (size_ge a b <-> zb <= za).
Proof.
  intros Ha Hb. unfold size_ge. rewrite Ha, Hb, py_ge_int. split.
  - intro H. injection H as H. apply Z.leb_le, H.
  - intro H. apply Z.leb_le in H. rewrite H. reflexivity.
Qed.

Lemma rfilter_spec {A} (f : A -> result bool) (xs ys : list A) :
  rfilter f xs = Ok ys ->
  Subseq ys xs /\ forall x, In x ys <-> In x xs /\ f x = Ok true.
Proof.
  revert ys. induction xs as [| x t IH]; intros ys H; cbn in H.
  - injection H as <-. split; [constructor |].
    intro x. split; [intros [] | intros [[] _]].
  - apply rbind_ok in H. destruct H as (b & Hb & H).
    apply rbind_ok in H. destruct H as (ys' & Hys & H).
    injection H as <-. destruct (IH _ Hys) as [Hsub Hin].
    destruct b.
    + split; [constructor; exact Hsub |]. intro y. cbn [In].
      rewrite Hin. split.
      * intros [<- | [H1 H2]]; [split; [left; reflexivity | exact Hb] |].
        split; [right; exact H1 | exact H2].
      * intros [[<- | H1] H2]; [left; reflexivity | right; split; assumption].
    + split; [constructor; exact Hsub |]. intro y. rewrite Hin. cbn [In].
      split.
      * intros [H1 H2]. split; [right; exact H1 | exact H2].
      * intros [[<- | H1] H2]; [rewrite Hb in H2; discriminate H2 |].
        split; assumption.
Qed.

Lemma rfilter_returns {A} (f : A -> result bool) (xs : list A) :
  Forall (fun x => exists b, f x = Ok b) xs ->
  exists ys, rfilter f xs = Ok ys.
Proof.
  induction 1 as [| x t [b Hb] _ [ys IH]]; cbn.
  - eexists; reflexivity.
  - rewrite Hb, IH. cbn [rbind]. eexists; reflexivity.
Qed.

Lemma insert_desc_sorted (x : dict) (sorted : list dict) :
  plain_entry x -> Forall plain_entry sorted -> descending sorted ->
  exists r, Selector.insert_desc x sorted = Ok r
            /\ Permutation (x :: sorted) r /\ descending r.
Proof.
  intros Hx Hs. destruct Hx as (_ & _ & _ & _ & _ & zx & Ex & _).
  induction Hs as [| y t Hy Ht IH]; intro Hd; cbn [Selector.insert_desc].
  - exists [x]. split; [reflexivity |]. split; [apply Permutation_refl |].
    constructor; constructor.
  - pose proof Hy as (_ & _ & _ & _ & _ & zy & Ey & _).
    rewrite Ex, Ey, py_lt_int. cbn [rbind].
    inversion Hd as [| ? ? Hyt Hd']; subst.
    destruct (Z.ltb_spec zx zy) as [L | G].
    + destruct (IH Hd') as (r & -> & Hperm & Hr). cbn [rbind].
      exists (y :: r). split; [reflexivity |]. split.
      * eapply Permutation_trans; [apply perm_swap |].
        apply perm_skip, Hperm.
      * constructor; [| exact Hr].
        eapply Permutation_Forall; [exact Hperm |].
        constructor; [| exact Hyt].
        apply (size_ge_int y x zy zx Ey Ex). apply Z.lt_le_incl, L.
    + exists (x :: y :: t). split; [reflexivity |].
      split; [apply Permutation_refl |].
      constructor; [| exact Hd].
      constructor; [apply (size_ge_int x y zx zy Ex Ey), G |].
      rewrite Forall_forall in *. intros w Hw.
      destruct (Ht w Hw) as (_ & _ & _ & _ & _ & zw & Ew & _).
      apply (size_ge_int x w zx zw Ex Ew).
      eapply Z.le_trans; [| exact G].
      apply (size_ge_int y w zy zw Ey Ew), Hyt, Hw.
Qed.

Lemma sort_desc_sorted (xs : list dict) :
  Forall plain_entry xs ->
  exists s, Selector.sort_desc xs = Ok s
            /\ Permutation xs s /\ descending s.
Proof.
  induction 1 as [| x t Hx Ht (s & Hs & Hperm & Hd)];
    cbn [Selector.sort_desc].
  - exists []. split; [reflexivity |]. split; constructor.
  - rewrite Hs. cbn [rbind].
    destruct (insert_desc_sorted x s Hx
                (Permutation_Forall Hperm Ht) Hd) as (r & Hr & Hp & Hdr).
    exists r. split; [exact Hr |]. split; [| exact Hdr].
    eapply Permutation_trans; [apply perm_skip, Hperm | exact Hp].
Qed.

Lemma selection_returns (c : FilterConfig) (variants : list dict) :
  Forall plain_entry variants ->
  exists kept, Selector.select_variants_for_group c None variants = Ok kept.
Proof.
  intro Hp. unfold Selector.select_variants_for_group.
  destruct (is_nil variants); [eexists; reflexivity |].
  destruct (rfilter_returns
              (fun v => py_ge (Selector.file_size v)
                              (PInt (min_size_bytes c))) variants)
    as [valid Hvalid].
  { eapply Forall_impl; [| exact Hp].
    intros e (_ & _ & _ & _ & _ & z & -> & _). rewrite py_ge_int.
    eexists; reflexivity. }
  rewrite Hvalid. cbn [rbind].
  destruct (is_nil valid); [eexists; reflexivity |].
  assert (Hpv : Forall plain_entry valid)
    by (eapply rfilter_Forall; eassumption).
  destruct (sort_desc_sorted valid Hpv) as (sorted & -> & Hperm & Hd).
  cbn [rbind].
  destruct (filter_quantized_variants_returns c sorted
              (Permutation_Forall Hperm Hpv) Hd) as [kept ->].
  cbn [rbind]. eexists; reflexivity.
Qed.

(** On entries with well-typed fields the selection returns: the base
    model, when there is one, then variants of the group in
    size-descending order, each of at least the minimum size; and when
    some variant has the minimum size, the first variant kept is a largest
    of them: a group never loses all its valid variants. *)
Theorem selection_on_plain_entries (c : FilterConfig)
    (base_model : option dict) (variants : list dict) :
  Forall plain_entry variants ->
  exists kept,
    Selector.select_variants_for_group c base_model variants
    = Ok (Engine.present base_model ++ kept)%list
    /\ descending kept
    /\ (forall v, In v kept -> In v variants /\ valid_size c v)
    /\ forall v, In v variants -> valid_size c v ->
                 exists a rest, kept = a :: rest /\ size_ge a v.
Proof.
  intro Hp. unfold Selector.select_variants_for_group.
  change (match base_model with
          | Some b => if is_nil b then [] else [b]
          | None => []
          end) with (Engine.present base_model).
  assert (Hnone : forall valid,
             (forall x, In x valid <-> In x variants /\ valid_size c x) ->
             valid = [] ->
             descending []
             /\ (forall v, In v (@nil dict) -> In v variants /\ valid_size c v)
             /\ forall v, In v variants -> valid_size c v ->
                          exists a rest, @nil dict = a :: rest /\ size_ge a v).
  { intros valid Hin ->. split; [constructor |]. split; [intros v [] |].
    intros v Hv Hvalid. destruct (proj2 (Hin v) (conj Hv Hvalid)). }
  destruct (rfilter_returns
              (fun v => py_ge (Selector.file_size v)
                              (PInt (min_size_bytes c))) variants)
    as [valid Hvalid].
  { eapply Forall_impl; [| exact Hp].
    intros e (_ & _ & _ & _ & _ & z & -> & _). rewrite py_ge_int.
    eexists; reflexivity. }
  destruct (rfilter_spec _ _ _ Hvalid) as [Hsub Hin].
  destruct (is_nil variants) eqn:Env.
  { exists []. rewrite app_nil_r. split; [reflexivity |].
    destruct variants; [| discriminate Env].
    apply (Hnone valid Hin). cbn in Hvalid. injection Hvalid as <-.
    reflexivity. }
  rewrite Hvalid. cbn [rbind].
  destruct (is_nil valid) eqn:Enl.
  { exists []. rewrite app_nil_r. split; [reflexivity |].
    apply (Hnone valid Hin). destruct valid; [reflexivity | discriminate]. }
  assert (Hpv : Forall plain_entry valid)
    by (eapply Subseq_Forall; eassumption).
  destruct (sort_desc_sorted valid Hpv) as (sorted & -> & Hperm & Hd).
  cbn [rbind].
  assert (Hps : Forall plain_entry sorted)
    by (eapply Permutation_Forall; eassumption).
  destruct (filter_quantized_variants_returns c sorted Hps Hd)
    as [kept Hkept].
  rewrite Hkept. cbn [rbind]. exists kept. split; [reflexivity |].
  unfold Selector.filter_quantized_variants in Hkept.
  destruct (filter_loop_trace c sorted [] kept Hkept)
    as (added & Ek & Hsk & _).
  cbn [app] in Ek. subst added.
  split; [eapply Subseq_ordered; eassumption |]. split.
  - intros v Hv. apply Hin. eapply Permutation_in;
      [apply Permutation_sym, Hperm |].
    assert (Hall : Forall (fun w => In w sorted) kept).
    { eapply Subseq_Forall; [exact Hsk |].
      apply Forall_forall. intros w Hw. exact Hw. }
    rewrite Forall_forall in Hall. apply Hall, Hv.
  - intros v Hv Hvalid'.
    assert (Hvs : In v sorted).
    { eapply Permutation_in; [exact Hperm |]. apply Hin. split; assumption. }
    destruct sorted as [| a srest]; [destruct Hvs |].
    cbn [Selector.filter_loop Selector.should_keep_variant is_nil rbind app]
      in Hkept.
    destruct (filter_loop_trace c srest [a] kept Hkept)
      as (added & -> & _ & _).
    exists a, added. split; [reflexivity |].
    inversion Hd as [| ? ? Ha _]; subst.
    destruct Hvs as [<- | Hvs].
    + inversion Hps as [| ? ? (_ & _ & _ & _ & _ & z & Ez & _) _]; subst.
      apply (size_ge_int a a z z Ez Ez), Z.le_refl.
    + rewrite Forall_forall in Ha. apply Ha, Hvs.
Qed.

Lemma selection_witness :
  exists kept,
    Selector.select_variants_for_group default_config (Some entry_f16)
      [entry_q4; entry_q8]
    = Ok (Engine.present (Some entry_f16) ++ kept)%list
    /\ descending kept
    /\ (forall v, In v kept ->
                  In v [entry_q4; entry_q8] /\ valid_size default_config v)
    /\ forall v, In v [entry_q4; entry_q8] -> valid_size default_config v ->
                 exists a rest, kept = a :: rest /\ size_ge a v.
Proof.
  assert (H : Forall plain_entry [entry_q4; entry_q8]).
  { repeat constructor;
      first [eexists; vm_compute; reflexivity
            | eexists; split; [vm_compute; reflexivity
                              | vm_compute; discriminate]]. }
  exact (selection_on_plain_entries default_config (Some entry_f16)
           [entry_q4; entry_q8] H).
Defined.

(** ** engine.py: what the pipeline returns *)

Lemma group_append_member (groups : list (string * list dict)) (k : string)
    (model : dict) (k' : string) (ms' : list dict) (x : dict) :
  In (k', ms') (Engine.group_append groups k model) -> In x ms' ->
  x = model \/ exists ms0, In (k', ms0) groups /\ In x ms0.
Proof.
  induction groups as [| [k0 ms0] t IH]; cbn [Engine.group_append];
    intros Hin Hx.
  - destruct Hin as [E | []]. inversion E; subst.
    destruct Hx as [<- | []]. left. reflexivity.
  - destruct (String.eqb k k0).
    + destruct Hin as [E | Hin].
      * inversion E; subst. apply in_app_or in Hx.
        destruct Hx as [Hx | [<- | []]]; [right | left; reflexivity].
        exists ms0. split; [left; reflexivity | exact Hx].
      * right. exists ms'. split; [right; exact Hin | exact Hx].
    + destruct Hin as [E | Hin].
      * inversion E; subst. right.
        exists ms'. split; [left; reflexivity | exact Hx].
      * destruct (IH Hin Hx) as [-> | (ms1 & H1 & H2)];
          [left; reflexivity | right].
        exists ms1. split; [right; exact H1 | exact H2].
Qed.

Lemma group_loop_member (c : FilterConfig) (models : list dict) :
  forall groups0 groups k ms x,
    Engine.group_loop c models groups0 = Ok groups ->
    In (k, ms) groups -> In x ms ->
    In x models \/ exists ms0, In (k, ms0) groups0 /\ In x ms0.
Proof.
  induction models as [| model rest IH]; intros groups0 groups k ms x H Hin Hx;
    cbn [Engine.group_loop] in H.
  - injection H as <-. right. exists ms. split; assumption.
  - apply rbind_ok in H. destruct H as (key & _ & H).
    destruct (IH _ _ _ _ _ H Hin Hx) as [Hr | (ms0 & H0 & Hx0)];
      [left; right; exact Hr |].
    destruct (group_append_member _ _ _ _ _ _ H0 Hx0) as [-> | Hold];
      [left; left; reflexivity | right; exact Hold].
Qed.

Lemma in_cons_kept {A} (P : A -> Prop) (m : A) (t l : list A) (x : A) :
  (In x l <-> In x t /\ P x) -> P m ->
  (In x (m :: l) <-> In x (m :: t) /\ P x).
Proof.
  intros Hiff Pm. split.
  - intros [<- | H]; [split; [left; reflexivity | exact Pm] |].
    apply Hiff in H. destruct H as [H1 H2]. split; [right |]; assumption.
  - intros [[<- | H1] H2]; [left; reflexivity |].
    right. apply Hiff. split; assumption.
Qed.

Lemma in_cons_dropped {A} (P : A -> Prop) (m : A) (t l : list A) (x : A) :
  (In x l <-> In x t /\ P x) -> ~ P m ->
  (In x l <-> In x (m :: t) /\ P x).
Proof.
  intros Hiff Pm. split.
  - intro H. apply Hiff in H. destruct H as [H1 H2].
    split; [right |]; assumption.
  - intros [[<- | H1] H2]; [contradiction |].
    apply Hiff. split; assumption.
Qed.

Lemma split_group_spec (models : list dict) :
  forall parts,
    Engine.split_group models = Ok parts ->
    (forall x, In x (fst parts)
               <-> In x models /\ Engine.is_base_entry x = Ok true)
    /\ (forall x, In x (snd parts)
                  <-> In x models /\ Engine.is_base_entry x = Ok false).
Proof.
  induction models as [| m t IH]; intros parts H;
    cbn [Engine.split_group] in H.
  - injection H as <-. cbn. split; intro x; split; tauto.
  - apply rbind_ok in H. destruct H as (b & Hb & H).
    apply rbind_ok in H. destruct H as (r & Hr & H).
    injection H as <-. destruct (IH _ Hr) as [Hbase Hvar].
    destruct b; cbn [fst snd]; split; intro x.
    + apply (in_cons_kept (fun y => Engine.is_base_entry y = Ok true));
        [apply Hbase | exact Hb].
    + apply (in_cons_dropped (fun y => Engine.is_base_entry y = Ok false));
        [apply Hvar |].
      rewrite Hb. discriminate.
    + apply (in_cons_dropped (fun y => Engine.is_base_entry y = Ok true));
        [apply Hbase |].
      rewrite Hb. discriminate.
    + apply (in_cons_kept (fun y => Engine.is_base_entry y = Ok false));
        [apply Hvar | exact Hb].
Qed.

Lemma max_loop_member (items : list dict) :
  forall best r, Engine.max_loop best items = Ok r -> r = best \/ In r items.
Proof.
  induction items as [| x t IH]; intros best r H; cbn [Engine.max_loop] in H.
  - injection H as <-. left. reflexivity.
  - apply rbind_ok in H. destruct H as (bigger & _ & H).
    destruct (IH _ _ H) as [-> | Hin]; [| right; right; exact Hin].
    destruct bigger; [right; left; reflexivity | left; reflexivity].
Qed.

Lemma insert_desc_member (x : dict) (sorted : list dict) :
  forall r, Selector.insert_desc x sorted = Ok r ->
            forall w, In w r -> w = x \/ In w sorted.
Proof.
  induction sorted as [| y t IH]; intros r H w Hw;
    cbn [Selector.insert_desc] in H.
  - injection H as <-. destruct Hw as [<- | []]. left. reflexivity.
  - apply rbind_ok in H. destruct H as (smaller & _ & H).
    destruct smaller.
    + apply rbind_ok in H. destruct H as (r' & Hr' & H).
      injection H as <-. destruct Hw as [<- | Hw];
        [right; left; reflexivity |].
      destruct (IH _ Hr' _ Hw) as [-> | Hin];
        [left; reflexivity | right; right; exact Hin].
    + injection H as <-. destruct Hw as [<- | Hw];
        [left; reflexivity | right; exact Hw].
Qed.

Lemma sort_desc_member (xs : list dict) :
  forall r, Selector.sort_desc xs = Ok r -> forall w, In w r -> In w xs.
Proof.
  induction xs as [| x t IH]; intros r H w Hw; cbn [Selector.sort_desc] in H.
  - injection H as <-. exact Hw.
  - apply rbind_ok in H. destruct H as (s & Hs & H).
    destruct (insert_desc_member _ _ _ H _ Hw) as [-> | Hin];
      [left; reflexivity | right; eapply IH; eassumption].
Qed.

Lemma Subseq_In {A} (l l' : list A) (x : A) :
  Subseq l l' -> In x l -> In x l'.
Proof.
  intros Hs Hx.
  assert (H : Forall (fun w => In w l') l).
  { eapply Subseq_Forall; [exact Hs |].
    apply Forall_forall. intros w Hw. exact Hw. }
  rewrite Forall_forall in H. apply H, Hx.
Qed.

Lemma selection_member (c : FilterConfig) (variants selected : list dict) :
  Selector.select_variants_for_group c None variants = Ok selected ->
  forall v, In v selected -> In v variants /\ valid_size c v.
Proof.
  intros H v Hv. unfold Selector.select_variants_for_group in H.
  destruct (is_nil variants); [injection H as <-; destruct Hv |].
  apply rbind_ok in H. destruct H as (valid & Hvalid & H).
  destruct (is_nil valid); [injection H as <-; destruct Hv |].
  apply rbind_ok in H. destruct H as (sorted & Hsorted & H).
  apply rbind_ok in H. destruct H as (filtered & Hfiltered & H).
  injection H as <-. cbn [app] in Hv.
  destruct (filter_loop_trace c sorted [] filtered Hfiltered)
    as (added & -> & Hsub & _).
  cbn [app] in Hv.
  apply (rfilter_spec _ _ _ Hvalid).
  eapply sort_desc_member; [exact Hsorted |].
  eapply Subseq_In; eassumption.
Qed.

(** What one turn on a group hands on: variants that are not base
    entries and have the minimum size, then base entries of the group. *)
Lemma filter_group_member (c : FilterConfig) (name : string)
    (models : list dict) :
  yields (fun out => forall x, In x out -> In x models)
         (Engine.filter_group c (name, models)).
Proof.
  unfold Engine.filter_group.
  eapply yields_bind with
    (Q1 := fun parts : list dict * list dict =>
             (forall x, In x (fst parts)
                        <-> In x models /\ Engine.is_base_entry x = Ok true)
             /\ (forall x, In x (snd parts)
                           <-> In x models
                               /\ Engine.is_base_entry x = Ok false)).
  { apply yields_lift. intros parts Hp. exact (split_group_spec _ _ Hp). }
  intros [bases variants] [Hb Hv]. cbn [fst snd] in Hb, Hv.
  eapply yields_bind with
    (Q1 := fun o : option dict =>
             forall x, In x (Engine.present o) -> In x bases).
  { unfold Engine.best_base_model. destruct bases as [| first rest].
    - apply yields_ret. intros x [].
    - eapply yields_bind with
        (Q1 := fun r : dict => r = first \/ In r rest).
      + apply yields_lift. intros r Hr. exact (max_loop_member _ _ _ Hr).
      + intros r Hr. eapply yields_bind; [apply yields_any |]. intros _ _.
        apply yields_ret. cbn [Engine.present]. intros x Hx.
        destruct (is_nil r); [destruct Hx |].
        destruct Hx as [<- | []].
        destruct Hr as [-> | Hr]; [left; reflexivity | right; exact Hr]. }
  intros base Hbase.
  eapply yields_bind with
    (Q1 := fun sel : list dict => forall x, In x sel -> In x variants).
  { unfold Engine.select_in_group. destruct (is_nil variants).
    - apply yields_ret. intros x [].
    - eapply yields_bind with
        (Q1 := fun sel : list dict => forall x, In x sel -> In x variants).
      + apply yields_lift. intros sel Hsel x Hx.
        exact (proj1 (selection_member c _ _ Hsel x Hx)).
      + intros sel Hsel.
        eapply yields_bind; [apply yields_any |]. intros _ _.
        eapply yields_bind; [apply yields_any |]. intros _ _.
        eapply yields_bind; [apply yields_any |]. intros _ _.
        apply yields_ret. exact Hsel. }
  intros sel Hsel.
  eapply yields_bind; [apply yields_any |]. intros _ _.
  apply yields_ret. intros x Hx. apply in_app_or in Hx.
  destruct Hx as [Hx | Hx].
  - apply Hv, Hsel, Hx.
  - apply Hb, Hbase, Hx.
Qed.

Lemma yields_mfilter_test {A} (Q T : A -> Prop) (f : A -> Engine.M bool)
    (xs : list A) :
  Forall Q xs ->
  (forall x, yields (fun b => b = true -> T x) (f x)) ->
  yields (Forall (fun x => Q x /\ T x)) (Engine.mfilter f xs).
Proof.
  intros HQ Hf. induction HQ as [| x t Hx Ht IH]; cbn [Engine.mfilter].
  - apply yields_ret. constructor.
  - eapply yields_bind; [apply Hf |]. intros b Hb.
    eapply yields_bind; [exact IH |]. intros ys Hys.
    apply yields_ret. destruct b; [constructor |]; auto.
Qed.

Lemma add_requirements_annotates (py_repr : pyval -> string)
    (c : FilterConfig) (model : dict) :
  size_fits model ->
  annotated c model (Engine.add_requirements py_repr c model).
Proof.
  intro Hfit. unfold Engine.add_requirements.
  destruct (calculate_requirements_total py_repr c model Hfit)
    as (m' & Hm & _).
  rewrite Hm.
  unfold Hardware.calculate_requirements, try_except in Hm.
  destruct (Hardware.requirements_body py_repr c model) as [m | e] eqn:E.
  - injection Hm as <-. eapply body_annotates, E.
  - cbn [any_exception] in Hm.
    apply conservative_annotated, fallback_is_conservative, Hm.
Qed.

Lemma yields_weaken {A} (Q Q' : A -> Prop) (m : Engine.M A) :
  yields Q m -> (forall a, Q a -> Q' a) -> yields Q' m.
Proof. intros H1 H2 s a s' E. apply H2, (H1 _ _ _ E). Qed.

Lemma extract_yields_origin (py_repr : pyval -> string)
    (raw_models : list pyval) :
  yields (Forall (fun e => built_from py_repr raw_models e /\ size_fits e))
         (Engine._extract_gguf_models py_repr raw_models).
Proof.
  apply yields_mconcat_map. intros raw Hraw s models s' E.
  unfold Engine.extract_one, Engine.m_try, Engine.lift in E.
  destruct (Engine.gguf_entries py_repr raw) as [ms | e] eqn:Eg.
  - injection E as <- _.
    pose proof (extracted_sizes_fit _ _ _ Eg) as Hfit.
    rewrite Forall_forall in *. intros x Hx.
    split; [| apply Hfit, Hx].
    exists raw, ms. split; [exact Hraw |]. split; [exact Eg | exact Hx].
  - assert (Hnil : yields (fun l : list dict => l = [])
              (Engine.mbind
                 (Engine.lift (py_get raw "id" (PStr "unknown")))
                 (fun id =>
                    Engine.mbind
                      (Engine.append_error
                         ("Error processing raw model "
                          ++ Engine.py_str py_repr id ++ ": " ++ exn_msg e))
                      (fun _ => Engine.mret [])))).
    { eapply yields_bind; [apply yields_any |]. intros id _.
      eapply yields_bind; [apply yields_any |]. intros u _.
      apply yields_ret. reflexivity. }
    rewrite (Hnil _ _ _ E). constructor.
Qed.

(** Every entry [filter_models] returns is an entry built from a GGUF
    file of one of the raw records, of at least the minimum size and
    classified as a base model, with the four hardware fields written and
    every other field as it was built. *)
Theorem returned_entries_pass_filters
    (py_repr : pyval -> string) (c : FilterConfig) (t0 t1 : spec_float)
    (raw : list pyval) :
  Forall (fun m =>
            exists e,
              annotated c e m
              /\ built_from py_repr raw e
              /\ valid_size c e
              /\ Classifier.is_base_model c e = Ok true)
         (Engine.filtered_models (Engine.filter_models py_repr c t0 t1 raw)).
Proof.
  destruct (run_cases py_repr c t0 t1 raw)
    as [(gguf & enhanced & report & errs & Hst & -> & _)
       | (e & report & errs & _ & -> & _)]; [| constructor].
  cbn [Engine.filtered_models].
  set (Q1 := fun e : dict => built_from py_repr raw e /\ size_fits e).
  set (Q2 := fun e : dict => Q1 e /\ valid_size c e).
  set (Q3 := fun e : dict =>
               Q2 e /\ Classifier.is_base_model c e = Ok true).
  assert (Hy : yields
                 (fun r : list dict * list dict =>
                    Forall (fun m =>
                              exists e,
                                annotated c e m /\ built_from py_repr raw e
                                /\ valid_size c e
                                /\ Classifier.is_base_model c e = Ok true)
                           (snd r))
                 (Engine.stages py_repr c raw)).
  2: { exact (Hy _ _ _ Hst). }
  unfold Engine.stages.
  eapply yields_bind; [apply extract_yields_origin |]. intros g Hg.
  eapply yields_bind; [apply yields_any |]. intros _ _.
  eapply yields_bind with (Q1 := Forall Q2).
  { apply yields_mfilter_test; [exact Hg |]. intro x.
    eapply yields_bind with (Q1 := fun big => big = true -> valid_size c x).
    - apply yields_lift. intros big H ->. exact H.
    - intros big Hbig. destruct big.
      + apply yields_ret. intros _. apply Hbig. reflexivity.
      + eapply yields_bind; [apply yields_any |]. intros _ _.
        apply yields_ret. intro H. discriminate H. }
  intros f Hf.
  eapply yields_bind with (Q1 := Forall Q3).
  { apply yields_mfilter_test; [exact Hf |]. intro x.
    eapply yields_bind with
      (Q1 := fun base => base = true
                         -> Classifier.is_base_model c x = Ok true).
    - apply yields_lift. intros base H ->. exact H.
    - intros base Hbase. destruct base.
      + apply yields_ret. intros _. apply Hbase. reflexivity.
      + eapply yields_bind; [apply yields_any |]. intros _ _.
        apply yields_ret. intro H. discriminate H. }
  intros b Hb.
  eapply yields_bind with
    (Q1 := fun groups : list (string * list dict) =>
             forall k ms x, In (k, ms) groups -> In x ms -> In x b).
  { apply yields_lift. intros groups Hgr k ms x Hin Hx.
    destruct (group_loop_member c b [] groups k ms x Hgr Hin Hx)
      as [H | (ms0 & [] & _)].
    exact H. }
  intros groups Hgroups.
  eapply yields_bind with (Q1 := Forall Q3).
  { apply yields_mconcat_map. intros [name ms] Hin.
    eapply yields_weaken; [apply filter_group_member |].
    intros out Hout. apply Forall_forall. intros x Hx.
    rewrite Forall_forall in Hb. apply Hb.
    eapply Hgroups; [exact Hin | apply Hout, Hx]. }
  intros final Hfinal. apply yields_ret. cbn [snd].
  unfold Engine._add_hardware_requirements.
  induction Hfinal as [| e t He _ IH]; cbn [map]; constructor;
    [| exact IH].
  destruct He as [[[Ho Hfit] Hvalid] Hbase].
  exists e. split; [apply add_requirements_annotates, Hfit |].
  split; [exact Ho |]. split; assumption.
Qed.

Lemma py_gt_int (z n : Z) : py_gt (PInt z) (PInt n) = Ok (n <? z).
Proof.
  unfold py_gt, py_order. cbn [as_num num_cmp ord_holds].
  rewrite Z.ltb_compare, (Z.compare_antisym z n).
  destruct (z ?= n); reflexivity.
Qed.

Lemma max_loop_largest (items : list dict) :
  Forall plain_entry items ->
  forall best zb r,
    Selector.file_size best = PInt zb ->
    Engine.max_loop best items = Ok r ->
    exists zr, Selector.file_size r = PInt zr /\ zb <= zr
               /\ Forall (fun x => exists zx, Selector.file_size x = PInt zx
                                              /\ zx <= zr) items.
Proof.
  induction 1 as [| x t Hx Ht IH]; intros best zb r Hb H;
    cbn [Engine.max_loop] in H.
  - injection H as <-. exists zb. split; [exact Hb |].
    split; [apply Z.le_refl | constructor].
  - destruct Hx as (_ & _ & _ & _ & _ & zx & Ex & _).
    rewrite Ex, Hb, py_gt_int in H. cbn [rbind] in H.
    destruct (Z.ltb_spec zb zx) as [L | G].
    + destruct (IH _ _ _ Ex H) as (zr & Er & Hle & Hall).
      exists zr. split; [exact Er |].
      split; [eapply Z.le_trans; [apply Z.lt_le_incl, L | exact Hle] |].
      constructor; [exists zx; split; [exact Ex | exact Hle] | exact Hall].
    + destruct (IH _ _ _ Hb H) as (zr & Er & Hle & Hall).
      exists zr. split; [exact Er |]. split; [exact Hle |].
      constructor; [| exact Hall].
      exists zx. split; [exact Ex |]. eapply Z.le_trans; eassumption.
Qed.

(** One turn on a group of non-empty entries with well-typed fields
    hands on the selected variants, none of them a base entry and each of
    the minimum size, and then, when the group has a base entry, exactly
    one base entry, a largest of them. *)
Theorem group_turn_keeps_largest_base (c : FilterConfig) (name : string)
    (models out : list dict) (s s' : Engine.pstate) :
  Forall plain_entry models ->
  Forall (fun m => is_nil m = false) models ->
  Engine.filter_group c (name, models) s = (Ok out, s') ->
  exists selected tail,
    out = (selected ++ tail)%list
    /\ Forall (fun v => In v models /\ Engine.is_base_entry v = Ok false
                        /\ valid_size c v) selected
    /\ ((tail = []
         /\ forall m, In m models -> Engine.is_base_entry m = Ok false)
        \/ exists b,
             tail = [b] /\ In b models /\ Engine.is_base_entry b = Ok true
             /\ forall b', In b' models ->
                           Engine.is_base_entry b' = Ok true ->
                           size_ge b b').
Proof.
  intros Hplain Hfull H.
  revert s out s' H. change (yields
    (fun out =>
       exists selected tail,
         out = (selected ++ tail)%list
         /\ Forall (fun v => In v models /\ Engine.is_base_entry v = Ok false
                             /\ valid_size c v) selected
         /\ ((tail = []
              /\ forall m, In m models -> Engine.is_base_entry m = Ok false)
             \/ exists b,
                  tail = [b] /\ In b models
                  /\ Engine.is_base_entry b = Ok true
                  /\ forall b', In b' models ->
                                Engine.is_base_entry b' = Ok true ->
                                size_ge b b'))
    (Engine.filter_group c (name, models))).
  unfold Engine.filter_group.
  eapply yields_bind with
    (Q1 := fun parts : list dict * list dict =>
             Engine.split_group models = Ok parts).
  { apply yields_lift. intros parts Hp. exact Hp. }
  intros [bases variants] Hsplit.
  destruct (split_group_spec _ _ Hsplit) as [Hb Hv]. cbn [fst snd] in Hb, Hv.
  rewrite Forall_forall in Hplain, Hfull.
  eapply yields_bind with
    (Q1 := fun o : option dict =>
             (Engine.present o = []
              /\ forall m, In m models -> Engine.is_base_entry m = Ok false)
             \/ exists b,
                  Engine.present o = [b] /\ In b models
                  /\ Engine.is_base_entry b = Ok true
                  /\ forall b', In b' models ->
                                Engine.is_base_entry b' = Ok true ->
                                size_ge b b').
  { unfold Engine.best_base_model. destruct bases as [| first rest].
    - apply yields_ret. left. split; [reflexivity |].
      intros m Hm.
      assert (Hcases : exists b, Engine.is_base_entry m = Ok b).
      { clear - Hsplit Hm. revert Hsplit. generalize (@nil dict, variants).
        induction models as [| x t IH]; intros parts Hs; [destruct Hm |].
        cbn [Engine.split_group] in Hs.
        apply rbind_ok in Hs. destruct Hs as (b & Eb & Hs).
        apply rbind_ok in Hs. destruct Hs as (r & Er & _).
        destruct Hm as [<- | Hm]; [exists b; exact Eb |].
        exact (IH Hm _ Er). }
      destruct Hcases as [[|] Eb]; [| exact Eb].
      destruct (proj2 (Hb m) (conj Hm Eb)).
    - eapply yields_bind with
        (Q1 := fun r : dict =>
                 In r (first :: rest)
                 /\ forall b', In b' (first :: rest) -> size_ge r b').
      + apply yields_lift. intros r Hr.
        assert (Hpf : plain_entry first).
        { apply Hplain, Hb. left. reflexivity. }
        assert (Hpr : Forall plain_entry rest).
        { apply Forall_forall. intros x Hx. apply Hplain, Hb.
          right. exact Hx. }
        pose proof Hpf as (_ & _ & _ & _ & _ & zf & Ef & _).
        destruct (max_loop_largest rest Hpr first zf r Ef Hr)
          as (zr & Er & Hle & Hall).
        split.
        * destruct (max_loop_member _ _ _ Hr) as [-> | Hin];
            [left; reflexivity | right; exact Hin].
        * intros b' [<- | Hb'].
          -- apply (size_ge_int r first zr zf Er Ef), Hle.
          -- rewrite Forall_forall in Hall.
             destruct (Hall b' Hb') as (zx & Ex & Hx).
             apply (size_ge_int r b' zr zx Er Ex), Hx.
      + intros r [Hr Hmax].
        eapply yields_bind; [apply yields_any |]. intros _ _.
        apply yields_ret. right. exists r.
        apply Hb in Hr. destruct Hr as [Hrm Hrb].
        cbn [Engine.present]. rewrite (Hfull r Hrm).
        split; [reflexivity |]. split; [exact Hrm |].
        split; [exact Hrb |].
        intros b' Hb'1 Hb'2. apply Hmax, Hb. split; assumption. }
  intros base Hbase.
  eapply yields_bind with
    (Q1 := fun sel : list dict =>
             forall x, In x sel -> In x variants /\ valid_size c x).
  { unfold Engine.select_in_group. destruct (is_nil variants).
    - apply yields_ret. intros x [].
    - eapply yields_bind with
        (Q1 := fun sel : list dict =>
                 forall x, In x sel -> In x variants /\ valid_size c x).
      + apply yields_lift. intros sel Hsel x Hx.
        exact (selection_member c _ _ Hsel x Hx).
      + intros sel Hsel.
        eapply yields_bind; [apply yields_any |]. intros _ _.
        eapply yields_bind; [apply yields_any |]. intros _ _.
        eapply yields_bind; [apply yields_any |]. intros _ _.
        apply yields_ret. exact Hsel. }
  intros sel Hsel.
  eapply yields_bind; [apply yields_any |]. intros _ _.
  apply yields_ret. exists sel, (Engine.present base).
  split; [reflexivity |]. split; [| exact Hbase].
  apply Forall_forall. intros x Hx. destruct (Hsel x Hx) as [H1 H2].
  apply Hv in H1. destruct H1 as [H1 H3].
  split; [exact H1 |]. split; assumption.
Qed.

Lemma group_turn_witness :
  exists selected tail,
    [entry_q8; entry_q4; entry_f16] = (selected ++ tail)%list
    /\ Forall (fun v => In v (snd scenario_group)
                        /\ Engine.is_base_entry v = Ok false
                        /\ valid_size default_config v) selected
    /\ ((tail = []
         /\ forall m, In m (snd scenario_group) ->
                      Engine.is_base_entry m = Ok false)
        \/ exists b,
             tail = [b] /\ In b (snd scenario_group)
             /\ Engine.is_base_entry b = Ok true
             /\ forall b', In b' (snd scenario_group) ->
                           Engine.is_base_entry b' = Ok true ->
                           size_ge b b').
Proof.
  assert (Hp : Forall plain_entry (snd scenario_group)).
  { repeat constructor;
      first [eexists; vm_compute; reflexivity
            | eexists; split; [vm_compute; reflexivity
                              | vm_compute; discriminate]]. }
  assert (Hf : Forall (fun m => is_nil m = false) (snd scenario_group))
    by (repeat constructor).
  assert (E : Engine.filter_group default_config
                (fst scenario_group, snd scenario_group) fresh
              = (Ok [entry_q8; entry_q4; entry_f16],
                 snd (Engine.filter_group default_config scenario_group
                        fresh)))
    by (vm_compute; reflexivity).
  exact (group_turn_keeps_largest_base default_config (fst scenario_group)
           (snd scenario_group) _ fresh _ Hp Hf E).
Defined.

(** ** engine.py: the counters of the report *)

Lemma mbind_ok {A B} (m : Engine.M A) (k : A -> Engine.M B)
    (s s' : Engine.pstate) (b : B) :
  Engine.mbind m k s = (Ok b, s') ->
  exists a s1, m s = (Ok a, s1) /\ k a s1 = (Ok b, s').
Proof.
  unfold Engine.mbind. destruct (m s) as [[a | e] s1]; intro H;
    [| discriminate H].
  exists a, s1. split; [reflexivity | exact H].
Qed.

Lemma lift_ok {A} (r : result A) (s s' : Engine.pstate) (a : A) :
  Engine.lift r s = (Ok a, s') -> r = Ok a /\ s' = s.
Proof. unfold Engine.lift. intro H. inversion H. split; reflexivity. Qed.

Lemma len_cons {A} (x : A) (l : list A) : Engine.len (x :: l) = Engine.len l + 1.
Proof. unfold Engine.len. cbn [List.length]. lia. Qed.

Lemma len_app {A} (l l' : list A) :
  Engine.len (l ++ l') = Engine.len l + Engine.len l'.
Proof. unfold Engine.len. rewrite length_app. lia. Qed.

Lemma len_map {A B} (f : A -> B) (l : list A) :
  Engine.len (map f l) = Engine.len l.
Proof. unfold Engine.len. rewrite length_map. reflexivity. Qed.

Lemma len_nonneg {A} (l : list A) : 0 <= Engine.len l.
Proof. unfold Engine.len. lia. Qed.

(** A filter stage counts what it drops in its own counter and leaves
    every projection of the report that the counter's setter leaves. *)
Lemma mfilter_counts {A} (test : A -> result bool)
    (get : Engine.ProcessingReport -> Z)
    (set : Z -> Engine.ProcessingReport -> Engine.ProcessingReport)
    (Hgs : forall n r, get (set n r) = n) (xs : list A) :
  forall s out s',
    Engine.mfilter
      (fun x =>
         Engine.mbind (Engine.lift (test x))
           (fun b => if b then Engine.mret true
                     else Engine.mbind (Engine.bump get set 1)
                            (fun _ => Engine.mret false))) xs s
    = (Ok out, s') ->
    get (fst s') = get (fst s) + (Engine.len xs - Engine.len out)
    /\ forall f : Engine.ProcessingReport -> Z,
         (forall n r, f (set n r) = f r) -> f (fst s') = f (fst s).
Proof.
  induction xs as [| x t IH]; intros s out s' H; cbn [Engine.mfilter] in H.
  - inversion H; subst. split; [cbn; lia | reflexivity].
  - apply mbind_ok in H. destruct H as (b & s1 & Hb & H).
    apply mbind_ok in H. destruct H as (ys & s2 & Hys & H).
    inversion H; subst. clear H.
    apply mbind_ok in Hb. destruct Hb as (b0 & s0 & Hl & Hb).
    apply lift_ok in Hl. destruct Hl as [_ ->].
    destruct (IH _ _ _ Hys) as [Hc Hf].
    destruct b0.
    + inversion Hb; subst. split.
      * rewrite Hc, !len_cons. lia.
      * exact Hf.
    + apply mbind_ok in Hb. destruct Hb as ([] & s3 & Hbump & Hb).
      inversion Hb; subst. clear Hb.
      unfold Engine.bump, Engine.update_report in Hbump.
      inversion Hbump; subst. clear Hbump. cbn [fst] in *. split.
      * rewrite Hc, Hgs, len_cons. lia.
      * intros f Hfs. rewrite (Hf f Hfs). apply Hfs.
Qed.

Lemma extraction_keeps_report (py_repr : pyval -> string)
    (raw_models : list pyval) :
  forall s out s',
    Engine._extract_gguf_models py_repr raw_models s = (Ok out, s') ->
    fst s' = fst s.
Proof.
  unfold Engine._extract_gguf_models.
  induction raw_models as [| raw t IH]; intros s out s' H;
    cbn [Engine.mconcat_map] in H.
  - inversion H. reflexivity.
  - apply mbind_ok in H. destruct H as (ys & s1 & Hys & H).
    apply mbind_ok in H. destruct H as (zs & s2 & Hzs & H).
    inversion H; subst. clear H. rewrite (IH _ _ _ Hzs).
    unfold Engine.extract_one, Engine.m_try, Engine.lift in Hys.
    destruct (Engine.gguf_entries py_repr raw) as [ms | e].
    + inversion Hys. reflexivity.
    + apply mbind_ok in Hys. destruct Hys as (id & s3 & Hid & Hys).
      destruct (py_get raw "id" (PStr "unknown")); inversion Hid; subst.
      apply mbind_ok in Hys. destruct Hys as ([] & s4 & Hap & Hys).
      inversion Hys; subst. inversion Hap. reflexivity.
Qed.

Lemma extraction_yields_full (py_repr : pyval -> string)
    (raw_models : list pyval) :
  yields (Forall (fun m : dict => is_nil m = false))
         (Engine._extract_gguf_models py_repr raw_models).
Proof.
  apply yields_mconcat_map. intros raw _ s models s' E.
  unfold Engine.extract_one, Engine.m_try, Engine.lift in E.
  destruct (Engine.gguf_entries py_repr raw) as [ms | e] eqn:Eg.
  - inversion E; subst. clear E. unfold Engine.gguf_entries in Eg.
    apply rbind_ok in Eg. destruct Eg as (has & _ & Eg).
    destruct (negb has); [injection Eg as <-; constructor |].
    apply rbind_ok in Eg. destruct Eg as (files & _ & Eg).
    apply rbind_ok in Eg. destruct Eg as (converted & _ & Eg).
    injection Eg as <-. apply Forall_forall. intros m Hm.
    apply in_flat_map in Hm. destruct Hm as (o & _ & Hm).
    unfold Engine.appended in Hm. destruct o as [d |]; [| destruct Hm].
    destruct (is_nil d) eqn:Ed; [destruct Hm |].
    destruct Hm as [<- | []]. exact Ed.
  - apply mbind_ok in E. destruct E as (id & s3 & _ & E).
    apply mbind_ok in E. destruct E as (u & s4 & _ & E).
    inversion E. constructor.
Qed.

Lemma count_trusted_counts (c : FilterConfig) (selected : list dict) :
  forall s u s',
    Engine.count_trusted c selected s = (Ok u, s') ->
    Engine.trusted_uploader_variants_kept (fst s')
    <= Engine.trusted_uploader_variants_kept (fst s) + Engine.len selected
    /\ Engine.trusted_uploader_variants_kept (fst s)
       <= Engine.trusted_uploader_variants_kept (fst s')
    /\ forall f : Engine.ProcessingReport -> Z,
         (forall n r,
             f (Engine.set_trusted_uploader_variants_kept n r) = f r) ->
         f (fst s') = f (fst s).
Proof.
  induction selected as [| v t IH]; intros s u s' H;
    cbn [Engine.count_trusted] in H.
  - inversion H; subst. cbn. split; [lia |]. split; [lia | reflexivity].
  - apply mbind_ok in H. destruct H as (trusted & s1 & Ht & H).
    apply lift_ok in Ht. destruct Ht as [_ ->].
    apply mbind_ok in H. destruct H as ([] & s2 & Hb & H).
    destruct (IH _ _ _ H) as (Hle & Hge & Hf). rewrite len_cons.
    destruct trusted.
    + unfold Engine.bump, Engine.update_report in Hb.
      inversion Hb; subst. clear Hb. cbn [fst] in *.
      cbn [Engine.trusted_uploader_variants_kept
             Engine.set_trusted_uploader_variants_kept] in *.
      split; [lia |]. split; [lia |].
      intros f Hfs. rewrite (Hf f Hfs). apply Hfs.
    + inversion Hb; subst. split; [lia |]. split; [lia | exact Hf].
Qed.

Lemma bump_ok (get : Engine.ProcessingReport -> Z)
    (set : Z -> Engine.ProcessingReport -> Engine.ProcessingReport) (n : Z)
    (s s' : Engine.pstate) (u : unit) :
  Engine.bump get set n s = (Ok u, s') ->
  s' = (set (get (fst s) + n) (fst s), snd s).
Proof.
  unfold Engine.bump, Engine.update_report. intro H. inversion H.
  reflexivity.
Qed.

Lemma select_in_group_counts (c : FilterConfig) (variants : list dict)
    (s s' : Engine.pstate) (selected : list dict) :
  Engine.select_in_group c variants s = (Ok selected, s') ->
  Engine.quantized_variants_kept (fst s')
  = Engine.quantized_variants_kept (fst s) + Engine.len selected
  /\ Engine.quantization_variants_removed (fst s')
     = Engine.quantization_variants_removed (fst s)
       + (Engine.len variants - Engine.len selected)
  /\ Engine.trusted_uploader_variants_kept (fst s)
     <= Engine.trusted_uploader_variants_kept (fst s')
     <= Engine.trusted_uploader_variants_kept (fst s) + Engine.len selected
  /\ Engine.base_models_kept (fst s') = Engine.base_models_kept (fst s)
  /\ Engine.total_processed (fst s') = Engine.total_processed (fst s)
  /\ Engine.small_models_removed (fst s')
     = Engine.small_models_removed (fst s)
  /\ Engine.finetuned_removed (fst s') = Engine.finetuned_removed (fst s).
Proof.
  unfold Engine.select_in_group. destruct variants as [| v0 vs]; cbn [is_nil].
  - intro H. inversion H; subst. cbn. repeat split; lia.
  - intro H.
    apply mbind_ok in H. destruct H as (sel & s1 & Hsel & H).
    apply lift_ok in Hsel. destruct Hsel as [_ ->].
    apply mbind_ok in H. destruct H as ([] & s2 & Hb1 & H).
    apply bump_ok in Hb1.
    apply mbind_ok in H. destruct H as ([] & s3 & Hb2 & H).
    apply bump_ok in Hb2.
    apply mbind_ok in H. destruct H as ([] & s4 & Hct & H).
    inversion H; subst. clear H.
    destruct (count_trusted_counts _ _ _ _ _ Hct) as (Hle & Hge & Hf).
    rewrite (Hf Engine.quantized_variants_kept),
            (Hf Engine.quantization_variants_removed),
            (Hf Engine.base_models_kept),
            (Hf Engine.total_processed),
            (Hf Engine.small_models_removed),
            (Hf Engine.finetuned_removed)
      by (intros; reflexivity).
    cbn [fst] in *.
    cbn [Engine.quantized_variants_kept Engine.quantization_variants_removed
           Engine.base_models_kept Engine.total_processed
           Engine.small_models_removed Engine.finetuned_removed
           Engine.trusted_uploader_variants_kept
           Engine.set_quantized_variants_kept
           Engine.set_quantization_variants_removed] in *.
    repeat split; lia.
Qed.

Lemma best_base_counts (bases : list dict) (s s' : Engine.pstate)
    (o : option dict) :
  Engine.best_base_model bases s = (Ok o, s') ->
  Engine.base_models_kept (fst s')
  = Engine.base_models_kept (fst s) + (if is_nil bases then 0 else 1)
  /\ match o with
     | None => bases = []
     | Some b => In b bases
     end
  /\ Engine.quantized_variants_kept (fst s')
     = Engine.quantized_variants_kept (fst s)
  /\ Engine.quantization_variants_removed (fst s')
     = Engine.quantization_variants_removed (fst s)
  /\ Engine.trusted_uploader_variants_kept (fst s')
     = Engine.trusted_uploader_variants_kept (fst s)
  /\ Engine.total_processed (fst s') = Engine.total_processed (fst s)
  /\ Engine.small_models_removed (fst s')
     = Engine.small_models_removed (fst s)
  /\ Engine.finetuned_removed (fst s') = Engine.finetuned_removed (fst s).
Proof.
  unfold Engine.best_base_model. destruct bases as [| first rest];
    cbn [is_nil]; intro H.
  - inversion H; subst. repeat split; lia.
  - apply mbind_ok in H. destruct H as (b & s1 & Hb & H).
    apply lift_ok in Hb. destruct Hb as [Hb ->].
    apply mbind_ok in H. destruct H as ([] & s2 & Hbump & H).
    apply bump_ok in Hbump. inversion H; subst. clear H.
    cbn [fst]. split; [reflexivity |]. split; [| repeat split].
    destruct (max_loop_member _ _ _ Hb) as [-> | Hin];
      [left; reflexivity | right; exact Hin].
Qed.

Lemma split_group_length (models : list dict) :
  forall parts,
    Engine.split_group models = Ok parts ->
    Engine.len models = Engine.len (fst parts) + Engine.len (snd parts).
Proof.
  induction models as [| m t IH]; intros parts H;
    cbn [Engine.split_group] in H.
  - injection H as <-. reflexivity.
  - apply rbind_ok in H. destruct H as (b & _ & H).
    apply rbind_ok in H. destruct H as (r & Hr & H).
    injection H as <-. specialize (IH _ Hr).
    destruct b; cbn [fst snd]; rewrite !len_cons; lia.
Qed.

(** What one turn on a group of non-empty entries does to the report. *)
Lemma filter_group_counts (c : FilterConfig) (name : string)
    (models : list dict) (s s' : Engine.pstate) (out : list dict) :
  Forall (fun m : dict => is_nil m = false) models ->
  Engine.filter_group c (name, models) s = (Ok out, s') ->
  Engine.base_models_kept (fst s') + Engine.quantized_variants_kept (fst s')
  = Engine.base_models_kept (fst s) + Engine.quantized_variants_kept (fst s)
    + Engine.len out
  /\ Engine.quantization_variants_removed (fst s') + Engine.len out
     <= Engine.quantization_variants_removed (fst s) + Engine.len models
  /\ Engine.trusted_uploader_variants_kept (fst s')
     - Engine.trusted_uploader_variants_kept (fst s)
     <= Engine.quantized_variants_kept (fst s')
        - Engine.quantized_variants_kept (fst s)
  /\ Engine.trusted_uploader_variants_kept (fst s)
     <= Engine.trusted_uploader_variants_kept (fst s')
  /\ Engine.total_processed (fst s') = Engine.total_processed (fst s)
  /\ Engine.small_models_removed (fst s')
     = Engine.small_models_removed (fst s)
  /\ Engine.finetuned_removed (fst s') = Engine.finetuned_removed (fst s).
Proof.
  intros Hfull H. unfold Engine.filter_group in H.
  apply mbind_ok in H. destruct H as ([bases variants] & s1 & Hsplit & H).
  apply lift_ok in Hsplit. destruct Hsplit as [Hsplit ->].
  apply mbind_ok in H. destruct H as (base & s2 & Hbase & H).
  apply mbind_ok in H. destruct H as (sel & s3 & Hsel & H).
  apply mbind_ok in H. destruct H as ([] & s4 & Hup & H).
  inversion H; subst. clear H.
  unfold Engine.update_report in Hup. inversion Hup; subst. clear Hup.
  pose proof (split_group_length _ _ Hsplit) as Hlen. cbn [fst snd] in Hlen.
  destruct (split_group_spec _ _ Hsplit) as [Hb _]. cbn [fst] in Hb.
  destruct (best_base_counts _ _ _ _ Hbase)
    as (B1 & B2 & B3 & B4 & B5 & B6 & B7 & B8).
  destruct (select_in_group_counts _ _ _ _ _ Hsel)
    as (S1 & S2 & S3 & S4 & S5 & S6 & S7).
  assert (Hpresent : Engine.len (Engine.present base)
                     = if is_nil bases then 0 else 1).
  { destruct base as [b |]; cbn [Engine.present].
    - destruct bases as [| b0 bt]; [destruct B2 |]. cbn [is_nil].
      apply Hb in B2. destruct B2 as [Hbm _].
      rewrite Forall_forall in Hfull. rewrite (Hfull b Hbm). reflexivity.
    - subst bases. reflexivity. }
  assert (Hbases : (if is_nil bases then 0 else 1) <= Engine.len bases).
  { destruct bases; [cbn; lia |]. rewrite len_cons.
    pose proof (len_nonneg bases). cbn [is_nil]. lia. }
  pose proof (len_nonneg sel) as Hsel0.
  pose proof (len_nonneg (Engine.present base)) as Hp0.
  rewrite len_app. cbn [fst].
  cbn [Engine.base_models_kept Engine.quantized_variants_kept
         Engine.quantization_variants_removed
         Engine.trusted_uploader_variants_kept Engine.total_processed
         Engine.small_models_removed Engine.finetuned_removed
         Engine.add_group_stats Engine.set_model_group_stats].
  repeat split; lia.
Qed.

Lemma filter_groups_counts (c : FilterConfig)
    (groups : list (string * list dict)) :
  Forall (fun g => Forall (fun m : dict => is_nil m = false) (snd g))
         groups ->
  forall s out s',
    Engine._filter_variants_in_groups c groups s = (Ok out, s') ->
    Engine.base_models_kept (fst s') + Engine.quantized_variants_kept (fst s')
    = Engine.base_models_kept (fst s)
      + Engine.quantized_variants_kept (fst s) + Engine.len out
    /\ Engine.quantization_variants_removed (fst s') + Engine.len out
       <= Engine.quantization_variants_removed (fst s)
          + Engine.len (List.concat (map snd groups))
    /\ Engine.trusted_uploader_variants_kept (fst s')
       - Engine.trusted_uploader_variants_kept (fst s)
       <= Engine.quantized_variants_kept (fst s')
          - Engine.quantized_variants_kept (fst s)
    /\ Engine.trusted_uploader_variants_kept (fst s)
       <= Engine.trusted_uploader_variants_kept (fst s')
    /\ Engine.total_processed (fst s') = Engine.total_processed (fst s)
    /\ Engine.small_models_removed (fst s')
       = Engine.small_models_removed (fst s)
    /\ Engine.finetuned_removed (fst s') = Engine.finetuned_removed (fst s).
Proof.
  unfold Engine._filter_variants_in_groups.
  induction 1 as [| [name models] t Hg Ht IH]; intros s out s' H;
    cbn [Engine.mconcat_map] in H.
  - inversion H; subst. cbn. repeat split; lia.
  - apply mbind_ok in H. destruct H as (ys & s1 & Hys & H).
    apply mbind_ok in H. destruct H as (zs & s2 & Hzs & H).
    inversion H; subst. clear H. cbn [snd] in Hg.
    pose proof (filter_group_counts _ _ _ _ _ _ Hg Hys) as G.
    pose proof (IH _ _ _ Hzs) as T.
    cbn [map List.concat snd]. rewrite !len_app.
    repeat split; lia.
Qed.

Lemma group_append_length (groups : list (string * list dict)) (k : string)
    (model : dict) :
  Engine.len (List.concat (map snd (Engine.group_append groups k model)))
  = Engine.len (List.concat (map snd groups)) + 1.
Proof.
  induction groups as [| [k0 ms0] t IH]; cbn [Engine.group_append].
  - reflexivity.
  - destruct (String.eqb k k0); cbn [map List.concat snd];
      rewrite !len_app; [cbn; lia | rewrite IH; lia].
Qed.

Lemma group_loop_length (c : FilterConfig) (models : list dict) :
  forall groups0 groups,
    Engine.group_loop c models groups0 = Ok groups ->
    Engine.len (List.concat (map snd groups))
    = Engine.len (List.concat (map snd groups0)) + Engine.len models.
Proof.
  induction models as [| m t IH]; intros groups0 groups H;
    cbn [Engine.group_loop] in H.
  - injection H as <-. cbn. lia.
  - apply rbind_ok in H. destruct H as (k & _ & H).
    rewrite (IH _ _ H), group_append_length, len_cons. lia.
Qed.

(** After a run in which no stage raised, the report adds up: the
    processed count is the number of extracted entries, the kept count
    the number of returned entries, the removed count their difference;
    every returned entry is counted once, as a base model or as a
    quantized variant; the three removal counters together do not exceed
    the removed count (a base entry dropped in favour of a larger one is
    in none of them); and the trusted variants are among the quantized
    variants kept. *)
Theorem report_adds_up
    (py_repr : pyval -> string) (c : FilterConfig) (t0 t1 : spec_float)
    (raw : list pyval) (gguf enhanced : list dict)
    (report : Engine.ProcessingReport) (errs : list string) :
  Engine.stages py_repr c raw fresh = (Ok (gguf, enhanced), (report, errs)) ->
  let r := Engine.processing_report
             (Engine.filter_models py_repr c t0 t1 raw) in
  Engine.total_processed r = Engine.len gguf
  /\ Engine.total_kept r = Engine.len enhanced
  /\ Engine.total_removed r = Engine.total_processed r - Engine.total_kept r
  /\ Engine.total_kept r
     = Engine.base_models_kept r + Engine.quantized_variants_kept r
  /\ Engine.small_models_removed r + Engine.finetuned_removed r
     + Engine.quantization_variants_removed r <= Engine.total_removed r
  /\ 0 <= Engine.trusted_uploader_variants_kept r
       <= Engine.quantized_variants_kept r.
Proof.
  intros Hst r. subst r. unfold Engine.filter_models.
  change (Engine.new_report, @nil string) with fresh. rewrite Hst.
  cbn [Engine.processing_report Engine.calculate_totals
         Engine.set_total_removed Engine.set_processing_time_seconds
         Engine.set_total_kept Engine.total_processed Engine.total_kept
         Engine.total_removed Engine.base_models_kept
         Engine.quantized_variants_kept Engine.small_models_removed
         Engine.finetuned_removed Engine.quantization_variants_removed
         Engine.trusted_uploader_variants_kept].
  unfold Engine.stages in Hst.
  apply mbind_ok in Hst. destruct Hst as (g & s1 & Hext & Hst).
  apply mbind_ok in Hst. destruct Hst as ([] & s2 & Hup & Hst).
  apply mbind_ok in Hst. destruct Hst as (f & s3 & Hsmall & Hst).
  apply mbind_ok in Hst. destruct Hst as (b & s4 & Hfine & Hst).
  apply mbind_ok in Hst. destruct Hst as (groups & s5 & Hgroup & Hst).
  apply mbind_ok in Hst. destruct Hst as (final & s6 & Hfinal & Hst).
  inversion Hst; subst. clear Hst.
  pose proof (extraction_keeps_report _ _ _ _ _ Hext) as E1.
  pose proof (extraction_yields_full _ _ _ _ _ Hext) as F1.
  unfold Engine.update_report in Hup. inversion Hup; subst. clear Hup.
  pose proof (yields_mfilter _ _ _ F1 _ _ _ Hsmall) as F2.
  pose proof (yields_mfilter _ _ _ F2 _ _ _ Hfine) as F3.
  destruct (mfilter_counts _ Engine.small_models_removed
              Engine.set_small_models_removed (fun _ _ => eq_refl)
              _ _ _ _ Hsmall) as [C2 Fr2].
  destruct (mfilter_counts _ Engine.finetuned_removed
              Engine.set_finetuned_removed (fun _ _ => eq_refl)
              _ _ _ _ Hfine) as [C3 Fr3].
  unfold Engine._group_models_by_base in Hgroup.
  apply lift_ok in Hgroup. destruct Hgroup as [Hgroup ->].
  pose proof (group_loop_length _ _ _ _ Hgroup) as L4.
  assert (F4 : Forall (fun grp => Forall (fun m : dict => is_nil m = false)
                                         (snd grp)) groups).
  { apply Forall_forall. intros [k ms] Hin. cbn [snd].
    apply Forall_forall. intros x Hx.
    destruct (group_loop_member c b [] groups k ms x Hgroup Hin Hx)
      as [H | (ms0 & [] & _)].
    rewrite Forall_forall in F3. apply F3, H. }
  destruct (filter_groups_counts c groups F4 _ _ _ Hfinal)
    as (K1 & K2 & K3 & K4 & K5 & K6 & K7).
  unfold Engine._add_hardware_requirements. rewrite len_map.
  pose proof (Fr2 Engine.total_processed (fun _ _ => eq_refl)) as T2.
  pose proof (Fr3 Engine.total_processed (fun _ _ => eq_refl)) as T3.
  pose proof (Fr3 Engine.small_models_removed (fun _ _ => eq_refl)) as S3.
  pose proof (Fr2 Engine.finetuned_removed (fun _ _ => eq_refl)) as N2.
  pose proof (Fr2 Engine.base_models_kept (fun _ _ => eq_refl)) as B2.
  pose proof (Fr3 Engine.base_models_kept (fun _ _ => eq_refl)) as B3.
  pose proof (Fr2 Engine.quantized_variants_kept (fun _ _ => eq_refl)) as Q2.
  pose proof (Fr3 Engine.quantized_variants_kept (fun _ _ => eq_refl)) as Q3.
  pose proof (Fr2 Engine.quantization_variants_removed
                (fun _ _ => eq_refl)) as R2.
  pose proof (Fr3 Engine.quantization_variants_removed
                (fun _ _ => eq_refl)) as R3.
  pose proof (Fr2 Engine.trusted_uploader_variants_kept
                (fun _ _ => eq_refl)) as U2.
  pose proof (Fr3 Engine.trusted_uploader_variants_kept
                (fun _ _ => eq_refl)) as U3.
  cbn [fst Engine.total_processed Engine.set_total_processed
         Engine.small_models_removed Engine.finetuned_removed
         Engine.base_models_kept Engine.quantized_variants_kept
         Engine.quantization_variants_removed
         Engine.trusted_uploader_variants_kept] in *.
  rewrite E1 in *. unfold fresh in *.
  cbn [fst Engine.new_report Engine.small_models_removed
         Engine.finetuned_removed Engine.base_models_kept
         Engine.quantized_variants_kept
         Engine.quantization_variants_removed
         Engine.trusted_uploader_variants_kept] in *.
  cbn [List.concat map] in L4. change (Engine.len (@nil dict)) with 0 in L4.
  repeat split; lia.
Qed.

Lemma report_adds_up_witness :
  let r := Engine.processing_report
             (Engine.filter_models sample_repr
                (with_min_size 5000000000 default_config)
                clock_0 clock_1 fatal_batch) in
  Engine.total_processed r = 3
  /\ Engine.total_kept r = 1
  /\ Engine.total_removed r = Engine.total_processed r - Engine.total_kept r
  /\ Engine.total_kept r
     = Engine.base_models_kept r + Engine.quantized_variants_kept r
  /\ Engine.small_models_removed r + Engine.finetuned_removed r
     + Engine.quantization_variants_removed r <= Engine.total_removed r
  /\ 0 <= Engine.trusted_uploader_variants_kept r
       <= Engine.quantized_variants_kept r.
Proof.
  destruct (Engine.stages sample_repr
              (with_min_size 5000000000 default_config) fatal_batch fresh)
    as [[[gguf enhanced] | e] [report errs]] eqn:E.
  - assert (Hg : Engine.len gguf = 3)
      by (vm_compute in E; inversion E; reflexivity).
    assert (He : Engine.len enhanced = 1)
      by (vm_compute in E; inversion E; reflexivity).
    pose proof (report_adds_up sample_repr
                  (with_min_size 5000000000 default_config) clock_0 clock_1
                  fatal_batch gguf enhanced report errs E) as H.
    cbv zeta in H. rewrite Hg, He in H. exact H.
  - vm_compute in E. discriminate E.
Defined.

(** ** quantization_selector.py: what is never kept *)

(** After the first variant of a group, a variant with fewer downloads
    than [min_downloads] is dropped, whatever its size and its format,
    unless its uploader is trusted and it has at least 50 downloads. *)
Theorem unpopular_variant_dropped (c : FilterConfig) (variant : dict)
    (kept_variants : list dict) (n : Z) (trusted : bool) :
  kept_variants <> [] ->
  dict_get variant "downloadCount" (PInt 0) = PInt n ->
  Selector.is_trusted_uploader c variant = Ok trusted ->
  n < min_downloads c ->
  (trusted = true -> n < 50) ->
  Selector.should_keep_variant c variant kept_variants = Ok false.
Proof.
  intros Hk Hn Ht Hlow Hlen. unfold Selector.should_keep_variant.
  destruct kept_variants as [| k0 ks]; [contradiction |]. cbn [is_nil].
  rewrite Ht. cbn [rbind]. unfold Selector.meets_download_threshold.
  rewrite Hn, !py_ge_int.
  assert (Hpop : (min_downloads c <=? n) = false) by (apply Z.leb_gt, Hlow).
  destruct trusted.
  - assert (H50 : (50 <=? n) = false)
      by (apply Z.leb_gt, Hlen; reflexivity).
    rewrite H50. cbn [rbind]. rewrite Hpop. reflexivity.
  - cbn [rbind]. rewrite Hpop. reflexivity.
Qed.

Lemma unpopular_variant_witness :
  Selector.should_keep_variant default_config entry_q8 [entry_f16] = Ok false.
Proof.
  apply (unpopular_variant_dropped default_config entry_q8 [entry_f16]
           40 false).
  - discriminate.
  - vm_compute. reflexivity.
  - vm_compute. reflexivity.
  - vm_compute. reflexivity.
  - discriminate.
Defined.

(** ** engine.py: clean batches *)

Lemma returns_ret {A} (Q : A -> Prop) (a : A) :
  Q a -> returns Q (Engine.mret a).
Proof. intros H s. exists a, s. split; [reflexivity | exact H]. Qed.

Lemma returns_lift {A} (Q : A -> Prop) (r : result A) (a : A) :
  r = Ok a -> Q a -> returns Q (Engine.lift r).
Proof. intros -> H s. exists a, s. split; [reflexivity | exact H]. Qed.

Lemma returns_bind {A B} (Q1 : A -> Prop) (Q2 : B -> Prop)
    (m : Engine.M A) (k : A -> Engine.M B) :
  returns Q1 m -> (forall a, Q1 a -> returns Q2 (k a)) ->
  returns Q2 (Engine.mbind m k).
Proof.
  intros Hm Hk s. destruct (Hm s) as (a & s1 & E & Ha).
  destruct (Hk a Ha s1) as (b & s2 & E2 & Hb).
  exists b, s2. unfold Engine.mbind. rewrite E. split; assumption.
Qed.

Lemma returns_bump (get : Engine.ProcessingReport -> Z)
    (set : Z -> Engine.ProcessingReport -> Engine.ProcessingReport) (n : Z) :
  returns (fun _ => True) (Engine.bump get set n).
Proof. intro s. eexists; eexists. split; [reflexivity | exact I]. Qed.

Lemma returns_update
    (f : Engine.ProcessingReport -> Engine.ProcessingReport) :
  returns (fun _ => True) (Engine.update_report f).
Proof. intro s. eexists; eexists. split; [reflexivity | exact I]. Qed.

Lemma returns_mfilter {A} (Q : A -> Prop) (f : A -> Engine.M bool)
    (xs : list A) :
  Forall (fun x => Q x /\ returns (fun _ => True) (f x)) xs ->
  returns (Forall Q) (Engine.mfilter f xs).
Proof.
  induction 1 as [| x t [Hx Hf] _ IH]; cbn [Engine.mfilter].
  - apply returns_ret. constructor.
  - eapply returns_bind; [exact Hf |]. intros b _.
    eapply returns_bind; [exact IH |]. intros ys Hys.
    apply returns_ret. destruct b; [constructor |]; assumption.
Qed.

Lemma returns_mconcat_map {A B} (Q : B -> Prop)
    (f : A -> Engine.M (list B)) (xs : list A) :
  Forall (fun x => returns (Forall Q) (f x)) xs ->
  returns (Forall Q) (Engine.mconcat_map f xs).
Proof.
  induction 1 as [| x t Hx _ IH]; cbn [Engine.mconcat_map].
  - apply returns_ret. constructor.
  - eapply returns_bind; [exact Hx |]. intros ys Hys.
    eapply returns_bind; [exact IH |]. intros zs Hzs.
    apply returns_ret. apply Forall_app. split; assumption.
Qed.

Lemma rmap_In {A B} (f : A -> result B) (xs : list A) :
  forall ys, rmap f xs = Ok ys ->
             forall y, In y ys -> exists x, In x xs /\ f x = Ok y.
Proof.
  induction xs as [| x t IH]; intros ys H y Hy; cbn in H.
  - injection H as <-. destruct Hy.
  - apply rbind_ok in H. destruct H as (y0 & Hy0 & H).
    apply rbind_ok in H. destruct H as (ys' & Hys & H).
    injection H as <-. destruct Hy as [<- | Hy].
    + exists x. split; [left; reflexivity | exact Hy0].
    + destruct (IH _ Hys _ Hy) as (x' & Hx' & E).
      exists x'. split; [right; exact Hx' | exact E].
Qed.

(** The entries built from a clean record have well-typed fields. *)
Lemma built_entries_plain (py_repr : pyval -> string) (raw_model : pyval)
    (entries : list dict) :
  clean_record raw_model ->
  Engine.gguf_entries py_repr raw_model = Ok entries ->
  Forall plain_entry entries.
Proof.
  intros (d & -> & [n Hn] & Hsizes) H. unfold Engine.gguf_entries in H.
  apply rbind_ok in H. destruct H as (has & _ & H).
  destruct (negb has); [injection H as <-; constructor |].
  apply rbind_ok in H. destruct H as (files & Hfiles & H).
  apply rbind_ok in H. destruct H as (models & Hmodels & H).
  injection H as <-.
  unfold Engine._get_gguf_files in Hfiles. cbn [py_get rbind] in Hfiles.
  apply rbind_ok in Hfiles. destruct Hfiles as (sibs & Hsibs & Hfiles).
  destruct (rfilter_spec _ _ _ Hfiles) as [_ Hin].
  apply Forall_forall. intros e He.
  apply in_flat_map in He. destruct He as (o & Ho & He).
  unfold Engine.appended in He. destruct o as [m |]; [| destruct He].
  destruct (is_nil m); [destruct He |]. destruct He as [<- | []].
  destruct (rmap_In _ _ _ Hmodels _ Ho) as (file & Hfile & Hconv).
  cbn [Engine._convert_of] in Hconv. injection Hconv as Hconv.
  unfold Engine._convert_to_expected_format in Hconv.
  destruct file as [| | | | | | f]; try discriminate Hconv.
  destruct (dict_get f "rfilename" (PStr "")) as [| | | | filename | |];
    try discriminate Hconv.
  destruct (Engine.convert_body py_repr d f filename) as [model |] eqn:Eb;
    [| discriminate Hconv].
  injection Hconv as <-.
  destruct (Hsizes sibs Hsibs f (proj1 (proj1 (Hin _) Hfile)))
    as (z & Hz & Hz0).
  unfold Engine.convert_body in Eb.
  apply rbind_ok in Eb. destruct Eb as (name & _ & Eb).
  apply rbind_ok in Eb. destruct Eb as (text & _ & Eb).
  apply rbind_ok in Eb. destruct Eb as (id_text & _ & Eb).
  injection Eb as <-. rewrite Hz, Hn.
  repeat split; try (eexists; reflexivity).
  exists z. split; [reflexivity | exact Hz0].
Qed.

Lemma extraction_returns_plain (py_repr : pyval -> string)
    (raw_models : list pyval) :
  Forall clean_record raw_models ->
  returns (Forall plain_entry)
          (Engine._extract_gguf_models py_repr raw_models).
Proof.
  intro Hclean. apply returns_mconcat_map.
  eapply Forall_impl; [| exact Hclean]. intros raw Hraw s.
  unfold Engine.extract_one, Engine.m_try, Engine.lift.
  destruct (Engine.gguf_entries py_repr raw) as [ms | e] eqn:Eg.
  - exists ms, s. split; [reflexivity |].
    eapply built_entries_plain; eassumption.
  - destruct Hraw as (d & -> & _). cbn [py_get].
    eexists; eexists. split; [reflexivity | constructor].
Qed.

Lemma get_or_empty_lower_returns (e : dict) (k s : string) :
  dict_get e k (PStr "") = PStr s ->
  exists t, get_or_empty_lower e k = Ok t.
Proof.
  unfold get_or_empty_lower, dict_get.
  destruct (dict_find e k) as [v |]; intro H.
  - subst v. destruct (truthy (PStr s)); eexists; reflexivity.
  - eexists; reflexivity.
Qed.

Lemma is_base_model_returns (c : FilterConfig) (e : dict) :
  plain_entry e -> exists b, Classifier.is_base_model c e = Ok b.
Proof.
  intros ((hf & Hhf) & _ & (nm & Hnm) & _).
  destruct (get_or_empty_lower_returns e "modelName" nm Hnm) as [n En].
  destruct (get_or_empty_lower_returns e "huggingFaceLink" hf Hhf)
    as [l El].
  unfold Classifier.is_base_model, Classifier.is_finetuned.
  rewrite En, El. cbn [rbind].
  repeat match goal with
         | |- context [if ?b then _ else _] => destruct b; cbn [rbind]
         end; eexists; reflexivity.
Qed.

Lemma group_key_returns (c : FilterConfig) (e : dict) :
  plain_entry e -> exists k, Classifier.get_base_model_group c e = Ok k.
Proof.
  intros (_ & _ & (nm & Hnm) & _).
  destruct (get_or_empty_lower_returns e "modelName" nm Hnm) as [n En].
  unfold Classifier.get_base_model_group. rewrite En. cbn [rbind].
  eexists; reflexivity.
Qed.

Lemma group_loop_returns (c : FilterConfig) (models : list dict) :
  Forall plain_entry models ->
  forall groups0, exists groups, Engine.group_loop c models groups0 = Ok groups.
Proof.
  induction 1 as [| m t Hm _ IH]; intro groups0; cbn [Engine.group_loop].
  - eexists; reflexivity.
  - destruct (group_key_returns c m Hm) as [k ->]. cbn [rbind]. apply IH.
Qed.

Lemma is_base_entry_returns (e : dict) :
  plain_entry e -> exists b, Engine.is_base_entry e = Ok b.
Proof.
  intros (_ & _ & (nm & Hnm) & (q & Hq) & _). unfold Engine.is_base_entry.
  rewrite Hq, Hnm. cbn [py_upper py_lower rbind].
  destruct (existsb _ _); eexists; reflexivity.
Qed.

Lemma split_group_returns (models : list dict) :
  Forall plain_entry models ->
  exists parts, Engine.split_group models = Ok parts.
Proof.
  induction 1 as [| m t Hm _ [parts IH]]; cbn [Engine.split_group].
  - eexists; reflexivity.
  - destruct (is_base_entry_returns m Hm) as [b ->]. rewrite IH.
    cbn [rbind]. eexists; reflexivity.
Qed.

Lemma max_loop_returns (items : list dict) :
  Forall plain_entry items ->
  forall best, plain_entry best ->
               exists r, Engine.max_loop best items = Ok r.
Proof.
  induction 1 as [| x t Hx _ IH]; intros best Hb; cbn [Engine.max_loop].
  - eexists; reflexivity.
  - pose proof Hx as (_ & _ & _ & _ & _ & zx & Ex & _).
    pose proof Hb as (_ & _ & _ & _ & _ & zb & Eb & _).
    rewrite Ex, Eb, py_gt_int. cbn [rbind].
    apply IH. destruct (zb <? zx); assumption.
Qed.

Lemma count_trusted_returns (c : FilterConfig) (selected : list dict) :
  Forall plain_entry selected ->
  returns (fun _ => True) (Engine.count_trusted c selected).
Proof.
  induction 1 as [| v t Hv _ IH]; cbn [Engine.count_trusted].
  - apply returns_ret. exact I.
  - destruct (trusted_returns c v Hv) as [b Hb].
    eapply returns_bind; [eapply returns_lift; [exact Hb | exact I] |].
    intros b' _.
    eapply returns_bind with (Q1 := fun _ => True).
    + destruct b'; [apply returns_bump | apply returns_ret; exact I].
    + intros _ _. exact IH.
Qed.

(** One turn on a group of entries with well-typed fields returns, and
    hands on entries of the group. *)
Lemma filter_group_returns (c : FilterConfig) (name : string)
    (models : list dict) :
  Forall plain_entry models ->
  returns (Forall plain_entry) (Engine.filter_group c (name, models)).
Proof.
  intro Hp. unfold Engine.filter_group.
  destruct (split_group_returns models Hp) as [[bases variants] Hsplit].
  destruct (split_group_spec _ _ Hsplit) as [Hb Hv]. cbn [fst snd] in Hb, Hv.
  assert (Hpb : Forall plain_entry bases).
  { apply Forall_forall. intros x Hx. rewrite Forall_forall in Hp.
    apply Hp, Hb, Hx. }
  assert (Hpv : Forall plain_entry variants).
  { apply Forall_forall. intros x Hx. rewrite Forall_forall in Hp.
    apply Hp, Hv, Hx. }
  eapply returns_bind with
    (Q1 := fun parts => parts = (bases, variants)).
  { eapply returns_lift; [exact Hsplit | reflexivity]. }
  intros parts ->.
  eapply returns_bind with
    (Q1 := fun o : option dict => Forall plain_entry (Engine.present o)).
  { unfold Engine.best_base_model.
    destruct Hpb as [| first rest Hfirst Hrest].
    - apply returns_ret. constructor.
    - destruct (max_loop_returns rest Hrest first Hfirst) as [r Hr].
      eapply returns_bind with (Q1 := fun r' => r' = r).
      + eapply returns_lift; [exact Hr | reflexivity].
      + intros r' ->.
        eapply returns_bind; [apply returns_bump |]. intros _ _.
        apply returns_ret. cbn [Engine.present].
        destruct (is_nil r); [constructor |].
        constructor; [| constructor].
        destruct (max_loop_member _ _ _ Hr) as [-> | Hin];
          [exact Hfirst |].
        rewrite Forall_forall in Hrest. apply Hrest, Hin. }
  intros base Hbase.
  eapply returns_bind with (Q1 := Forall plain_entry).
  { unfold Engine.select_in_group. destruct (is_nil variants).
    - apply returns_ret. constructor.
    - destruct (selection_returns c variants Hpv) as [kept Hsel].
      assert (Hpk : Forall plain_entry kept).
      { apply Forall_forall. intros x Hx. rewrite Forall_forall in Hpv.
        apply Hpv, (selection_member c _ _ Hsel x Hx). }
      eapply returns_bind with (Q1 := fun sel => sel = kept).
      + eapply returns_lift; [exact Hsel | reflexivity].
      + intros sel ->.
        eapply returns_bind; [apply returns_bump |]. intros _ _.
        eapply returns_bind; [apply returns_bump |]. intros _ _.
        eapply returns_bind; [apply count_trusted_returns, Hpk |].
        intros _ _. apply returns_ret. exact Hpk. }
  intros sel Hsel.
  eapply returns_bind; [apply returns_update |]. intros _ _.
  apply returns_ret. apply Forall_app. split; assumption.
Qed.

(** On a batch of clean records no stage raises: the run does not end
    in the failure branch, and the errors of the result are the ones
    recorded for single records while extracting. *)
Theorem clean_batch_never_fails
    (py_repr : pyval -> string) (c : FilterConfig) (t0 t1 : spec_float)
    (raw : list pyval) :
  Forall clean_record raw ->
  exists gguf enhanced report errs,
    Engine.stages py_repr c raw fresh = (Ok (gguf, enhanced), (report, errs))
    /\ Engine.filtered_models (Engine.filter_models py_repr c t0 t1 raw)
       = enhanced
    /\ Engine.errors (Engine.filter_models py_repr c t0 t1 raw) = errs.
Proof.
  intro Hclean.
  assert (Hr : returns (fun _ => True) (Engine.stages py_repr c raw)).
  { unfold Engine.stages.
    eapply returns_bind; [apply extraction_returns_plain, Hclean |].
    intros g Hg.
    eapply returns_bind; [apply returns_update |]. intros _ _.
    eapply returns_bind with (Q1 := Forall plain_entry).
    { apply returns_mfilter. eapply Forall_impl; [| exact Hg].
      intros e He. split; [exact He |].
      pose proof He as (_ & _ & _ & _ & _ & z & Ez & _).
      rewrite Ez, py_ge_int.
      eapply returns_bind with (Q1 := fun _ => True);
        [eapply returns_lift; [reflexivity | exact I] |].
      intros big _. destruct big; [apply returns_ret; exact I |].
      eapply returns_bind; [apply returns_bump |]. intros _ _.
      apply returns_ret. exact I. }
    intros f Hf.
    eapply returns_bind with (Q1 := Forall plain_entry).
    { apply returns_mfilter. eapply Forall_impl; [| exact Hf].
      intros e He. split; [exact He |].
      destruct (is_base_model_returns c e He) as [b Hb].
      eapply returns_bind with (Q1 := fun _ => True);
        [eapply returns_lift; [exact Hb | exact I] |].
      intros base _. destruct base; [apply returns_ret; exact I |].
      eapply returns_bind; [apply returns_bump |]. intros _ _.
      apply returns_ret. exact I. }
    intros b Hb.
    eapply returns_bind with
      (Q1 := Forall (fun grp : string * list dict =>
                       Forall plain_entry (snd grp))).
    { unfold Engine._group_models_by_base.
      destruct (group_loop_returns c b Hb []) as [groups Hgroups].
      eapply returns_lift; [exact Hgroups |].
      apply Forall_forall. intros [k ms] Hin. cbn [snd].
      apply Forall_forall. intros x Hx.
      destruct (group_loop_member c b [] groups k ms x Hgroups Hin Hx)
        as [H | (ms0 & [] & _)].
      rewrite Forall_forall in Hb. apply Hb, H. }
    intros groups Hgroups.
    eapply returns_bind with (Q1 := Forall plain_entry).
    { apply returns_mconcat_map. eapply Forall_impl; [| exact Hgroups].
      intros [name ms] Hms. apply filter_group_returns, Hms. }
    intros final _. apply returns_ret. exact I. }
  destruct (Hr fresh) as ([gguf enhanced] & [report errs] & E & _).
  exists gguf, enhanced, report, errs. split; [exact E |].
  unfold Engine.filter_models.
  change (Engine.new_report, @nil string) with fresh. rewrite E.
  split; reflexivity.
Qed.

Lemma clean_batch_witness :
  exists gguf enhanced report errs,
    Engine.stages sample_repr default_config [raw_llama] fresh
    = (Ok (gguf, enhanced), (report, errs))
    /\ Engine.filtered_models
         (Engine.filter_models sample_repr default_config clock_0 clock_1
            [raw_llama])
       = enhanced
    /\ Engine.errors
         (Engine.filter_models sample_repr default_config clock_0 clock_1
            [raw_llama])
       = errs.
Proof.
  apply (clean_batch_never_fails sample_repr default_config clock_0 clock_1
           [raw_llama]).
  constructor; [| constructor].
  eexists. split; [reflexivity |].
  split; [eexists; vm_compute; reflexivity |].
  intros files H. vm_compute in H. injection H as <-.
  intros f [E | [E | []]]; injection E as <-;
    eexists; (split; [vm_compute; reflexivity | vm_compute; discriminate]).
Defined.
